(** * The telemetry collector [scripts/sysmon-update.py]

    A shallow embedding of the three source adapters ([get_pihole_stats],
    [get_server_stats], [get_docker_containers]) and of [main], followed by
    the properties of the collector.

    Modelling conventions.
    - A Python [str] is a [string]: a sequence of code points below 256.
    - A Python [int] is a [Z]; a Python [float] is the exact rational value
      [Q] of the binary64 number.  The conversion of an [int] and the
      division round to the nearest binary64 number; the values that the
      libraries hand over are taken as they are, and infinities and NaN are
      outside the model.
    - A [dict] is an association list in insertion order with distinct keys.
    - Only exceptions derived from [Exception] are modelled.
    - Everything the script obtains from outside (the [requests], [psutil],
      [subprocess] and [json] libraries, the file system, the clock, the
      configuration read at import time) is a field of the record [world];
      every external call is recorded in a chronological trace of events. *)

From Stdlib Require Import ZArith QArith Qround Qabs Qpower String Ascii List Bool Lia Lqa.
From Stdlib Require Qcanon.
From Stdlib Require Import Sorting.Sorted Sorting.Permutation DecimalString.
Import ListNotations.

Set Implicit Arguments.

Notation "s1 ^^ s2" := (String.append s1 s2) (at level 60, right associativity).

Local Open Scope string_scope.
Local Open Scope list_scope.
Local Open Scope Z_scope.

(** ** Python strings *)

Module Py.

(** [str.isspace] on one code point below 256. *)
Definition isspace (c : ascii) : bool :=
  let n := N_of_ascii c in
  (((9 <=? n) && (n <=? 13)) || ((28 <=? n) && (n <=? 32))
   || (n =? 133) || (n =? 160))%N.

(** The line boundaries of [str.splitlines] below 256:
    LF, VT, FF, CR, FS, GS, RS and NEL. *)
Definition is_linebreak (c : ascii) : bool :=
  let n := N_of_ascii c in
  (((10 <=? n) && (n <=? 13)) || ((28 <=? n) && (n <=? 30)) || (n =? 133))%N.

Definition is_cr (c : ascii) : bool := (N_of_ascii c =? 13)%N.
Definition is_lf (c : ascii) : bool := (N_of_ascii c =? 10)%N.

Definition is_empty (s : string) : bool :=
  match s with EmptyString => true | String _ _ => false end.

Definition snoc (s : string) (c : ascii) : string := s ^^ String c EmptyString.

Fixpoint lstrip (s : string) : string :=
  match s with
  | EmptyString => EmptyString
  | String c s' => if isspace c then lstrip s' else s
  end.

Fixpoint rstrip (s : string) : string :=
  match s with
  | EmptyString => EmptyString
  | String c s' =>
      match rstrip s' with
      | EmptyString => if isspace c then EmptyString else String c EmptyString
      | r => String c r
      end
  end.

(** [s.strip()] *)
Definition strip (s : string) : string := rstrip (lstrip s).

(** [s.splitlines()]: [cur] is the line being read, [after_cr] says that
    the previous code point was a CR, whose following LF belongs to the
    same boundary. *)
Fixpoint splitlines_from (cur : string) (after_cr : bool) (s : string)
  : list string :=
  match s with
  | EmptyString => if is_empty cur then [] else [cur]
  | String c s' =>
      if after_cr && is_lf c then splitlines_from cur false s'
      else if is_linebreak c then cur :: splitlines_from EmptyString (is_cr c) s'
      else splitlines_from (snoc cur c) false s'
  end.

Definition splitlines (s : string) : list string :=
  splitlines_from EmptyString false s.

(** [s.split()] without arguments: the maximal runs of non-space. *)
Fixpoint split_from (cur : string) (s : string) : list string :=
  match s with
  | EmptyString => if is_empty cur then [] else [cur]
  | String c s' =>
      if isspace c
      then (if is_empty cur then split_from EmptyString s'
            else cur :: split_from EmptyString s')
      else split_from (snoc cur c) s'
  end.

Definition split (s : string) : list string := split_from EmptyString s.

Fixpoint split_once (sep : ascii) (s : string) : option (string * string) :=
  match s with
  | EmptyString => None
  | String c s' =>
      if Ascii.eqb c sep then Some (EmptyString, s')
      else match split_once sep s' with
           | Some (a, b) => Some (String c a, b)
           | None => None
           end
  end.

(** [s.split(sep, 1)] for a separator of one code point. *)
Definition split1 (sep : ascii) (s : string) : list string :=
  match split_once sep s with
  | Some (a, b) => [a; b]
  | None => [s]
  end.

(** [str.lower] on one code point below 256: A-Z and the Latin-1 capitals
    (U+00C0 to U+00DE without the multiplication sign) move up by 32. *)
Definition lower_char (c : ascii) : ascii :=
  let n := N_of_ascii c in
  if (((65 <=? n) && (n <=? 90))
      || ((192 <=? n) && (n <=? 222) && negb (n =? 215)))%N
  then ascii_of_N (n + 32) else c.

Fixpoint lower (s : string) : string :=
  match s with
  | EmptyString => EmptyString
  | String c s' => String (lower_char c) (lower s')
  end.

(** [s.startswith(p)] *)
Definition startswith (s p : string) : bool := String.prefix p s.

(** [str(n)] and [f"{n}"] for an [int]. *)
Definition str_of_int (n : Z) : string := NilZero.string_of_int (Z.to_int n).

Definition str_of_nat (n : nat) : string := str_of_int (Z.of_nat n).

(** [s1 <= s2] on [str]: lexicographic on code points. *)
Definition str_le (s1 s2 : string) : bool := String.leb s1 s2.

(** ** Python values, exceptions and builtins *)

(** The values that [json.loads] produces and [json.dump] accepts. *)
#[warnings="-register-all"]
Inductive json : Type :=
| JNull
| JBool (b : bool)
| JInt (n : Z)
| JFloat (x : Q)
| JStr (s : string)
| JList (items : list json)
| JObj (fields : list (string * json)).

(** Exceptions: [External] is raised by a library or by the operating
    system and carries [str(e)]; the others are raised by the interpreter
    on the script's own expressions. *)
Inductive exn : Type :=
| External (msg : string)
| KeyError (key : string)
| IndexError (msg : string)
| TypeError (msg : string)
| AttributeError (msg : string)
| ValueError (msg : string)
| OverflowError (msg : string).

(** [str(e)] *)
Definition str_exn (e : exn) : string :=
  match e with
  | KeyError k => "'" ^^ k ^^ "'"
  | External m | IndexError m | TypeError m | AttributeError m
  | ValueError m | OverflowError m => m
  end.

Inductive result (A : Type) : Type :=
| Ok (a : A)
| Raise (e : exn).
Arguments Raise {A} e.

Definition dict (V : Type) : Type := list (string * V).

(** [d.get(k)] as an option. *)
Fixpoint dict_get {V : Type} (k : string) (d : dict V) : option V :=
  match d with
  | [] => None
  | (k', v) :: d' => if String.eqb k k' then Some v else dict_get k d'
  end.

(** [d[k] = v]: the value of an existing key is replaced in place, a new
    key goes to the end. *)
Fixpoint dict_set {V : Type} (k : string) (v : V) (d : dict V) : dict V :=
  match d with
  | [] => [(k, v)]
  | (k', v') :: d' =>
      if String.eqb k k' then (k, v) :: d' else (k', v') :: dict_set k v d'
  end.

Definition keys {V : Type} (d : dict V) : list string := map fst d.

Definition type_name (v : json) : string :=
  match v with
  | JNull => "NoneType"
  | JBool _ => "bool"
  | JInt _ => "int"
  | JFloat _ => "float"
  | JStr _ => "str"
  | JList _ => "list"
  | JObj _ => "dict"
  end.

(** [v[k]] for a string key [k]. *)
Definition getitem (v : json) (k : string) : result json :=
  match v with
  | JObj d => match dict_get k d with
              | Some x => Ok x
              | None => Raise (KeyError k)
              end
  | JList _ => Raise (TypeError "list indices must be integers or slices, not str")
  | JStr _ => Raise (TypeError "string indices must be integers, not 'str'")
  | _ => Raise (TypeError ("'" ^^ type_name v ^^ "' object is not subscriptable"))
  end.

(** [v.get(k, default)] *)
Definition get (v : json) (k : string) (default : json) : result json :=
  match v with
  | JObj d => match dict_get k d with
              | Some x => Ok x
              | None => Ok default
              end
  | _ => Raise (AttributeError
                  ("'" ^^ type_name v ^^ "' object has no attribute 'get'"))
  end.

(** Truth value of [v] in [if v]. *)
Definition truthy (v : json) : bool :=
  match v with
  | JNull => false
  | JBool b => b
  | JInt n => negb (n =? 0)
  | JFloat x => negb (Qeq_bool x 0)
  | JStr s => negb (is_empty s)
  | JList l => match l with [] => false | _ => true end
  | JObj d => match d with [] => false | _ => true end
  end.

(** [l[i]] *)
Definition index {A : Type} (l : list A) (i : nat) : result A :=
  match nth_error l i with
  | Some x => Ok x
  | None => Raise (IndexError "list index out of range")
  end.

(** Nearest integer, ties to the even one. *)
Definition round_half_even (x : Q) : Z :=
  let f := Qfloor x in
  match Qcompare (x - inject_Z f) (1 # 2) with
  | Lt => f
  | Gt => f + 1
  | Eq => if Z.even f then f else f + 1
  end.

(** [round(x, ndigits)] for a float [x]. *)
Definition round_float (x : Q) (ndigits : nat) : Q :=
  let p := 10 ^ Z.of_nat ndigits in
  Qred (Qmake (round_half_even (x * inject_Z p)) (Z.to_pos p)).

(** [round(v, ndigits)] for a value [v] out of a JSON document: an [int]
    (and a [bool], which is an [int]) is returned as an [int]. *)
Definition round_value (v : json) (ndigits : nat) : result json :=
  match v with
  | JFloat x => Ok (JFloat (round_float x ndigits))
  | JInt n => Ok (JInt n)
  | JBool b => Ok (JInt (if b then 1 else 0))
  | _ => Raise (TypeError
                  ("type " ^^ type_name v ^^ " doesn't define __round__ method"))
  end.

(** [x // d] and [x % d] on floats, and [int(x)] (truncation). *)
Definition floordiv (x d : Q) : Q := inject_Z (Qfloor (x / d)).
Definition fmod (x d : Q) : Q := (x - d * inject_Z (Qfloor (x / d)))%Q.
Definition int_of_float (x : Q) : Z := Z.quot (Qnum x) (Zpos (Qden x)).

(** [2^e] for an exponent of either sign. *)
Definition pow2 (e : Z) : Q := (2 ^ e)%Q.

(** The exponent [b] of the binade of a non-zero [x]:
    [2^b <= |x| < 2^(b+1)]. *)
Definition binade (x : Q) : Z :=
  let k := Z.log2 (Z.abs (Qnum x)) - Z.log2 (Zpos (Qden x)) in
  if Qle_bool (pow2 k) (Qabs x) then k else k - 1.

(** The exponent of the spacing of the binary64 numbers around [x]: 53
    significant bits, and the spacing [2^-1074] of the subnormal numbers at
    the least. *)
Definition ulp_exponent (x : Q) : Z := Z.max (binade x - 52) (-1074).

(** The binary64 number nearest to [x], ties to the even significand: the
    result of an operation whose exact result is [x], as long as it does not
    overflow. *)
Definition round_double (x : Q) : Q :=
  let e := ulp_exponent x in
  Qred (inject_Z (round_half_even (x / pow2 e)) * pow2 e).

(** The least magnitude of an [int] that has no finite float. *)
Definition float_overflow : Z := 2 ^ 1024 - 2 ^ 970.

(** The conversion of the [int] operand in [n / 1000.0]. *)
Definition float_of_int (n : Z) : result Q :=
  if Z.abs n <? float_overflow then Ok (round_double (inject_Z n))
  else Raise (OverflowError "int too large to convert to float").

(** [n / d] for an [int] [n] and a float [d] of magnitude 1 or more (the
    quotient of a finite float by such a [d] does not overflow). *)
Definition truediv_int (n : Z) (d : Q) : result Q :=
  match float_of_int n with
  | Ok x => Ok (round_double (x / d))
  | Raise e => Raise e
  end.

Definition is_digit (c : ascii) : bool :=
  let n := N_of_ascii c in ((48 <=? n) && (n <=? 57))%N.

Definition digit_value (c : ascii) : Z := Z.of_N (N_of_ascii c) - 48.

(** The digits of an [int] literal: single underscores are allowed between
    two digits. *)
Fixpoint int_digits (acc : Z) (after_digit : bool) (s : string) : option Z :=
  match s with
  | EmptyString => if after_digit then Some acc else None
  | String c s' =>
      if is_digit c then int_digits (10 * acc + digit_value c) true s'
      else if Ascii.eqb c "_"%char
           then (if after_digit then int_digits acc false s' else None)
           else None
  end.

(** [int(s)] for a [str]: surrounding white space, a sign, digits. *)
Definition int_of_str (s : string) : result Z :=
  let bad := Raise (ValueError
                      ("invalid literal for int() with base 10: '" ^^ s ^^ "'")) in
  let digits (sign : Z) (t : string) : result Z :=
      match int_digits 0 false t with
      | Some n => Ok (sign * n)
      | None => bad
      end in
  match strip s with
  | String c t =>
      if Ascii.eqb c "-"%char then digits (-1) t
      else if Ascii.eqb c "+"%char then digits 1 t
      else digits 1 (String c t)
  | EmptyString => bad
  end.

(** [x < y] on floats. *)
Definition float_lt (x y : Q) : bool :=
  match Qcompare x y with
  | Lt => true
  | _ => false
  end.

End Py.

Import Py.

(** ** The outside world and the effects of the script *)

(** What [requests] hands back: [raise_for_status] says whether
    [r.raise_for_status()] raises, [response_json] is the outcome of
    [r.json()]. *)
Record response : Type := {
  raise_for_status : option exn;
  response_json : result json
}.

(** The fields read from [psutil.virtual_memory()] and
    [psutil.disk_usage(path)]. *)
Record usage : Type := {
  percent : Q;
  used : Z;
  total : Z
}.

Record world : Type := {
  (* module-level flags and configuration *)
  HAS_PSUTIL : bool;
  HAS_REQUESTS : bool;
  PIHOLE_HOST : string;
  PIHOLE_PASSWORD : string;
  OUTPUT_FILE : string;
  UTC_OFFSET_HOURS : Z;
  (* requests.post(url, json={"password": pw}), requests.get(url, headers=
     {"sid": sid}), requests.delete(url, headers={"sid": sid}) *)
  requests_post : string -> string -> result response;
  requests_get : string -> json -> result response;
  requests_delete : string -> json -> result unit;
  (* psutil *)
  psutil_cpu_percent : result Q;
  psutil_virtual_memory : result usage;
  psutil_disk_usage : string -> result usage;
  psutil_getloadavg : result (Q * Q * Q);
  psutil_boot_time : result Q;
  (* datetime.now().timestamp(), and datetime.now(timezone.utc) in whole
     seconds since the epoch *)
  now_timestamp : Q;
  utc_now : Z;
  (* with open(path) as f: f.read(), os.path.exists(path), float(text) *)
  open_read : string -> result string;
  path_exists : string -> bool;
  float_of_str : string -> result Q;
  (* subprocess.check_output(["docker", "ps", ...]).decode() *)
  docker_ps : result string;
  (* open(path, "w"), and the chunks json.dump(data, f, indent=2) writes *)
  open_write : string -> option exn;
  json_iterencode : json -> list string
}.

(** One entry per call that leaves the process. *)
Inductive event : Type :=
| EvPost (url password : string)
| EvGet (url : string) (sid : json)
| EvDelete (url : string) (sid : json)
| EvPsutil (call : string)
| EvOpenRead (path : string)
| EvExists (path : string)
| EvDocker
| EvOpenWrite (path : string)
| EvWrite (chunk : string)
| EvClose (path : string)
| EvPrint (line : string).

(** A function body runs in a frame: its local variables, which keep the
    assignments made before an exception, and the trace so far. *)
Module Eff.

Record frame (L : Type) : Type := {
  locals : L;
  trace : list event
}.

Definition M (L A : Type) : Type := frame L -> result A * frame L.

Definition ret {L A : Type} (a : A) : M L A := fun fr => (Ok a, fr).

Definition raise {L A : Type} (e : exn) : M L A := fun fr => (Raise e, fr).

Definition bind {L A B : Type} (m : M L A) (k : A -> M L B) : M L B :=
  fun fr =>
    match m fr with
    | (Ok a, fr') => k a fr'
    | (Raise e, fr') => (Raise e, fr')
    end.

(** The outcome of a pure expression that may raise. *)
Definition lift {L A : Type} (r : result A) : M L A := fun fr => (r, fr).

Definition emit {L : Type} (ev : event) : M L unit :=
  fun fr => (Ok tt, {| locals := locals fr; trace := trace fr ++ [ev] |}).

Definition get_locals {L : Type} : M L L := fun fr => (Ok (locals fr), fr).

Definition set_locals {L : Type} (l : L) : M L unit :=
  fun fr => (Ok tt, {| locals := l; trace := trace fr |}).

(** [try: m  except Exception as e: h e] *)
Definition try_except {L A : Type} (m : M L A) (h : exn -> M L A) : M L A :=
  fun fr =>
    match m fr with
    | (Ok a, fr') => (Ok a, fr')
    | (Raise e, fr') => h e fr'
    end.

(** [try: m  finally: c]: [c] runs on both exits of [m]; an exception of
    [c] replaces the outcome of [m]. *)
Definition finally {L A : Type} (m : M L A) (c : M L unit) : M L A :=
  fun fr =>
    match m fr with
    | (r, fr') =>
        match c fr' with
        | (Ok _, fr'') => (r, fr'')
        | (Raise e, fr'') => (Raise e, fr'')
        end
    end.

(** A call: the callee gets a frame of its own and shares the trace. *)
Definition call {L L' A : Type} (init : L') (m : M L' A) : M L A :=
  fun fr =>
    match m {| locals := init; trace := trace fr |} with
    | (r, fr') => (r, {| locals := locals fr; trace := trace fr' |})
    end.

(** Running a function from an empty trace. *)
Definition run {L A : Type} (init : L) (m : M L A) : result A * list event :=
  match m {| locals := init; trace := [] |} with
  | (r, fr) => (r, trace fr)
  end.

End Eff.

Import Eff.

Notation "x <- m ;; k" := (bind m (fun x => k))
  (at level 61, m at next level, right associativity).
Notation "m ;;; k" := (bind m (fun _ => k))
  (at level 61, right associativity).

(** ** [get_pihole_stats] *)

Module Pihole.
Section Adapter.
Variable W : world.

Definition base : string := "http://" ^^ PIHOLE_HOST W ^^ "/api".

Definition post (url password : string) : M json response :=
  emit (EvPost url password) ;;; lift (requests_post W url password).

Definition http_get (url : string) (sid : json) : M json response :=
  emit (EvGet url sid) ;;; lift (requests_get W url sid).

Definition http_delete (url : string) (sid : json) : M json unit :=
  emit (EvDelete url sid) ;;; lift (requests_delete W url sid).

(** [r.raise_for_status()] *)
Definition check_status (r : response) : M json unit :=
  match raise_for_status r with
  | Some e => raise e
  | None => ret tt
  end.

(** Step 1, lines 59-61: the local variable [sid] is assigned only when
    the whole step went through. *)
Definition authenticate : M json json :=
  r <- post (base ^^ "/auth") (PIHOLE_PASSWORD W) ;;
  check_status r ;;;
  body <- lift (response_json r) ;;
  session <- lift (getitem body "session") ;;
  sid <- lift (getitem session "sid") ;;
  set_locals sid ;;;
  ret sid.

(** Step 2, lines 64-79. *)
Definition fetch_summary (sid : json) : M json json :=
  resp <- http_get (base ^^ "/stats/summary") sid ;;
  s <- lift (response_json resp) ;;
  q <- lift (Py.get s "queries" (JObj [])) ;;
  g <- lift (Py.get s "gravity" (JObj [])) ;;
  cli <- lift (Py.get s "clients" (JObj [])) ;;
  total <- lift (Py.get q "total" (JInt 0)) ;;
  blocked <- lift (Py.get q "blocked" (JInt 0)) ;;
  pct <- lift (Py.get q "percent_blocked" (JFloat 0)) ;;
  pct2 <- lift (round_value pct 2) ;;
  domains <- lift (Py.get g "domains_being_blocked" (JInt 0)) ;;
  forwarded <- lift (Py.get q "forwarded" (JInt 0)) ;;
  cached <- lift (Py.get q "cached" (JInt 0)) ;;
  active <- lift (Py.get cli "active" (JInt 0)) ;;
  ret (JObj [("queries_today", total);
             ("ads_blocked_today", blocked);
             ("ads_percentage_today", pct2);
             ("domains_being_blocked", domains);
             ("queries_forwarded", forwarded);
             ("queries_cached", cached);
             ("unique_clients", active)]).

(** Step 3, lines 86-90, the [finally] clause. *)
Definition logout : M json unit :=
  sid <- get_locals ;;
  if truthy sid && HAS_REQUESTS W
  then try_except (http_delete (base ^^ "/auth") sid) (fun _ => ret tt)
  else ret tt.

(** The body after the guard of line 51; the local [sid] starts as [None]. *)
Definition session : M json json :=
  finally
    (try_except
       (sid <- authenticate ;; fetch_summary sid)
       (fun e => ret (JObj [("error", JStr (str_exn e))])))
    logout.

Definition get_pihole_stats : M json json :=
  if negb (HAS_REQUESTS W) then ret (JObj []) else session.

End Adapter.
End Pihole.

(** ** [get_server_stats] *)

Module Server.

(** Lines 112-118: the uptime text of the [psutil] branch. *)
Definition uptime_str_psutil (up_secs : Q) : string :=
  let days := int_of_float (floordiv up_secs 86400) in
  let hours := int_of_float (floordiv (fmod up_secs 86400) 3600) in
  let mins := int_of_float (floordiv (fmod up_secs 3600) 60) in
  if 0 <? days
  then str_of_int days ^^ "d " ^^ str_of_int hours ^^ "h"
  else str_of_int hours ^^ "h " ^^ str_of_int mins ^^ "m".

(** Lines 131-133: the uptime text of the [/proc] branch. *)
Definition uptime_str_proc (up_secs : Q) : string :=
  let days := int_of_float (floordiv up_secs 86400) in
  let hours := int_of_float (floordiv (fmod up_secs 86400) 3600) in
  str_of_int days ^^ "d " ^^ str_of_int hours ^^ "h".

Definition zone_path (zone : nat) : string :=
  "/sys/class/thermal/thermal_zone" ^^ str_of_nat zone ^^ "/temp".

Section Adapter.
Variable W : world.

(** The local variable of the function is the mapping [stats]. *)
Definition St : Type -> Type := M (dict json).

Definition set_stat (k : string) (v : json) : St unit :=
  stats <- get_locals ;; set_locals (dict_set k v stats).

Definition psutil {A : Type} (name : string) (r : result A) : St A :=
  emit (EvPsutil name) ;;; lift r.

(** [with open(path) as f: f.read()] *)
Definition read_file (path : string) : St string :=
  emit (EvOpenRead path) ;;; lift (open_read W path).

(** [os.path.exists(path)] *)
Definition exists_ (path : string) : St bool :=
  emit (EvExists path) ;;; ret (path_exists W path).

(** Lines 98-118. *)
Definition collect_psutil : St unit :=
  cpu <- psutil "cpu_percent" (psutil_cpu_percent W) ;;
  set_stat "cpu_pct" (JFloat (round_float cpu 1)) ;;;
  vm <- psutil "virtual_memory" (psutil_virtual_memory W) ;;
  set_stat "mem_pct" (JFloat (round_float (percent vm) 1)) ;;;
  set_stat "mem_used" (JInt (used vm)) ;;;
  set_stat "mem_total" (JInt (total vm)) ;;;
  du <- psutil "disk_usage" (psutil_disk_usage W "/") ;;
  set_stat "disk_pct" (JFloat (round_float (percent du) 1)) ;;;
  set_stat "disk_used" (JInt (used du)) ;;;
  set_stat "disk_total" (JInt (total du)) ;;;
  la <- psutil "getloadavg" (psutil_getloadavg W) ;;
  set_stat "load_1" (JFloat (round_float (fst (fst la)) 2)) ;;;
  set_stat "load_5" (JFloat (round_float (snd (fst la)) 2)) ;;;
  bt <- psutil "boot_time" (psutil_boot_time W) ;;
  let up_secs := (now_timestamp W - bt)%Q in
  set_stat "uptime_str" (JStr (uptime_str_psutil up_secs)).

(** Lines 121-135. *)
Definition collect_proc : St unit :=
  try_except
    (text <- read_file "/proc/loadavg" ;;
     let parts := Py.split text in
     p0 <- lift (index parts 0) ;;
     load_1 <- lift (float_of_str W p0) ;;
     set_stat "load_1" (JFloat load_1) ;;;
     p1 <- lift (index parts 1) ;;
     load_5 <- lift (float_of_str W p1) ;;
     set_stat "load_5" (JFloat load_5))
    (fun _ => ret tt) ;;;
  try_except
    (text <- read_file "/proc/uptime" ;;
     p0 <- lift (index (Py.split text) 0) ;;
     up_secs <- lift (float_of_str W p0) ;;
     set_stat "uptime_str" (JStr (uptime_str_proc up_secs)))
    (fun _ => ret tt).

(** Lines 139-146: the loop over the remaining zones; returning without the
    recursive call is the [break]. *)
Fixpoint probe_zones (zones : list nat) : St unit :=
  match zones with
  | [] => ret tt
  | zone :: rest =>
      let path := zone_path zone in
      found <- exists_ path ;;
      if found : bool then
        text <- read_file path ;;
        n <- lift (int_of_str (strip text)) ;;
        temp <- lift (truediv_int n 1000) ;;
        if float_lt 10 temp && float_lt temp 120
        then set_stat "temp_c" (JFloat (round_float temp 1))
        else probe_zones rest
      else probe_zones rest
  end.

(** Lines 138-148. *)
Definition probe_temperature : St unit :=
  try_except (probe_zones (seq 0 10)) (fun _ => ret tt).

Definition get_server_stats : St (dict json) :=
  (if HAS_PSUTIL W then collect_psutil else collect_proc) ;;;
  probe_temperature ;;;
  get_locals.

End Adapter.
End Server.

(** ** [get_docker_containers] *)

Module Docker.

Record container : Type := {
  name : string;
  status : string;
  running : bool
}.

(** Lines 164-173: one non-blank line of the listing. *)
Definition parse_line (line : string) : container :=
  let parts := split1 "|" line in
  let name := strip (nth 0 parts EmptyString) in
  let status := match parts with
                | _ :: p1 :: _ => strip p1
                | _ => "unknown"
                end in
  let running := startswith (lower status) "up" in
  let display := if running then "UP" else "DOWN" in
  {| name := name; status := display; running := running |}.

(** Lines 160-173: the loop that fills [containers]. *)
Fixpoint parse_lines (lines : list string) : list container :=
  match lines with
  | [] => []
  | line :: rest =>
      if is_empty (strip line) then parse_lines rest
      else parse_line line :: parse_lines rest
  end.

(** The key of line 174 and the order of Python on such tuples:
    [False < True], then the order of [str]. *)
Definition sort_key (c : container) : bool * string :=
  (negb (running c), name c).

Definition key_le (k1 k2 : bool * string) : bool :=
  if Bool.eqb (fst k1) (fst k2) then str_le (snd k1) (snd k2)
  else negb (fst k1).

(** [sorted(l, key=key)]: a stable sort, here by insertion from the right
    end, so that among equal keys the earlier element stays first. *)
Section Sorted.
Variables (A K : Type) (key : A -> K) (le : K -> K -> bool).

Fixpoint insert (x : A) (l : list A) : list A :=
  match l with
  | [] => [x]
  | y :: l' => if le (key x) (key y) then x :: l else y :: insert x l'
  end.

Fixpoint sorted (l : list A) : list A :=
  match l with
  | [] => []
  | x :: l' => insert x (sorted l')
  end.

End Sorted.

(** Lines 156-174 after the listing arrived. *)
Definition list_containers (out : string) : list container :=
  sorted sort_key key_le (parse_lines (splitlines (strip out))).

Definition error_entry (e : exn) : container :=
  {| name := "docker error"; status := str_exn e; running := false |}.

Definition get_docker_containers (W : world) : M unit (list container) :=
  try_except
    (out <- (emit EvDocker ;;; lift (docker_ps W)) ;;
     ret (list_containers out))
    (fun e => ret [error_entry e]).

(** The dictionary built for one container. *)
Definition container_json (c : container) : json :=
  JObj [("name", JStr (name c)); ("status", JStr (status c));
        ("running", JBool (running c))].

End Docker.

(** ** [main]: assembling and publishing the snapshot *)

Module Publisher.

Definition two_digits (n : Z) : string :=
  if n <? 10 then "0" ^^ str_of_int n else str_of_int n.

(** Lines 180-181: [now] is the UTC time in seconds since the epoch; the
    text is [strftime("%-I:%M %p").lower()] of the shifted time. *)
Definition updated_str (now offset_hours : Z) : string :=
  let local_now := now + 3600 * offset_hours in
  let hour := (local_now / 3600) mod 24 in
  let minute := (local_now / 60) mod 60 in
  let hour12 := if hour mod 12 =? 0 then 12 else hour mod 12 in
  let ampm := if hour <? 12 then "AM" else "PM" in
  lower (str_of_int hour12 ^^ ":" ^^ two_digits minute ^^ " " ^^ ampm).

Section Main.
Variable W : world.

(** Lines 183-188: the dictionary [data]. *)
Definition collect (updated : string) : M unit json :=
  pihole <- call JNull (Pihole.get_pihole_stats W) ;;
  server <- call [] (Server.get_server_stats W) ;;
  containers <- call tt (Docker.get_docker_containers W) ;;
  ret (JObj [("updated", JStr updated);
             ("pihole", pihole);
             ("server", JObj server);
             ("containers", JList (map Docker.container_json containers))]).

Fixpoint write_chunks (chunks : list string) : M unit unit :=
  match chunks with
  | [] => ret tt
  | chunk :: rest => emit (EvWrite chunk) ;;; write_chunks rest
  end.

(** Lines 190-191.  [EvOpenWrite] records an [open(path, "w")] that went
    through; leaving the [with] block closes the file. *)
Definition dump (data : json) : M unit unit :=
  let path := OUTPUT_FILE W in
  match open_write W path with
  | Some e => raise e
  | None =>
      emit (EvOpenWrite path) ;;;
      write_chunks (json_iterencode W data) ;;;
      emit (EvClose path)
  end.

Definition main : M unit unit :=
  let updated := updated_str (utc_now W) (UTC_OFFSET_HOURS W) in
  data <- collect updated ;;
  dump data ;;;
  emit (EvPrint ("[sysmon] Updated at " ^^ updated)).

End Main.
End Publisher.

(** ** What a reader of the file system can see

    [disk] maps a path to the content a reader gets; [pending] is the text
    handed to the open file object and not yet on disk. *)

Module Fs.

Record state : Type := {
  disk : dict string;
  opened : option string;
  pending : string
}.

Definition content (path : string) (st : state) : string :=
  match dict_get path (disk st) with
  | Some c => c
  | None => EmptyString
  end.

(** The part [b] of the pending text reaches the file at [path]. *)
Definition commit (path b rest : string) (st : state) : state :=
  {| disk := dict_set path (content path st ^^ b) (disk st);
     opened := opened st;
     pending := rest |}.

(** The effect of one event of the script: opening for writing truncates,
    writing queues the chunk, closing commits what is queued. *)
Definition apply (ev : event) (st : state) : state :=
  match ev with
  | EvOpenWrite p =>
      {| disk := dict_set p EmptyString (disk st);
         opened := Some p;
         pending := EmptyString |}
  | EvWrite chunk =>
      {| disk := disk st; opened := opened st; pending := pending st ^^ chunk |}
  | EvClose p =>
      {| disk := disk (commit p (pending st) EmptyString st);
         opened := None;
         pending := EmptyString |}
  | _ => st
  end.




(** The text that a sequence of chunks makes. *)
Definition document (chunks : list string) : string :=
  fold_right String.append EmptyString chunks.

(** The events that change a file. *)
Definition is_write (ev : event) : bool :=
  match ev with
  | EvOpenWrite _ | EvWrite _ | EvClose _ => true
  | _ => false
  end.

(** Where a run that writes [chunks] to [out] stands, given the state and
    the events still to come: before the file is opened, while it is open,
    after it is closed.  [st0] is the file system at the start and [line]
    the line printed at the end. *)
Inductive phase (out line : string) (chunks : list string) (st0 : state)
    (st : state) (rest : list event) : Prop :=
| before_open pre :
    Forall (fun ev => is_write ev = false) pre ->
    rest = pre ++ EvOpenWrite out :: map EvWrite chunks
               ++ [EvClose out; EvPrint line] ->
    st = st0 ->
    phase out line chunks st0 st rest
| while_open cs1 cs2 :
    chunks = cs1 ++ cs2 ->
    rest = map EvWrite cs2 ++ [EvClose out; EvPrint line] ->
    opened st = Some out ->
    content out st ^^ pending st = document cs1 ->
    phase out line chunks st0 st rest
| after_close :
    rest = [EvPrint line] \/ rest = [] ->
    opened st = None ->
    content out st = document chunks ->
    phase out line chunks st0 st rest.

End Fs.

(** ** Variations of a world

    The same world with one facility behaving differently. *)

Module Vary.

Definition with_HAS_PSUTIL (x : bool) (W : world) : world :=
  {| HAS_PSUTIL := x; HAS_REQUESTS := HAS_REQUESTS W;
     PIHOLE_HOST := PIHOLE_HOST W; PIHOLE_PASSWORD := PIHOLE_PASSWORD W;
     OUTPUT_FILE := OUTPUT_FILE W; UTC_OFFSET_HOURS := UTC_OFFSET_HOURS W;
     requests_post := requests_post W; requests_get := requests_get W;
     requests_delete := requests_delete W;
     psutil_cpu_percent := psutil_cpu_percent W;
     psutil_virtual_memory := psutil_virtual_memory W;
     psutil_disk_usage := psutil_disk_usage W;
     psutil_getloadavg := psutil_getloadavg W;
     psutil_boot_time := psutil_boot_time W;
     now_timestamp := now_timestamp W; utc_now := utc_now W;
     open_read := open_read W; path_exists := path_exists W;
     float_of_str := float_of_str W; docker_ps := docker_ps W;
     open_write := open_write W; json_iterencode := json_iterencode W |}.

Definition with_HAS_REQUESTS (x : bool) (W : world) : world :=
  {| HAS_PSUTIL := HAS_PSUTIL W; HAS_REQUESTS := x;
     PIHOLE_HOST := PIHOLE_HOST W; PIHOLE_PASSWORD := PIHOLE_PASSWORD W;
     OUTPUT_FILE := OUTPUT_FILE W; UTC_OFFSET_HOURS := UTC_OFFSET_HOURS W;
     requests_post := requests_post W; requests_get := requests_get W;
     requests_delete := requests_delete W;
     psutil_cpu_percent := psutil_cpu_percent W;
     psutil_virtual_memory := psutil_virtual_memory W;
     psutil_disk_usage := psutil_disk_usage W;
     psutil_getloadavg := psutil_getloadavg W;
     psutil_boot_time := psutil_boot_time W;
     now_timestamp := now_timestamp W; utc_now := utc_now W;
     open_read := open_read W; path_exists := path_exists W;
     float_of_str := float_of_str W; docker_ps := docker_ps W;
     open_write := open_write W; json_iterencode := json_iterencode W |}.

Definition with_requests_post (x : string -> string -> result response) (W : world) : world :=
  {| HAS_PSUTIL := HAS_PSUTIL W; HAS_REQUESTS := HAS_REQUESTS W;
     PIHOLE_HOST := PIHOLE_HOST W; PIHOLE_PASSWORD := PIHOLE_PASSWORD W;
     OUTPUT_FILE := OUTPUT_FILE W; UTC_OFFSET_HOURS := UTC_OFFSET_HOURS W;
     requests_post := x; requests_get := requests_get W;
     requests_delete := requests_delete W;
     psutil_cpu_percent := psutil_cpu_percent W;
     psutil_virtual_memory := psutil_virtual_memory W;
     psutil_disk_usage := psutil_disk_usage W;
     psutil_getloadavg := psutil_getloadavg W;
     psutil_boot_time := psutil_boot_time W;
     now_timestamp := now_timestamp W; utc_now := utc_now W;
     open_read := open_read W; path_exists := path_exists W;
     float_of_str := float_of_str W; docker_ps := docker_ps W;
     open_write := open_write W; json_iterencode := json_iterencode W |}.

Definition with_requests_get (x : string -> json -> result response) (W : world) : world :=
  {| HAS_PSUTIL := HAS_PSUTIL W; HAS_REQUESTS := HAS_REQUESTS W;
     PIHOLE_HOST := PIHOLE_HOST W; PIHOLE_PASSWORD := PIHOLE_PASSWORD W;
     OUTPUT_FILE := OUTPUT_FILE W; UTC_OFFSET_HOURS := UTC_OFFSET_HOURS W;
     requests_post := requests_post W; requests_get := x;
     requests_delete := requests_delete W;
     psutil_cpu_percent := psutil_cpu_percent W;
     psutil_virtual_memory := psutil_virtual_memory W;
     psutil_disk_usage := psutil_disk_usage W;
     psutil_getloadavg := psutil_getloadavg W;
     psutil_boot_time := psutil_boot_time W;
     now_timestamp := now_timestamp W; utc_now := utc_now W;
     open_read := open_read W; path_exists := path_exists W;
     float_of_str := float_of_str W; docker_ps := docker_ps W;
     open_write := open_write W; json_iterencode := json_iterencode W |}.

Definition with_requests_delete (x : string -> json -> result unit) (W : world) : world :=
  {| HAS_PSUTIL := HAS_PSUTIL W; HAS_REQUESTS := HAS_REQUESTS W;
     PIHOLE_HOST := PIHOLE_HOST W; PIHOLE_PASSWORD := PIHOLE_PASSWORD W;
     OUTPUT_FILE := OUTPUT_FILE W; UTC_OFFSET_HOURS := UTC_OFFSET_HOURS W;
     requests_post := requests_post W; requests_get := requests_get W;
     requests_delete := x; psutil_cpu_percent := psutil_cpu_percent W;
     psutil_virtual_memory := psutil_virtual_memory W;
     psutil_disk_usage := psutil_disk_usage W;
     psutil_getloadavg := psutil_getloadavg W;
     psutil_boot_time := psutil_boot_time W;
     now_timestamp := now_timestamp W; utc_now := utc_now W;
     open_read := open_read W; path_exists := path_exists W;
     float_of_str := float_of_str W; docker_ps := docker_ps W;
     open_write := open_write W; json_iterencode := json_iterencode W |}.

Definition with_psutil_disk_usage (x : string -> result usage) (W : world) : world :=
  {| HAS_PSUTIL := HAS_PSUTIL W; HAS_REQUESTS := HAS_REQUESTS W;
     PIHOLE_HOST := PIHOLE_HOST W; PIHOLE_PASSWORD := PIHOLE_PASSWORD W;
     OUTPUT_FILE := OUTPUT_FILE W; UTC_OFFSET_HOURS := UTC_OFFSET_HOURS W;
     requests_post := requests_post W; requests_get := requests_get W;
     requests_delete := requests_delete W;
     psutil_cpu_percent := psutil_cpu_percent W;
     psutil_virtual_memory := psutil_virtual_memory W;
     psutil_disk_usage := x; psutil_getloadavg := psutil_getloadavg W;
     psutil_boot_time := psutil_boot_time W;
     now_timestamp := now_timestamp W; utc_now := utc_now W;
     open_read := open_read W; path_exists := path_exists W;
     float_of_str := float_of_str W; docker_ps := docker_ps W;
     open_write := open_write W; json_iterencode := json_iterencode W |}.

Definition with_psutil_boot_time (x : result Q) (W : world) : world :=
  {| HAS_PSUTIL := HAS_PSUTIL W; HAS_REQUESTS := HAS_REQUESTS W;
     PIHOLE_HOST := PIHOLE_HOST W; PIHOLE_PASSWORD := PIHOLE_PASSWORD W;
     OUTPUT_FILE := OUTPUT_FILE W; UTC_OFFSET_HOURS := UTC_OFFSET_HOURS W;
     requests_post := requests_post W; requests_get := requests_get W;
     requests_delete := requests_delete W;
     psutil_cpu_percent := psutil_cpu_percent W;
     psutil_virtual_memory := psutil_virtual_memory W;
     psutil_disk_usage := psutil_disk_usage W;
     psutil_getloadavg := psutil_getloadavg W; psutil_boot_time := x;
     now_timestamp := now_timestamp W; utc_now := utc_now W;
     open_read := open_read W; path_exists := path_exists W;
     float_of_str := float_of_str W; docker_ps := docker_ps W;
     open_write := open_write W; json_iterencode := json_iterencode W |}.

Definition with_now_timestamp (x : Q) (W : world) : world :=
  {| HAS_PSUTIL := HAS_PSUTIL W; HAS_REQUESTS := HAS_REQUESTS W;
     PIHOLE_HOST := PIHOLE_HOST W; PIHOLE_PASSWORD := PIHOLE_PASSWORD W;
     OUTPUT_FILE := OUTPUT_FILE W; UTC_OFFSET_HOURS := UTC_OFFSET_HOURS W;
     requests_post := requests_post W; requests_get := requests_get W;
     requests_delete := requests_delete W;
     psutil_cpu_percent := psutil_cpu_percent W;
     psutil_virtual_memory := psutil_virtual_memory W;
     psutil_disk_usage := psutil_disk_usage W;
     psutil_getloadavg := psutil_getloadavg W;
     psutil_boot_time := psutil_boot_time W; now_timestamp := x;
     utc_now := utc_now W; open_read := open_read W;
     path_exists := path_exists W; float_of_str := float_of_str W;
     docker_ps := docker_ps W; open_write := open_write W;
     json_iterencode := json_iterencode W |}.

Definition with_open_read (x : string -> result string) (W : world) : world :=
  {| HAS_PSUTIL := HAS_PSUTIL W; HAS_REQUESTS := HAS_REQUESTS W;
     PIHOLE_HOST := PIHOLE_HOST W; PIHOLE_PASSWORD := PIHOLE_PASSWORD W;
     OUTPUT_FILE := OUTPUT_FILE W; UTC_OFFSET_HOURS := UTC_OFFSET_HOURS W;
     requests_post := requests_post W; requests_get := requests_get W;
     requests_delete := requests_delete W;
     psutil_cpu_percent := psutil_cpu_percent W;
     psutil_virtual_memory := psutil_virtual_memory W;
     psutil_disk_usage := psutil_disk_usage W;
     psutil_getloadavg := psutil_getloadavg W;
     psutil_boot_time := psutil_boot_time W;
     now_timestamp := now_timestamp W; utc_now := utc_now W; open_read := x;
     path_exists := path_exists W; float_of_str := float_of_str W;
     docker_ps := docker_ps W; open_write := open_write W;
     json_iterencode := json_iterencode W |}.

Definition with_path_exists (x : string -> bool) (W : world) : world :=
  {| HAS_PSUTIL := HAS_PSUTIL W; HAS_REQUESTS := HAS_REQUESTS W;
     PIHOLE_HOST := PIHOLE_HOST W; PIHOLE_PASSWORD := PIHOLE_PASSWORD W;
     OUTPUT_FILE := OUTPUT_FILE W; UTC_OFFSET_HOURS := UTC_OFFSET_HOURS W;
     requests_post := requests_post W; requests_get := requests_get W;
     requests_delete := requests_delete W;
     psutil_cpu_percent := psutil_cpu_percent W;
     psutil_virtual_memory := psutil_virtual_memory W;
     psutil_disk_usage := psutil_disk_usage W;
     psutil_getloadavg := psutil_getloadavg W;
     psutil_boot_time := psutil_boot_time W;
     now_timestamp := now_timestamp W; utc_now := utc_now W;
     open_read := open_read W; path_exists := x;
     float_of_str := float_of_str W; docker_ps := docker_ps W;
     open_write := open_write W; json_iterencode := json_iterencode W |}.

Definition with_docker_ps (x : result string) (W : world) : world :=
  {| HAS_PSUTIL := HAS_PSUTIL W; HAS_REQUESTS := HAS_REQUESTS W;
     PIHOLE_HOST := PIHOLE_HOST W; PIHOLE_PASSWORD := PIHOLE_PASSWORD W;
     OUTPUT_FILE := OUTPUT_FILE W; UTC_OFFSET_HOURS := UTC_OFFSET_HOURS W;
     requests_post := requests_post W; requests_get := requests_get W;
     requests_delete := requests_delete W;
     psutil_cpu_percent := psutil_cpu_percent W;
     psutil_virtual_memory := psutil_virtual_memory W;
     psutil_disk_usage := psutil_disk_usage W;
     psutil_getloadavg := psutil_getloadavg W;
     psutil_boot_time := psutil_boot_time W;
     now_timestamp := now_timestamp W; utc_now := utc_now W;
     open_read := open_read W; path_exists := path_exists W;
     float_of_str := float_of_str W; docker_ps := x;
     open_write := open_write W; json_iterencode := json_iterencode W |}.

Definition with_open_write (x : string -> option exn) (W : world) : world :=
  {| HAS_PSUTIL := HAS_PSUTIL W; HAS_REQUESTS := HAS_REQUESTS W;
     PIHOLE_HOST := PIHOLE_HOST W; PIHOLE_PASSWORD := PIHOLE_PASSWORD W;
     OUTPUT_FILE := OUTPUT_FILE W; UTC_OFFSET_HOURS := UTC_OFFSET_HOURS W;
     requests_post := requests_post W; requests_get := requests_get W;
     requests_delete := requests_delete W;
     psutil_cpu_percent := psutil_cpu_percent W;
     psutil_virtual_memory := psutil_virtual_memory W;
     psutil_disk_usage := psutil_disk_usage W;
     psutil_getloadavg := psutil_getloadavg W;
     psutil_boot_time := psutil_boot_time W;
     now_timestamp := now_timestamp W; utc_now := utc_now W;
     open_read := open_read W; path_exists := path_exists W;
     float_of_str := float_of_str W; docker_ps := docker_ps W;
     open_write := x; json_iterencode := json_iterencode W |}.

End Vary.

(** ** A sample host, used to run the model on concrete inputs *)

Module Sample.

Definition nl : string := String "010"%char EmptyString.
Definition dq : string := String "034"%char EmptyString.

(** A stand-in for the encoder of the [json] library: no indentation, no
    escaping, a float printed as a fraction. *)
Fixpoint encode (v : json) : string :=
  match v with
  | JNull => "null"
  | JBool b => if b then "true" else "false"
  | JInt n => str_of_int n
  | JFloat x => str_of_int (Qnum x) ^^ "/" ^^ str_of_int (Zpos (Qden x))
  | JStr s => dq ^^ s ^^ dq
  | JList l =>
      "[" ^^ (fix items (l : list json) : string :=
                match l with
                | [] => EmptyString
                | [x] => encode x
                | x :: r => encode x ^^ ", " ^^ items r
                end) l ^^ "]"
  | JObj d =>
      "{" ^^ (fix fields (d : list (string * json)) : string :=
                match d with
                | [] => EmptyString
                | [(k, x)] => dq ^^ k ^^ dq ^^ ": " ^^ encode x
                | (k, x) :: r => dq ^^ k ^^ dq ^^ ": " ^^ encode x ^^ ", " ^^ fields r
                end) d ^^ "}"
  end.

(** One chunk per top-level member, between the two braces. *)
Definition iterencode (v : json) : list string :=
  match v with
  | JObj d =>
      "{" :: map (fun kv => dq ^^ fst kv ^^ dq ^^ ": " ^^ encode (snd kv) ^^ ",") d
          ++ ["}"]
  | _ => [encode v]
  end.

(** A stand-in for [float(text)]: digits, a point, digits. *)
Definition parse_float (s : string) : result Q :=
  match split_once "."%char s with
  | Some (a, b) =>
      match int_digits 0 false a, int_digits 0 false b with
      | Some n, Some m =>
          Ok (Qred (Qmake (n * 10 ^ Z.of_nat (String.length b) + m)
                          (Z.to_pos (10 ^ Z.of_nat (String.length b)))))
      | _, _ => Raise (ValueError ("could not convert string to float: '" ^^ s ^^ "'"))
      end
  | None => Raise (ValueError ("could not convert string to float: '" ^^ s ^^ "'"))
  end.

Definition auth_body : json :=
  JObj [("session", JObj [("valid", JBool true); ("totp", JBool false);
                          ("sid", JStr "vFA+EP4MQ5JJvJg+3Q2Jnw=");
                          ("validity", JInt 300)])].

Definition summary_body : json :=
  JObj [("queries", JObj [("total", JInt 7497); ("blocked", JInt 3465);
                          ("percent_blocked", JFloat (4621849 # 100000));
                          ("forwarded", JInt 1480); ("cached", JInt 2552)]);
        ("clients", JObj [("active", JInt 10); ("total", JInt 22)]);
        ("gravity", JObj [("domains_being_blocked", JInt 104756)])].

Definition no_such_file (path : string) : exn :=
  External ("[Errno 2] No such file or directory: '" ^^ path ^^ "'").

Definition files : dict string :=
  [("/proc/loadavg", "0.52 0.58 0.59 1/389 12345" ^^ nl);
   ("/proc/uptime", "3000.55 11000.10" ^^ nl);
   ("/sys/class/thermal/thermal_zone0/temp", "5000" ^^ nl);
   ("/sys/class/thermal/thermal_zone1/temp", "45000" ^^ nl);
   ("/sys/class/thermal/thermal_zone2/temp", "999999" ^^ nl)].

Definition listing : string :=
  "b|Up 2 days" ^^ nl ^^ "a|Exited (1)" ^^ nl ^^ "c|Up 5 hours" ^^ nl.

(** Everything works: both libraries are installed, the filtering service
    answers, three thermal zones exist, three containers are listed. *)
Definition host : world :=
  {| HAS_PSUTIL := true;
     HAS_REQUESTS := true;
     PIHOLE_HOST := "localhost";
     PIHOLE_PASSWORD := EmptyString;
     OUTPUT_FILE := "/home/ubuntu/homeassistant/config/www/sysmon.json";
     UTC_OFFSET_HOURS := -6;
     requests_post := fun _ _ =>
       Ok {| raise_for_status := None; response_json := Ok auth_body |};
     requests_get := fun _ _ =>
       Ok {| raise_for_status := None; response_json := Ok summary_body |};
     requests_delete := fun _ _ => Ok tt;
     psutil_cpu_percent := Ok (1234 # 100);
     psutil_virtual_memory :=
       Ok {| percent := 417 # 10; used := 3300000000; total := 8000000000 |};
     psutil_disk_usage := fun _ =>
       Ok {| percent := 635 # 10; used := 63500000000; total := 100000000000 |};
     psutil_getloadavg := Ok (52 # 100, 58 # 100, 59 # 100);
     psutil_boot_time := Ok (1700000000 # 1);
     now_timestamp := 17000900005 # 10;
     utc_now := 1700090000;
     open_read := fun path =>
       match dict_get path files with
       | Some text => Ok text
       | None => Raise (no_such_file path)
       end;
     path_exists := fun path =>
       match dict_get path files with Some _ => true | None => false end;
     float_of_str := parse_float;
     docker_ps := Ok listing;
     open_write := fun _ => None;
     json_iterencode := iterencode |}.

(** The same host without the optional libraries. *)
Definition bare : world :=
  Vary.with_HAS_PSUTIL false (Vary.with_HAS_REQUESTS false host).

(** The container runtime is not installed. *)
Definition no_docker : world :=
  Vary.with_docker_ps (Raise (no_such_file "docker")) host.

(** The filtering service refuses the connection. *)
Definition no_pihole : world :=
  Vary.with_requests_post
    (fun _ _ => Raise (External "Connection refused")) host.

(** The filtering service rejects the password with status 401. *)
Definition bad_password : world :=
  Vary.with_requests_post
    (fun _ _ =>
       Ok {| raise_for_status :=
               Some (External "401 Client Error: Unauthorized for url");
             response_json := Ok (JObj [("error", JObj [])]) |}) host.

(** The summary endpoint answers with a document that has no counters. *)
Definition empty_summary : world :=
  Vary.with_requests_get
    (fun _ _ =>
       Ok {| raise_for_status := None; response_json := Ok (JObj []) |}) host.

(** The summary endpoint times out. *)
Definition summary_timeout : world :=
  Vary.with_requests_get (fun _ _ => Raise (External "Read timed out.")) host.

(** [psutil.disk_usage("/")] raises. *)
Definition disk_error : world :=
  Vary.with_psutil_disk_usage
    (fun _ => Raise (External "[Errno 13] Permission denied: '/'")) host.

(** The host [W] with the clock [secs] seconds after the boot. *)
Definition up_since_boot (secs : Z) (W : world) : world :=
  Vary.with_now_timestamp (inject_Z (1700000000 + secs)) W.

(** The host [W] with [text] as the content of [/proc/uptime]. *)
Definition proc_uptime (text : string) (W : world) : world :=
  Vary.with_open_read
    (fun path =>
       if String.eqb path "/proc/uptime" then Ok (text ^^ nl)
       else open_read W path) W.

(** The host [W] with the one thermal zone 0, which reads [text]. *)
Definition one_zone (text : string) (W : world) : world :=
  Vary.with_path_exists
    (String.eqb "/sys/class/thermal/thermal_zone0/temp")
    (Vary.with_open_read
       (fun path =>
          if String.eqb path "/sys/class/thermal/thermal_zone0/temp"
          then Ok (text ^^ nl) else open_read W path) W).



End Sample.

(** ** Vocabulary of the properties *)

(** The logout requests of a trace. *)
Definition is_delete (ev : event) : bool :=
  match ev with
  | EvDelete _ _ => true
  | _ => false
  end.

(** The member [field] of the object [group] of a summary document, or
    [default] when the object or the member is missing. *)
Definition counter (s : dict json) (group field : string) (default : json)
  : json :=
  match dict_get group s with
  | Some (JObj d) =>
      match dict_get field d with
      | Some v => v
      | None => default
      end
  | _ => default
  end.

(** The member [group] of a summary document is an object or is missing. *)
Definition object_or_missing (s : dict json) (group : string) : Prop :=
  match dict_get group s with
  | Some (JObj _) | None => True
  | Some _ => False
  end.

Definition is_number (v : json) : bool :=
  match v with
  | JInt _ | JFloat _ | JBool _ => true
  | _ => false
  end.

(** What probing thermal zone [zone] finds: nothing when the file does not
    exist, otherwise the outcome of reading it as an integer number of
    millidegrees. *)
Definition zone_reading (W : world) (zone : nat) : option (result Z) :=
  if path_exists W (Server.zone_path zone)
  then Some (match open_read W (Server.zone_path zone) with
             | Ok text => int_of_str (strip text)
             | Raise e => Raise e
             end)
  else None.

(** The calls that probing zone [zone] makes. *)
Definition zone_events (W : world) (zone : nat) : list event :=
  EvExists (Server.zone_path zone)
  :: (if path_exists W (Server.zone_path zone)
      then [EvOpenRead (Server.zone_path zone)] else []).

(** Strictly between 10 and 120 degrees, in millidegrees. *)
Definition qualifies (n : Z) : bool := (10000 <? n) && (n <? 120000).

(** The float [n / 1000.0] of a reading [n] below [2^53]. *)
Definition celsius (n : Z) : Q := round_double (inject_Z n / 1000).

(** The uptime text in the mapping that [get_server_stats] returns. *)
Definition uptime_of (W : world) : option json :=
  match fst (run [] (Server.get_server_stats W)) with
  | Ok stats => dict_get "uptime_str" stats
  | Raise _ => None
  end.

(** The outcome of reading field [i] of the pseudo-file [path] as a float
    (lines 122-124 and 129-130): the file may be unreadable, the field
    missing, or [float] may reject it. *)
Definition proc_field (W : world) (path : string) (i : nat) : result Q :=
  match open_read W path with
  | Ok text =>
      match index (Py.split text) i with
      | Ok field => float_of_str W field
      | Raise e => Raise e
      end
  | Raise e => Raise e
  end.

(** The first qualifying reading of a sequence that starts at zone [zone],
    with its zone. *)
Fixpoint first_valid (zone : nat) (readings : list (option Z))
  : option (nat * Z) :=
  match readings with
  | [] => None
  | Some n :: rest =>
      if qualifies n then Some (zone, n) else first_valid (S zone) rest
  | None :: rest => first_valid (S zone) rest
  end.

(** The magnitudes that have a float. *)
Definition has_float (r : option Z) : Prop :=
  match r with
  | Some n => Z.abs n < float_overflow
  | None => True
  end.

(** [m] keeps the property [P] of the frame, on both exits. *)
Definition preserves {L A : Type} (P : frame L -> Prop) (m : M L A) : Prop :=
  forall fr, P fr -> P (snd (m fr)).

(** The mapping [stats] has no temperature. *)
Definition cold (fr : frame (dict json)) : Prop :=
  dict_get "temp_c" (locals fr) = None.

(** Nothing has been written so far. *)
Definition quiet {L : Type} (fr : frame L) : Prop :=
  Forall (fun ev => Fs.is_write ev = false) (trace fr).

(** The outcome of [m] does not depend on the trace so far, and [m] only
    adds events at its end. *)
Definition extends_trace {L A : Type} (m : M L A) : Prop :=
  forall l t,
    m {| locals := l; trace := t |} =
    (fst (m {| locals := l; trace := [] |}),
     {| locals := locals (snd (m {| locals := l; trace := [] |}));
        trace := t ++ trace (snd (m {| locals := l; trace := [] |})) |}).


(** ** Vocabulary of the further properties *)

(** The keys of the mapping of counters, in the order of lines 72-78. *)
Definition counter_keys : list string :=
  ["queries_today"; "ads_blocked_today"; "ads_percentage_today";
   "domains_being_blocked"; "queries_forwarded"; "queries_cached";
   "unique_clients"].

(** What the probe of the thermal zones may do to the mapping [stats]:
    nothing, or set [temp_c] to the rounded value of a qualifying reading. *)
Definition probe_effect (l l' : dict json) : Prop :=
  l' = l \/
  exists n, qualifies n = true /\
            l' = dict_set "temp_c"
                   (JFloat (round_float (celsius n) 1)) l.

(** The keys that the [psutil] branch sets, in the order of lines 98-118. *)
Definition psutil_keys : list string :=
  ["cpu_pct"; "mem_pct"; "mem_used"; "mem_total"; "disk_pct"; "disk_used";
   "disk_total"; "load_1"; "load_5"; "uptime_str"].

(** The keys that the [/proc] branch and the probe can set, in the order in
    which the function sets them. *)
Definition fallback_keys : list string :=
  ["load_1"; "load_5"; "uptime_str"; "temp_c"].

Definition has_key {V : Type} (d : dict V) (k : string) : bool :=
  match dict_get k d with
  | Some _ => true
  | None => false
  end.

(** The text begins with [u] or [U] followed by [p] or [P]. *)
Definition begins_with_up (s : string) : bool :=
  match s with
  | String c1 (String c2 _) =>
      (Ascii.eqb c1 "u" || Ascii.eqb c1 "U")
      && (Ascii.eqb c2 "p" || Ascii.eqb c2 "P")
  | _ => false
  end.

(** An entry as the parsing loop builds it: the status follows from
    [running]. *)
Definition parsed_entry (c : Docker.container) : Prop :=
  Docker.status c = if Docker.running c then "UP" else "DOWN".

(** The exception of the first call of the [psutil] branch that raises, in
    the order of lines 98-110. *)
Definition first_psutil_error (W : world) : option exn :=
  match psutil_cpu_percent W with
  | Raise e => Some e
  | Ok _ =>
      match psutil_virtual_memory W with
      | Raise e => Some e
      | Ok _ =>
          match psutil_disk_usage W "/" with
          | Raise e => Some e
          | Ok _ =>
              match psutil_getloadavg W with
              | Raise e => Some e
              | Ok _ =>
                  match psutil_boot_time W with
                  | Raise e => Some e
                  | Ok _ => None
                  end
              end
          end
      end
  end.

Definition is_psutil (ev : event) : bool :=
  match ev with
  | EvPsutil _ => true
  | _ => false
  end.

(** ** The device scripts [register-device.py] and [list-devices.py]

    The two scripts talk to the device server over signed HTTP requests and
    print what they find.  What they get from outside (the configuration,
    the clock, [hmac], [urlopen], the [json] codec, the text of values that
    are neither strings nor integers) is a field of the record [host]; the
    requests sent and the lines printed are recorded in order. *)

Module Vss.

(** A [urllib.request.Request]: [method] is [None] when the constructor
    got none, [data] is the body, [headers] holds the headers in the order
    in which they were given. *)
Record request : Type := {
  url : string;
  method : option string;
  data : option string;
  headers : list (string * string)
}.

(** What [urlopen] does with a request: a response with its status and
    body, an [HTTPError] with its code, or another exception. *)
Inductive reply : Type :=
| Response (status : Z) (raw : string)
| HTTPError (code : Z) (msg : string)
| Failure (e : exn).

Record host : Type := {
  VSS_HOST : string;
  VSS_PORT : Z;
  API_KEY : string;
  API_SECRET : string;
  DEVICE_UUID : string;
  DEVICE_NAME : string;
  ROTATION : Z;
  DISPLAY_URL : string;
  (* int(time.time()) after the given number of requests and lines *)
  clock : nat -> Z;
  (* hmac.new(key, msg, hashlib.sha256).hexdigest() *)
  hmac_sha256 : string -> string -> string;
  urlopen : request -> reply;
  json_dumps : json -> string;
  json_loads : string -> result json;
  (* str(v) for a float, a list or a dict *)
  repr_value : json -> string;
  (* format(v, spec) for a value that is neither a str nor an int *)
  format_value : json -> string -> result string
}.

Inductive event : Type :=
| Sent (r : request)
| Printed (line : string).

(** A computation that may raise, over the record of requests and lines. *)
Definition M (A : Type) : Type := list event -> result A * list event.

Definition ret {A : Type} (a : A) : M A := fun tr => (Ok a, tr).

Definition raise {A : Type} (e : exn) : M A := fun tr => (Raise e, tr).

Definition bind {A B : Type} (m : M A) (k : A -> M B) : M B :=
  fun tr =>
    match m tr with
    | (Ok a, tr') => k a tr'
    | (Raise e, tr') => (Raise e, tr')
    end.

Definition lift {A : Type} (r : result A) : M A := fun tr => (r, tr).

Definition print (line : string) : M unit :=
  fun tr => (Ok tt, tr ++ [Printed line]).

Definition run {A : Type} (m : M A) : result A * list event := m [].

Definition nl : string := String "010"%char EmptyString.

(** The dash U+2014 of two printed lines, as its three UTF-8 bytes. *)
Definition dash : string :=
  String "226"%char (String "128"%char (String "148"%char EmptyString)).

(** [str(v)] as an f-string field without a format gives it. *)
Definition str_value (H : host) (v : json) : string :=
  match v with
  | JStr s => s
  | JInt n => str_of_int n
  | JBool b => if b then "True" else "False"
  | JNull => "None"
  | _ => repr_value H v
  end.

(** [s] followed by spaces up to the width [width]. *)
Fixpoint spaces (n : nat) : string :=
  match n with
  | O => EmptyString
  | S n' => String " " (spaces n')
  end.

Definition pad (s : string) (width : nat) : string :=
  s ^^ spaces (width - String.length s).

(** [format(v, "<width")] *)
Definition format_left (H : host) (v : json) (width : nat) : result string :=
  match v with
  | JStr s => Ok (pad s width)
  | JInt n => Ok (pad (str_of_int n) width)
  | _ => format_value H v ("<" ^^ str_of_nat width)
  end.

(** [v.lower()] for a value out of a JSON document. *)
Definition lower_value (v : json) : result string :=
  match v with
  | JStr s => Ok (lower s)
  | _ => Raise (AttributeError
                  ("'" ^^ type_name v ^^ "' object has no attribute 'lower'"))
  end.

(** The values that [for d in v] visits. *)
Definition iterate (v : json) : result (list json) :=
  match v with
  | JList items => Ok items
  | JObj d => Ok (map (fun kv => JStr (fst kv)) d)
  | JStr s => Ok (map (fun c => JStr (String c EmptyString))
                      (list_ascii_of_string s))
  | _ => Raise (TypeError ("'" ^^ type_name v ^^ "' object is not iterable"))
  end.

End Vss.

Notation "x <~ m ;; k" := (Vss.bind m (fun x => k))
  (at level 61, m at next level, right associativity).
Notation "m ;;~ k" := (Vss.bind m (fun _ => k))
  (at level 61, right associativity).

(** *** [register-device.py] *)

Module RegisterDevice.
Section Script.
Variable H : Vss.host.

Definition BASE : string :=
  "http://" ^^ Vss.VSS_HOST H ^^ ":" ^^ str_of_int (Vss.VSS_PORT H) ^^ "/api".

(** Lines 57-68, with [now] the value of [int(time.time())]. *)
Definition signed (method path body : string) (now : Z) : Vss.request :=
  let ts := str_of_int now in
  let msg := method ^^ " /api" ^^ path ^^ " " ^^ ts in
  let sig := Vss.hmac_sha256 H (Vss.API_SECRET H) msg in
  let auth := ("Authorization", Vss.API_KEY H ^^ ":" ^^ ts ^^ ":" ^^ sig) in
  {| Vss.url := BASE ^^ path;
     Vss.method := Some method;
     Vss.data := if is_empty body then None else Some body;
     Vss.headers :=
       if is_empty body then [auth]
       else [auth; ("Content-Type", "application/json")] |}.

(** Lines 55-68: the clock is read when the request is built. *)
Definition sign (method path body : string) : Vss.M Vss.request :=
  fun tr => (Ok (signed method path body (Vss.clock H (length tr))), tr).

Definition send (req : Vss.request) : Vss.M Vss.reply :=
  fun tr => (Ok (Vss.urlopen H req), tr ++ [Vss.Sent req]).

(** Lines 71-79: [payload] is [None] when the caller gives none. *)
Definition api_call (method path : string) (payload : json)
  : Vss.M (Z * json) :=
  let body := if truthy payload then Vss.json_dumps H payload
              else EmptyString in
  req <~ sign method path body ;;
  r <~ send req ;;
  match r with
  | Vss.Response status raw =>
      if is_empty raw then Vss.ret (status, JNull)
      else v <~ Vss.lift (Vss.json_loads H raw) ;; Vss.ret (status, v)
  | Vss.HTTPError code _ => Vss.ret (code, JNull)
  | Vss.Failure e => Vss.raise e
  end.

Definition http_line (status : Z) : string :=
  "  HTTP " ^^ str_of_int status
  ^^ (if status =? 204 then " (OK)" else " (unexpected)").

(** Lines 125-133. *)
Definition verify (session : json) : Vss.M unit :=
  if truthy session then
    backend <~ Vss.lift (Py.get session "Backend" (JObj [])) ;;
    fields <~ Vss.lift (Py.get backend "Fields" (JObj [])) ;;
    saved_url <~ Vss.lift (Py.get fields "url" (JStr EmptyString)) ;;
    if truthy saved_url
    then Vss.print ("  Verified URL saved: " ^^ Vss.str_value H saved_url)
    else
      Vss.print "  WARNING: URL field is empty after save!" ;;~
      Vss.print
        ("  This usually means 'url' key got set as 'Url' " ^^ Vss.dash
         ^^ " check the payload.")
  else Vss.ret tt.

(** Lines 82-145. *)
Definition main : Vss.M unit :=
  let uuid := lower (Vss.DEVICE_UUID H) in
  Vss.print ("Checking device " ^^ uuid ^^ "...") ;;~
  found <~ api_call "GET" ("/device/" ^^ uuid) JNull ;;
  let (status, device) := found : Z * json in
  if negb (status =? 200) then
    Vss.print ("  Device not found (HTTP " ^^ str_of_int status
               ^^ "). Is it connected to VSS?") ;;~
    Vss.print "  Check VSS admin: http://{VSS_HOST}:{VSS_PORT}"
  else
    state <~ Vss.lift (Py.get device "State" (JStr "unknown")) ;;
    Vss.print ("  Found: " ^^ Vss.str_value H state ^^ " state") ;;~
    Vss.print ("Setting device name to '" ^^ Vss.DEVICE_NAME H
               ^^ "' with rotation " ^^ str_of_int (Vss.ROTATION H)
               ^^ "...") ;;~
    named <~ api_call "PUT" ("/device/" ^^ uuid)
               (JObj [("Uuid", JStr uuid);
                      ("Options",
                       JObj [("Name", JStr (Vss.DEVICE_NAME H));
                             ("Rotation", JInt (Vss.ROTATION H))])]) ;;
    Vss.print (http_line (fst named)) ;;~
    Vss.print ("Setting session URL: " ^^ Vss.DISPLAY_URL H) ;;~
    saved <~ api_call "PUT" ("/session/" ^^ uuid)
               (JObj [("Uuid", JStr uuid);
                      ("Backend",
                       JObj [("Name", JStr "HTML");
                             ("Fields",
                              JObj [("url", JStr (Vss.DISPLAY_URL H))])]);
                      ("Options",
                       JObj [("DefaultDithering", JStr "Floyd-Steinberg");
                             ("RefreshTime", JInt 900);
                             ("DeviceAccessRule", JStr "None")])]) ;;
    Vss.print (http_line (fst saved)) ;;~
    checked <~ api_call "GET" ("/session/" ^^ uuid) JNull ;;
    verify (snd checked) ;;~
    Vss.print "Triggering restart..." ;;~
    restarted <~ api_call "POST" ("/session/" ^^ uuid ^^ "/restart") JNull ;;
    (if fst restarted =? 204
     then Vss.print "  Restart queued. Device will update within ~60 seconds."
     else if fst restarted =? 500
     then Vss.print
            ("  HTTP 500 (device is offline, but config is saved " ^^ Vss.dash
             ^^ " it'll apply on reconnect)")
     else Vss.print ("  HTTP " ^^ str_of_int (fst restarted))) ;;~
    Vss.print (Vss.nl ^^ "Done! View device in VSS admin: http://"
               ^^ Vss.VSS_HOST H ^^ ":" ^^ str_of_int (Vss.VSS_PORT H)).

End Script.
End RegisterDevice.

(** *** [list-devices.py] *)

Module ListDevices.
Section Script.
Variable H : Vss.host.

Definition BASE : string :=
  "http://" ^^ Vss.VSS_HOST H ^^ ":" ^^ str_of_int (Vss.VSS_PORT H) ^^ "/api".

(** Lines 34-38, with [now] the value of [int(time.time())]: no method
    and no body are given to [Request]. *)
Definition signed (method path : string) (now : Z) : Vss.request :=
  let ts := str_of_int now in
  let msg := method ^^ " /api" ^^ path ^^ " " ^^ ts in
  let sig := Vss.hmac_sha256 H (Vss.API_SECRET H) msg in
  {| Vss.url := BASE ^^ path;
     Vss.method := None;
     Vss.data := None;
     Vss.headers :=
       [("Authorization", Vss.API_KEY H ^^ ":" ^^ ts ^^ ":" ^^ sig)] |}.

(** Lines 33-38: the clock is read when the request is built. *)
Definition sign (method path : string) : Vss.M Vss.request :=
  fun tr => (Ok (signed method path (Vss.clock H (length tr))), tr).

Definition send (req : Vss.request) : Vss.M Vss.reply :=
  fun tr => (Ok (Vss.urlopen H req), tr ++ [Vss.Sent req]).

(** Lines 42-43: nothing is caught here. *)
Definition fetch : Vss.M json :=
  req <~ sign "GET" "/device/" ;;
  r <~ send req ;;
  match r with
  | Vss.Response _ raw => Vss.lift (Vss.json_loads H raw)
  | Vss.HTTPError _ msg => Vss.raise (External msg)
  | Vss.Failure e => Vss.raise e
  end.

Fixpoint dashes (n : nat) : string :=
  match n with
  | O => EmptyString
  | S n' => String "-" (dashes n')
  end.

(** Lines 52-55: the row of one device. *)
Definition row (d : json) : Vss.M unit :=
  u <~ Vss.lift (Py.get d "Uuid" (JStr EmptyString)) ;;
  uuid <~ Vss.lift (Vss.lower_value u) ;;
  state <~ Vss.lift (Py.get d "State" (JStr "unknown")) ;;
  options <~ Vss.lift (Py.get d "Options" (JObj [])) ;;
  name <~ Vss.lift (Py.get options "Name" (JStr "(unnamed)")) ;;
  state_text <~ Vss.lift (Vss.format_left H state 10) ;;
  Vss.print (Vss.pad uuid 44 ^^ " " ^^ state_text ^^ " "
             ^^ Vss.str_value H name).

Fixpoint rows (devices : list json) : Vss.M unit :=
  match devices with
  | [] => Vss.ret tt
  | d :: rest => row d ;;~ rows rest
  end.

(** Lines 41-55. *)
Definition main : Vss.M unit :=
  devices <~ fetch ;;
  if negb (truthy devices) then
    Vss.print
      "No devices found. Make sure devices are powered on and connected to VSS."
  else
    Vss.print (Vss.pad "UUID" 44 ^^ " " ^^ Vss.pad "State" 10 ^^ " " ^^ "Name") ;;~
    Vss.print (dashes 80) ;;~
    items <~ Vss.lift (Vss.iterate devices) ;;
    rows items.

End Script.
End ListDevices.

(** A device server for running the two scripts on concrete inputs. *)
Module SampleVss.

(** A stand-in for the signature. *)
Definition fake_hmac (key msg : string) : string := "sig(" ^^ msg ^^ ")".

Definition device_a : json :=
  JObj [("Uuid", JStr "2A003500-0F47-3130-3830-333200000000");
        ("State", JStr "online");
        ("Options", JObj [("Name", JStr "Kitchen"); ("Rotation", JInt 2)])].

Definition device_b : json :=
  JObj [("Uuid", JStr "4B001200-0F47-3130-3830-333200000000");
        ("State", JStr "offline");
        ("Options", JObj [])].

(** The body of a response stands for the document it encodes. *)
Definition decode (raw : string) : result json :=
  if String.eqb raw "devices" then Ok (JList [device_a; device_b])
  else if String.eqb raw "device" then Ok device_a
  else if String.eqb raw "session"
  then Ok (JObj [("Backend",
                  JObj [("Fields",
                         JObj [("url", JStr "http://10.0.0.5:8124/your-page.html")])])])
  else if String.eqb raw "[]" then Ok (JList [])
  else Raise (ValueError "Expecting value: line 1 column 1 (char 0)").

Definition path_of (r : Vss.request) : string :=
  substring 24 (String.length (Vss.url r) - 24) (Vss.url r).

(** The server knows the device, accepts every change and restarts it. *)
Definition answer (r : Vss.request) : Vss.reply :=
  match Vss.method r with
  | Some "PUT" => Vss.Response 204 EmptyString
  | Some "POST" => Vss.Response 204 EmptyString
  | _ =>
      if String.eqb (path_of r) "/device/" then Vss.Response 200 "devices"
      else if String.prefix "/device/" (path_of r)
      then Vss.Response 200 "device"
      else Vss.Response 200 "session"
  end.

Definition server : Vss.host :=
  {| Vss.VSS_HOST := "10.0.0.5";
     Vss.VSS_PORT := 8081;
     Vss.API_KEY := "key";
     Vss.API_SECRET := "secret";
     Vss.DEVICE_UUID := "2A003500-0F47-3130-3830-333200000000";
     Vss.DEVICE_NAME := "My Display";
     Vss.ROTATION := 2;
     Vss.DISPLAY_URL := "http://10.0.0.5:8124/your-page.html";
     Vss.clock := fun n => 1700000000 + Z.of_nat n;
     Vss.hmac_sha256 := fake_hmac;
     Vss.urlopen := answer;
     Vss.json_dumps := Sample.encode;
     Vss.json_loads := decode;
     Vss.repr_value := Sample.encode;
     Vss.format_value := fun v _ =>
       Raise (TypeError "unsupported format string passed to __format__") |}.

(** The same server answering every request with the given reply. *)
Definition always (r : Vss.reply) : Vss.host :=
  {| Vss.VSS_HOST := Vss.VSS_HOST server;
     Vss.VSS_PORT := Vss.VSS_PORT server;
     Vss.API_KEY := Vss.API_KEY server;
     Vss.API_SECRET := Vss.API_SECRET server;
     Vss.DEVICE_UUID := Vss.DEVICE_UUID server;
     Vss.DEVICE_NAME := Vss.DEVICE_NAME server;
     Vss.ROTATION := Vss.ROTATION server;
     Vss.DISPLAY_URL := Vss.DISPLAY_URL server;
     Vss.clock := Vss.clock server;
     Vss.hmac_sha256 := Vss.hmac_sha256 server;
     Vss.urlopen := fun _ => r;
     Vss.json_dumps := Vss.json_dumps server;
     Vss.json_loads := Vss.json_loads server;
     Vss.repr_value := Vss.repr_value server;
     Vss.format_value := Vss.format_value server |}.

End SampleVss.

(** The requests of a record of events, each with its method and URL. *)
Definition sent (tr : list Vss.event) : list (option string * string) :=
  flat_map (fun ev => match ev with
                      | Vss.Sent r => [(Vss.method r, Vss.url r)]
                      | Vss.Printed _ => []
                      end) tr.

(** The lines of a record of events. *)
Definition printed (tr : list Vss.event) : list string :=
  flat_map (fun ev => match ev with
                      | Vss.Printed line => [line]
                      | Vss.Sent _ => []
                      end) tr.

(** The five steps of [register-device.py] for the device [uuid]. *)
Definition register_steps (H : Vss.host) (uuid : string)
  : list (option string * string) :=
  [(Some "GET", RegisterDevice.BASE H ^^ "/device/" ^^ uuid);
   (Some "PUT", RegisterDevice.BASE H ^^ "/device/" ^^ uuid);
   (Some "PUT", RegisterDevice.BASE H ^^ "/session/" ^^ uuid);
   (Some "GET", RegisterDevice.BASE H ^^ "/session/" ^^ uuid);
   (Some "POST", RegisterDevice.BASE H ^^ "/session/" ^^ uuid ^^ "/restart")].

(** What [api_call] makes of the reply of the server. *)
Definition outcome_of (H : Vss.host) (r : Vss.reply) : result (Z * json) :=
  match r with
  | Vss.Response status raw =>
      if is_empty raw then Ok (status, JNull)
      else match Vss.json_loads H raw with
           | Ok v => Ok (status, v)
           | Raise e => Raise e
           end
  | Vss.HTTPError code _ => Ok (code, JNull)
  | Vss.Failure e => Raise e
  end.

(** The three texts of a device that [list-devices.py] can print: the
    members [Uuid], [State] and [Options.Name], each a string or missing. *)
Definition device_texts (d : json) : option (string * string * string) :=
  match d with
  | JObj fields =>
      let text (o : option json) (default : string) : option string :=
          match o with
          | Some (JStr s) => Some s
          | None => Some default
          | _ => None
          end in
      match text (dict_get "Uuid" fields) EmptyString,
            text (dict_get "State" fields) "unknown",
            match dict_get "Options" fields with
            | Some (JObj options) => text (dict_get "Name" options) "(unnamed)"
            | None => Some "(unnamed)"
            | _ => None
            end with
      | Some uuid, Some state, Some name => Some (uuid, state, name)
      | _, _, _ => None
      end
  | _ => None
  end.

(** The row of such a device. *)
Definition row_text (t : string * string * string) : string :=
  Vss.pad (lower (fst (fst t))) 44 ^^ " " ^^ Vss.pad (snd (fst t)) 10 ^^ " "
  ^^ snd t.

(** * Properties *)

(** ** Computations in a frame *)

Ltac unfold_eff :=
  unfold run, call, finally, try_except, bind, lift, emit, ret, raise,
    get_locals, set_locals in *.

Section Dictionaries.
Context {V : Type}.

Lemma dict_get_set_other (k k' : string) (v : V) (d : dict V) :
  k <> k' -> dict_get k (dict_set k' v d) = dict_get k d.
Proof.
  intro Hne. induction d as [|[k0 v0] d IH]; cbn.
  - destruct (String.eqb_spec k k'); [contradiction|reflexivity].
  - destruct (String.eqb_spec k' k0) as [->|Hk0]; cbn.
    + destruct (String.eqb_spec k k0); [contradiction|reflexivity].
    + destruct (String.eqb_spec k k0); [reflexivity|exact IH].
Qed.

Lemma dict_get_set_same (k : string) (v : V) (d : dict V) :
  dict_get k (dict_set k v d) = Some v.
Proof.
  induction d as [|[k0 v0] d IH]; cbn.
  - rewrite String.eqb_refl. reflexivity.
  - destruct (String.eqb_spec k k0) as [->|Hk0]; cbn.
    + rewrite String.eqb_refl. reflexivity.
    + destruct (String.eqb_spec k k0); [contradiction|exact IH].
Qed.

End Dictionaries.

Section Preserves.
Context {L : Type} (P : frame L -> Prop).

Lemma preserves_ret {A : Type} (a : A) : preserves P (ret a).
Proof. intros fr H. exact H. Qed.

Lemma preserves_raise {A : Type} (e : exn) : preserves P (raise (A := A) e).
Proof. intros fr H. exact H. Qed.

Lemma preserves_lift {A : Type} (r : result A) : preserves P (lift r).
Proof. intros fr H. exact H. Qed.

Lemma preserves_get_locals : preserves P get_locals.
Proof. intros fr H. exact H. Qed.

Lemma preserves_bind {A B : Type} (m : M L A) (k : A -> M L B) :
  preserves P m -> (forall a, preserves P (k a)) -> preserves P (bind m k).
Proof.
  intros Hm Hk fr H. unfold bind. specialize (Hm fr H).
  destruct (m fr) as [[a|e] fr']; cbn [snd] in *.
  - apply Hk, Hm.
  - exact Hm.
Qed.

Lemma preserves_try {A : Type} (m : M L A) (h : exn -> M L A) :
  preserves P m -> (forall e, preserves P (h e)) ->
  preserves P (try_except m h).
Proof.
  intros Hm Hh fr H. unfold try_except. specialize (Hm fr H).
  destruct (m fr) as [[a|e] fr']; cbn [snd] in *.
  - exact Hm.
  - apply Hh, Hm.
Qed.

Lemma preserves_finally {A : Type} (m : M L A) (c : M L unit) :
  preserves P m -> preserves P c -> preserves P (finally m c).
Proof.
  intros Hm Hc fr H. unfold finally. specialize (Hm fr H).
  destruct (m fr) as [r fr']; cbn [snd] in *.
  specialize (Hc fr' Hm).
  destruct (c fr') as [[u|e] fr'']; exact Hc.
Qed.

End Preserves.

Ltac preserve_step :=
  first
    [ apply preserves_bind; [|intro]
    | apply preserves_try; [|intro]
    | apply preserves_finally
    | apply preserves_ret | apply preserves_raise | apply preserves_lift
    | apply preserves_get_locals ].

Section ExtendsTrace.
Context {L : Type}.

Lemma extends_ret {A : Type} (a : A) : extends_trace (L := L) (ret a).
Proof. intros l t. cbn. rewrite app_nil_r. reflexivity. Qed.

Lemma extends_raise {A : Type} (e : exn) :
  extends_trace (L := L) (raise (A := A) e).
Proof. intros l t. cbn. rewrite app_nil_r. reflexivity. Qed.

Lemma extends_lift {A : Type} (r : result A) : extends_trace (L := L) (lift r).
Proof. intros l t. cbn. rewrite app_nil_r. reflexivity. Qed.

Lemma extends_emit (ev : event) : extends_trace (L := L) (emit ev).
Proof. intros l t. reflexivity. Qed.

Lemma extends_get_locals : extends_trace (L := L) get_locals.
Proof. intros l t. cbn. rewrite app_nil_r. reflexivity. Qed.

Lemma extends_set_locals (l' : L) : extends_trace (set_locals l').
Proof. intros l t. cbn. rewrite app_nil_r. reflexivity. Qed.

Lemma extends_bind {A B : Type} (m : M L A) (k : A -> M L B) :
  extends_trace m -> (forall a, extends_trace (k a)) ->
  extends_trace (bind m k).
Proof.
  intros Hm Hk l t. unfold bind. rewrite (Hm l t).
  destruct (m {| locals := l; trace := [] |}) as [[a|e] [l1 t1]];
    cbn [fst snd locals trace]; [|reflexivity].
  rewrite (Hk a l1 (t ++ t1)), (Hk a l1 t1).
  destruct (k a {| locals := l1; trace := [] |}) as [r [l2 t2]].
  cbn [fst snd locals trace]. rewrite app_assoc. reflexivity.
Qed.

Lemma extends_try {A : Type} (m : M L A) (h : exn -> M L A) :
  extends_trace m -> (forall e, extends_trace (h e)) ->
  extends_trace (try_except m h).
Proof.
  intros Hm Hh l t. unfold try_except. rewrite (Hm l t).
  destruct (m {| locals := l; trace := [] |}) as [[a|e] [l1 t1]];
    cbn [fst snd locals trace]; [reflexivity|].
  rewrite (Hh e l1 (t ++ t1)), (Hh e l1 t1).
  destruct (h e {| locals := l1; trace := [] |}) as [r [l2 t2]].
  cbn [fst snd locals trace]. rewrite app_assoc. reflexivity.
Qed.

Lemma extends_finally {A : Type} (m : M L A) (c : M L unit) :
  extends_trace m -> extends_trace c -> extends_trace (finally m c).
Proof.
  intros Hm Hc l t. unfold finally. rewrite (Hm l t).
  destruct (m {| locals := l; trace := [] |}) as [r [l1 t1]].
  cbn [fst snd locals trace].
  rewrite (Hc l1 (t ++ t1)), (Hc l1 t1).
  destruct (c {| locals := l1; trace := [] |}) as [[u|e] [l2 t2]];
    cbn [fst snd locals trace]; rewrite app_assoc; reflexivity.
Qed.

Lemma extends_call {L' A : Type} (init : L') (m : M L' A) :
  extends_trace m -> extends_trace (L := L) (call init m).
Proof.
  intros Hm l t. unfold call. cbn [locals trace]. rewrite (Hm init t).
  destruct (m {| locals := init; trace := [] |}) as [r [l1 t1]].
  reflexivity.
Qed.

End ExtendsTrace.

Ltac extend_step :=
  first
    [ apply extends_bind; [|intro]
    | apply extends_try; [|intro]
    | apply extends_finally
    | apply extends_call
    | apply extends_ret | apply extends_raise | apply extends_lift
    | apply extends_emit | apply extends_get_locals
    | apply extends_set_locals ].

(** A handler that returns makes the whole [try] return. *)
Lemma try_except_returns {L : Type} (m : M L unit) (fr : frame L) :
  fst (try_except m (fun _ => ret tt) fr) = Ok tt.
Proof.
  unfold try_except, ret. destruct (m fr) as [[[]|e] fr']; reflexivity.
Qed.

(** ** Rounding *)

Section Rounding.

Lemma round_half_even_near (y : Q) :
  (y - (1 # 2) <= inject_Z (round_half_even y) <= y + (1 # 2))%Q.
Proof.
  unfold round_half_even.
  pose proof (Qfloor_le y) as Hlo.
  pose proof (Qlt_floor y) as Hhi.
  rewrite inject_Z_plus in Hhi. change (inject_Z 1) with 1%Q in Hhi.
  set (f := Qfloor y) in *.
  destruct (Qcompare (y - inject_Z f) (1 # 2)) eqn:Hc.
  - apply Qeq_alt in Hc.
    destruct (Z.even f); rewrite ?inject_Z_plus;
      change (inject_Z 1) with 1%Q; split; lra.
  - apply Qlt_alt in Hc. split; lra.
  - apply Qgt_alt in Hc. rewrite inject_Z_plus.
    change (inject_Z 1) with 1%Q. split; lra.
Qed.

(** Rounding does not cross an integer. *)
Lemma round_half_even_le (y : Q) (m : Z) :
  (y <= inject_Z m)%Q -> round_half_even y <= m.
Proof.
  intro H. pose proof (round_half_even_near y) as [_ Hn].
  assert (Hlt : (inject_Z (round_half_even y) < inject_Z (m + 1))%Q).
  { rewrite inject_Z_plus. change (inject_Z 1) with 1%Q. lra. }
  rewrite <- Zlt_Qlt in Hlt. lia.
Qed.

Lemma round_half_even_ge (y : Q) (m : Z) :
  (inject_Z m <= y)%Q -> m <= round_half_even y.
Proof.
  intro H. pose proof (round_half_even_near y) as [Hn _].
  assert (Hlt : (inject_Z m < inject_Z (round_half_even y + 1))%Q).
  { rewrite inject_Z_plus. change (inject_Z 1) with 1%Q. lra. }
  rewrite <- Zlt_Qlt in Hlt. lia.
Qed.

(** [round(x, ndigits)] is a multiple of [10 ** -ndigits] within half a
    unit of the last place of [x]. *)
Lemma round_float_spec (x : Q) (ndigits : nat) :
  let p := inject_Z (10 ^ Z.of_nat ndigits) in
  exists k : Z,
    (round_float x ndigits == inject_Z k / p)%Q /\
    (x * p - (1 # 2) <= inject_Z k <= x * p + (1 # 2))%Q.
Proof.
  intro p. exists (round_half_even (x * p)). split.
  - unfold round_float. rewrite Qred_correct, Qmake_Qdiv.
    rewrite Z2Pos.id by (apply Z.pow_pos_nonneg; lia). reflexivity.
  - apply round_half_even_near.
Qed.

End Rounding.

(** ** Binary floating point *)

Section Binary.


Lemma pow2_pos (e : Z) : (0 < pow2 e)%Q.
Proof. apply Qpower_0_lt. reflexivity. Qed.

Lemma pow2_le (e1 e2 : Z) : e1 <= e2 -> (pow2 e1 <= pow2 e2)%Q.
Proof. intro H. apply Qpower_le_compat_l; [exact H|discriminate]. Qed.

Lemma pow2_add (e1 e2 : Z) : (pow2 (e1 + e2) == pow2 e1 * pow2 e2)%Q.
Proof. apply Qpower_plus. discriminate. Qed.

Lemma pow2_Z (k : Z) : 0 <= k -> (pow2 k == inject_Z (2 ^ k))%Q.
Proof. intro H. symmetry. apply (Zpower_Qpower 2 k H). Qed.

(** A multiple of [2^e2] is a multiple of [2^e1] for [e1 <= e2]. *)
Lemma pow2_multiple (c e1 e2 : Z) :
  e1 <= e2 ->
  (inject_Z c * pow2 e2 == inject_Z (c * 2 ^ (e2 - e1)) * pow2 e1)%Q.
Proof.
  intro H. replace e2 with ((e2 - e1) + e1) at 1 by ring.
  rewrite pow2_add, (@pow2_Z (e2 - e1)) by lia.
  rewrite inject_Z_mult. ring.
Qed.

Lemma binade_le (x : Q) : ~ (x == 0)%Q -> (pow2 (binade x) <= Qabs x)%Q.
Proof.
  intro Hx. unfold binade.
  set (a := Z.abs (Qnum x)). set (b := Zpos (Qden x)).
  destruct (Qle_bool (pow2 (Z.log2 a - Z.log2 b)) (Qabs x)) eqn:Hb.
  - apply Qle_bool_iff. exact Hb.
  - assert (Ha : 0 < a).
    { unfold a. destruct x as [[|p|p] d]; cbn; try lia.
      exfalso. apply Hx. reflexivity. }
    assert (Hb0 : 0 < b) by (unfold b; lia).
    pose proof (Z.log2_spec a Ha) as [Ha1 _].
    pose proof (Z.log2_spec b Hb0) as [_ Hb2].
    pose proof (Z.log2_nonneg a). pose proof (Z.log2_nonneg b).
    replace (Z.log2 a - Z.log2 b - 1) with (Z.log2 a + - Z.succ (Z.log2 b))
      by lia.
    rewrite pow2_add. unfold pow2 at 2. rewrite Qpower_opp.
    fold (pow2 (Z.succ (Z.log2 b))).
    rewrite !pow2_Z by lia.
    assert (Habs : (Qabs x == inject_Z a / inject_Z b)%Q).
    { destruct x as [n d]. unfold a, b, Qabs, Qeq, Qdiv, Qmult, Qinv, inject_Z.
      cbn. lia. }
    rewrite Habs.
    assert (H1 : (inject_Z (2 ^ Z.log2 a) <= inject_Z a)%Q)
      by (rewrite <- Zle_Qle; exact Ha1).
    assert (H2 : (inject_Z b <= inject_Z (2 ^ Z.succ (Z.log2 b)))%Q)
      by (rewrite <- Zle_Qle; lia).
    assert (H3 : (0 < inject_Z b)%Q)
      by (change 0%Q with (inject_Z 0); rewrite <- Zlt_Qlt; exact Hb0).
    assert (H4 : (0 < inject_Z (2 ^ Z.log2 a))%Q).
    { change 0%Q with (inject_Z 0). rewrite <- Zlt_Qlt.
      apply Z.pow_pos_nonneg; lia. }
    set (p := inject_Z (2 ^ Z.log2 a)) in *.
    set (q := inject_Z (2 ^ Z.succ (Z.log2 b))) in *.
    set (ia := inject_Z a) in *. set (ib := inject_Z b) in *.
    apply Qle_shift_div_l; [exact H3|].
    assert (Hq : (0 < q)%Q) by lra.
    assert (Hinv : (/ q * ib <= 1)%Q).
    { rewrite Qmult_comm. apply Qle_shift_div_r; [exact Hq|]. lra. }
    rewrite <- Qmult_assoc.
    apply Qle_trans with (p * 1)%Q; [|lra].
    apply Qmult_le_l; [exact H4|exact Hinv].
Qed.

Lemma round_double_value (x : Q) :
  (round_double x ==
   inject_Z (round_half_even (x / pow2 (ulp_exponent x)))
   * pow2 (ulp_exponent x))%Q.
Proof. unfold round_double. apply Qred_correct. Qed.

(** Above the smallest exponent, the scaled magnitude is at least [2^52]. *)
Lemma scaled_large (x : Q) :
  (0 < x)%Q -> -1074 < ulp_exponent x ->
  (inject_Z (2 ^ 52) * pow2 (ulp_exponent x) <= x)%Q.
Proof.
  intros Hx He.
  assert (Hb : ulp_exponent x = binade x - 52) by (unfold ulp_exponent in *; lia).
  assert (Hne : ~ (x == 0)%Q) by (intro H0; rewrite H0 in Hx; discriminate).
  pose proof (binade_le Hne) as Hle.
  rewrite Qabs_pos in Hle by lra.
  replace (binade x) with (52 + ulp_exponent x) in Hle by lia.
  rewrite pow2_add, (@pow2_Z 52) in Hle by lia. exact Hle.
Qed.

(** Rounding does not cross a binary64 number [c * 2^e]: it keeps an upper
    bound ... *)
Lemma round_double_le (c e : Z) (x : Q) :
  0 < c < 2 ^ 53 -> -1074 <= e ->
  (x <= inject_Z c * pow2 e)%Q ->
  (round_double x <= inject_Z c * pow2 e)%Q.
Proof.
  intros Hc He Hx. rewrite round_double_value.
  set (u := ulp_exponent x).
  pose proof (pow2_pos u) as Hu. pose proof (pow2_pos e) as Hpe.
  assert (Hc0 : (0 < inject_Z c)%Q)
    by (change 0%Q with (inject_Z 0); rewrite <- Zlt_Qlt; lia).
  destruct (Z.le_gt_cases u e) as [Hue|Hue].
  - rewrite (pow2_multiple c Hue) in Hx |- *.
    apply Qmult_le_compat_r; [|lra].
    rewrite <- Zle_Qle. apply round_half_even_le.
    apply Qle_shift_div_r; [exact Hu|exact Hx].
  - destruct (Qlt_le_dec 0 x) as [Hpos|Hneg].
    + exfalso.
      assert (Hlarge := @scaled_large x Hpos ltac:(fold u; lia)). fold u in Hlarge.
      pose proof (@pow2_le (e + 1) u ltac:(lia)) as Hm.
      rewrite pow2_add in Hm. change (pow2 1) with 2%Q in Hm.
      assert (Hc53 : (inject_Z c < inject_Z (2 ^ 53))%Q)
        by (rewrite <- Zlt_Qlt; lia).
      change (inject_Z (2 ^ 53)) with (2 * inject_Z (2 ^ 52))%Q in Hc53.
      set (k := inject_Z (2 ^ 52)) in *.
      assert (Hk : (0 < k)%Q) by reflexivity.
      set (ic := inject_Z c) in *.
      assert (H1 : (ic * pow2 e < 2 * k * pow2 e)%Q)
        by (apply Qmult_lt_compat_r; [exact Hpe|exact Hc53]).
      assert (H2 : (k * (pow2 e * 2) <= k * pow2 u)%Q)
        by (apply Qmult_le_l; [exact Hk|exact Hm]).
      lra.
    + apply Qle_trans with 0%Q.
      * assert (Hm : round_half_even (x / pow2 u) <= 0).
        { apply round_half_even_le. apply Qle_shift_div_r; [exact Hu|].
          change (inject_Z 0) with 0%Q. lra. }
        rewrite Zle_Qle in Hm. change (inject_Z 0) with 0%Q in Hm.
        set (m := inject_Z (round_half_even (x / pow2 u))) in *.
        assert (0 <= (- m) * pow2 u)%Q
          by (apply Qmult_le_0_compat; lra).
        lra.
      * apply Qmult_le_0_compat; lra.
Qed.

(** ... and a lower bound. *)
Lemma round_double_ge (c e : Z) (x : Q) :
  0 < c < 2 ^ 53 -> -1074 <= e ->
  (inject_Z c * pow2 e <= x)%Q ->
  (inject_Z c * pow2 e <= round_double x)%Q.
Proof.
  intros Hc He Hx. rewrite round_double_value.
  set (u := ulp_exponent x).
  pose proof (pow2_pos u) as Hu. pose proof (pow2_pos e) as Hpe.
  assert (Hc0 : (0 < inject_Z c)%Q)
    by (change 0%Q with (inject_Z 0); rewrite <- Zlt_Qlt; lia).
  assert (Hpos : (0 < x)%Q).
  { apply Qlt_le_trans with (inject_Z c * pow2 e)%Q; [|exact Hx].
    apply Qmult_lt_0_compat; assumption. }
  destruct (Z.le_gt_cases u e) as [Hue|Hue].
  - rewrite (pow2_multiple c Hue) in Hx |- *.
    apply Qmult_le_compat_r; [|lra].
    rewrite <- Zle_Qle. apply round_half_even_ge.
    apply Qle_shift_div_l; [exact Hu|exact Hx].
  - assert (Hlarge := @scaled_large x Hpos ltac:(fold u; lia)). fold u in Hlarge.
    pose proof (@pow2_le (e + 1) u ltac:(lia)) as Hm.
    rewrite pow2_add in Hm. change (pow2 1) with 2%Q in Hm.
    assert (Hc53 : (inject_Z c < inject_Z (2 ^ 53))%Q)
      by (rewrite <- Zlt_Qlt; lia).
    change (inject_Z (2 ^ 53)) with (2 * inject_Z (2 ^ 52))%Q in Hc53.
    assert (Hr : 2 ^ 52 <= round_half_even (x / pow2 u)).
    { apply round_half_even_ge. apply Qle_shift_div_l; [exact Hu|exact Hlarge]. }
    rewrite Zle_Qle in Hr.
    set (m := inject_Z (round_half_even (x / pow2 u))) in *.
    set (k := inject_Z (2 ^ 52)) in *.
    assert (Hk : (0 < k)%Q) by reflexivity.
    set (ic := inject_Z c) in *.
    assert (H1 : (ic * pow2 e <= 2 * k * pow2 e)%Q)
      by (apply Qmult_le_compat_r; lra).
    assert (H2 : (k * (pow2 e * 2) <= k * pow2 u)%Q)
      by (apply Qmult_le_l; [exact Hk|exact Hm]).
    assert (H3 : (k * pow2 u <= m * pow2 u)%Q)
      by (apply Qmult_le_compat_r; lra).
    lra.
Qed.

(** The result is within half a spacing of the exact value. *)
Lemma round_double_near (x : Q) :
  (Qabs (round_double x - x) <= pow2 (ulp_exponent x) * (1 # 2))%Q.
Proof.
  rewrite round_double_value.
  set (p := pow2 (ulp_exponent x)).
  pose proof (pow2_pos (ulp_exponent x)) as Hp. fold p in Hp.
  destruct (round_half_even_near (x / p)) as [H1 H2].
  set (m := inject_Z (round_half_even (x / p))) in *.
  assert (Hx : (x == (x / p) * p)%Q).
  { field. intro H0. rewrite H0 in Hp. discriminate. }
  set (y := (x / p)%Q) in *.
  assert (H3 : ((y - (1 # 2)) * p <= m * p)%Q)
    by (apply Qmult_le_compat_r; lra).
  assert (H4 : (m * p <= (y + (1 # 2)) * p)%Q)
    by (apply Qmult_le_compat_r; lra).
  apply Qabs_Qle_condition. split; lra.
Qed.

(** An integer below [2^53] is a float. *)
Lemma round_double_int (n : Z) :
  0 < n < 2 ^ 53 -> round_double (inject_Z n) = inject_Z n.
Proof.
  intro Hn.
  assert (He : (round_double (inject_Z n) == inject_Z n)%Q).
  { pose proof (@round_double_le n 0 (inject_Z n) Hn ltac:(lia)) as H1.
    pose proof (@round_double_ge n 0 (inject_Z n) Hn ltac:(lia)) as H2.
    change (pow2 0) with 1%Q in H1, H2.
    apply Qle_antisym; [lapply H1|lapply H2]; intros; lra. }
  unfold round_double in *. rewrite Qred_correct in He.
  rewrite (Qred_complete _ _ He).
  apply Qcanon.Qred_identity. cbn. apply Z.gcd_1_r.
Qed.

End Binary.

(** ** The float of a reading *)

Section Readings.

Lemma float_lt_iff (x y : Q) : float_lt x y = true <-> (x < y)%Q.
Proof.
  unfold float_lt. rewrite Qlt_alt.
  destruct (x ?= y)%Q; split; intro H; try reflexivity; discriminate H.
Qed.

Lemma float_lt_false (x y : Q) : (y <= x)%Q -> float_lt x y = false.
Proof.
  intro H. destruct (float_lt x y) eqn:E; [|reflexivity].
  apply float_lt_iff in E. exfalso. exact (Qlt_not_le _ _ E H).
Qed.

(** The float of a qualifying reading lies strictly between the bounds. *)
Lemma celsius_bounds (n : Z) :
  qualifies n = true -> (10 < celsius n < 120)%Q.
Proof.
  unfold qualifies. intro Hq. apply andb_true_iff in Hq.
  destruct Hq as [Hlo Hhi]. apply Z.ltb_lt in Hlo, Hhi.
  assert (Hn1 : (inject_Z 10001 <= inject_Z n)%Q) by (rewrite <- Zle_Qle; lia).
  assert (Hn2 : (inject_Z n <= inject_Z 119999)%Q) by (rewrite <- Zle_Qle; lia).
  unfold celsius.
  pose proof (@round_double_ge 10241 (-10) (inject_Z n / 1000)
                ltac:(lia) ltac:(lia)) as Hge.
  pose proof (@round_double_le 122879 (-10) (inject_Z n / 1000)
                ltac:(lia) ltac:(lia)) as Hle.
  change (pow2 (-10)) with (1 # 1024)%Q in Hge, Hle.
  change (inject_Z 10241) with 10241%Q in Hge.
  change (inject_Z 122879) with 122879%Q in Hle.
  change (inject_Z 10001) with 10001%Q in Hn1.
  change (inject_Z 119999) with 119999%Q in Hn2.
  unfold Qdiv in *. change (/ 1000)%Q with (1 # 1000)%Q in *.
  split.
  - apply Qlt_le_trans with (10241 * (1 # 1024))%Q; [reflexivity|].
    apply Hge. lra.
  - apply Qle_lt_trans with (122879 * (1 # 1024))%Q; [|reflexivity].
    apply Hle. lra.
Qed.

(** The float of a qualifying reading is within [2^-47] of the reading in
    degrees. *)
Lemma celsius_near (n : Z) :
  qualifies n = true ->
  (Qabs (celsius n - inject_Z n / 1000) <= 1 # 140737488355328)%Q.
Proof.
  unfold qualifies. intro Hq. apply andb_true_iff in Hq.
  destruct Hq as [Hlo Hhi]. apply Z.ltb_lt in Hlo, Hhi.
  assert (Hn1 : (inject_Z 10001 <= inject_Z n)%Q) by (rewrite <- Zle_Qle; lia).
  assert (Hn2 : (inject_Z n <= inject_Z 119999)%Q) by (rewrite <- Zle_Qle; lia).
  change (inject_Z 10001) with 10001%Q in Hn1.
  change (inject_Z 119999) with 119999%Q in Hn2.
  unfold celsius. set (x := (inject_Z n / 1000)%Q).
  assert (Hx : (10 < x < 120)%Q).
  { unfold x, Qdiv. change (/ 1000)%Q with (1 # 1000)%Q. split; lra. }
  assert (Hb : binade x <= 6).
  { destruct (Z.le_gt_cases (binade x) 6) as [H|H]; [exact H|exfalso].
    assert (Hne : ~ (x == 0)%Q) by (intro H0; rewrite H0 in Hx; lra).
    pose proof (binade_le Hne) as Hle. rewrite Qabs_pos in Hle by lra.
    pose proof (@pow2_le 7 (binade x) ltac:(lia)) as Hm.
    change (pow2 7) with 128%Q in Hm. lra. }
  pose proof (round_double_near x) as Hnear.
  pose proof (@pow2_le (ulp_exponent x) (-46)
                ltac:(unfold ulp_exponent; lia)) as Hu.
  change (pow2 (-46)) with (1 # 70368744177664)%Q in Hu.
  eapply Qle_trans; [exact Hnear|].
  apply Qle_trans with ((1 # 70368744177664) * (1 # 2))%Q; [lra|].
  discriminate.
Qed.

(** Line 143 and the test of line 144 on a reading [n]: the test holds
    exactly for the qualifying readings, for which the quotient is the float
    of [n / 1000]. *)
Lemma truediv_reading (n : Z) (t : Q) :
  truediv_int n 1000 = Ok t ->
  float_lt 10 t && float_lt t 120 = qualifies n /\
  (qualifies n = true -> t = celsius n).
Proof.
  unfold truediv_int, float_of_int.
  destruct (Z.abs n <? float_overflow); [|discriminate].
  intros [= <-].
  destruct (Z.le_gt_cases n 10000) as [Hlow|Hlow].
  - assert (Hq : qualifies n = false).
    { unfold qualifies. destruct (Z.ltb_spec 10000 n); [lia|reflexivity]. }
    rewrite Hq. split; [|discriminate].
    apply andb_false_iff. left. apply float_lt_false.
    pose proof (@round_double_le 10000 0 (inject_Z n) ltac:(lia) ltac:(lia))
      as H1.
    change (pow2 0) with 1%Q in H1. change (inject_Z 10000) with 10000%Q in H1.
    assert (Hn : (inject_Z n <= inject_Z 10000)%Q) by (rewrite <- Zle_Qle; lia).
    change (inject_Z 10000) with 10000%Q in Hn.
    pose proof (@round_double_le 5 1 (round_double (inject_Z n) / 1000)
                  ltac:(lia) ltac:(lia)) as H2.
    change (pow2 1) with 2%Q in H2. change (inject_Z 5) with 5%Q in H2.
    unfold Qdiv in *. change (/ 1000)%Q with (1 # 1000)%Q in *.
    apply Qle_trans with (5 * 2)%Q; [|discriminate].
    apply H2. lra.
  - destruct (Z.le_gt_cases 120000 n) as [Hhigh|Hhigh].
    + assert (Hq : qualifies n = false).
      { unfold qualifies. destruct (Z.ltb_spec n 120000); [lia|].
        apply andb_false_r. }
      rewrite Hq. split; [|discriminate].
      apply andb_false_iff. right. apply float_lt_false.
      pose proof (@round_double_ge 120000 0 (inject_Z n) ltac:(lia) ltac:(lia))
        as H1.
      change (pow2 0) with 1%Q in H1.
      change (inject_Z 120000) with 120000%Q in H1.
      assert (Hn : (inject_Z 120000 <= inject_Z n)%Q)
        by (rewrite <- Zle_Qle; lia).
      change (inject_Z 120000) with 120000%Q in Hn.
      pose proof (@round_double_ge 15 3 (round_double (inject_Z n) / 1000)
                    ltac:(lia) ltac:(lia)) as H2.
      change (pow2 3) with 8%Q in H2. change (inject_Z 15) with 15%Q in H2.
      unfold Qdiv in *. change (/ 1000)%Q with (1 # 1000)%Q in *.
      apply Qle_trans with (15 * 8)%Q; [discriminate|].
      apply H2. lra.
    + assert (Hq : qualifies n = true).
      { unfold qualifies. apply andb_true_iff. split; apply Z.ltb_lt; lia. }
      rewrite Hq.
      rewrite (@round_double_int n) by lia.
      fold (celsius n). split; [|reflexivity].
      destruct (@celsius_bounds n Hq) as [H1 H2].
      apply andb_true_iff. split; apply float_lt_iff; assumption.
Qed.

(** The quotient of line 143 exists for every reading that has a float. *)
Lemma truediv_in_range (n : Z) :
  Z.abs n < float_overflow -> exists t, truediv_int n 1000 = Ok t.
Proof.
  intro H. unfold truediv_int, float_of_int.
  destruct (Z.ltb_spec (Z.abs n) float_overflow); [|lia].
  eexists. reflexivity.
Qed.

End Readings.
(** ** The order of [str] and of the sort keys *)

Section StringOrder.

Lemma compare_trans (s1 : string) :
  forall s2 s3, String.compare s1 s2 <> Gt -> String.compare s2 s3 <> Gt ->
                String.compare s1 s3 <> Gt.
Proof.
  induction s1 as [|a s1 IH]; intros [|b s2] [|c s3]; simpl; try congruence.
  unfold Ascii.compare.
  destruct (N.compare_spec (N_of_ascii a) (N_of_ascii b)) as [Hab|Hab|Hab];
    destruct (N.compare_spec (N_of_ascii b) (N_of_ascii c)) as [Hbc|Hbc|Hbc];
    destruct (N.compare_spec (N_of_ascii a) (N_of_ascii c)) as [Hac|Hac|Hac];
    try congruence; try lia.
  apply IH.
Qed.

Lemma str_le_trans (s1 s2 s3 : string) :
  str_le s1 s2 = true -> str_le s2 s3 = true -> str_le s1 s3 = true.
Proof.
  unfold str_le, String.leb. intros H12 H23.
  pose proof (@compare_trans s1 s2 s3) as T.
  destruct (String.compare s1 s2), (String.compare s2 s3),
    (String.compare s1 s3); try discriminate; try reflexivity;
    exfalso; apply T; congruence.
Qed.

Lemma key_le_total (k1 k2 : bool * string) :
  Docker.key_le k1 k2 = true \/ Docker.key_le k2 k1 = true.
Proof.
  destruct k1 as [b1 n1], k2 as [b2 n2]. unfold Docker.key_le. simpl.
  destruct b1, b2; simpl; auto; apply String.leb_total.
Qed.

Lemma key_le_trans (k1 k2 k3 : bool * string) :
  Docker.key_le k1 k2 = true -> Docker.key_le k2 k3 = true ->
  Docker.key_le k1 k3 = true.
Proof.
  destruct k1 as [b1 n1], k2 as [b2 n2], k3 as [b3 n3].
  unfold Docker.key_le. simpl.
  destruct b1, b2, b3; simpl; try discriminate; auto; apply str_le_trans.
Qed.

End StringOrder.

(** ** [sorted]: a sorted rearrangement *)

Section SortedFacts.
Variables (A K : Type) (key : A -> K) (le : K -> K -> bool).
Hypothesis le_total : forall k1 k2, le k1 k2 = true \/ le k2 k1 = true.
Hypothesis le_trans :
  forall k1 k2 k3, le k1 k2 = true -> le k2 k3 = true -> le k1 k3 = true.

Let before (x y : A) : Prop := le (key x) (key y) = true.

Lemma insert_perm (x : A) (l : list A) :
  Permutation (Docker.insert key le x l) (x :: l).
Proof.
  induction l as [|y l IH]; simpl.
  - apply Permutation_refl.
  - destruct (le (key x) (key y)).
    + apply Permutation_refl.
    + eapply perm_trans; [apply perm_skip, IH | apply perm_swap].
Qed.

Lemma sorted_perm (l : list A) : Permutation (Docker.sorted key le l) l.
Proof.
  induction l as [|x l IH]; simpl.
  - apply perm_nil.
  - eapply perm_trans; [apply insert_perm | apply perm_skip, IH].
Qed.

Lemma insert_sorted (x : A) (l : list A) :
  StronglySorted before l -> StronglySorted before (Docker.insert key le x l).
Proof.
  induction 1 as [|y l Hs IH Hy]; simpl.
  - constructor; constructor.
  - destruct (le (key x) (key y)) eqn:Hxy.
    + constructor; [constructor; assumption|].
      constructor; [exact Hxy|].
      eapply Forall_impl; [|exact Hy].
      intros z Hz. unfold before in *. eapply le_trans; eassumption.
    + constructor; [exact IH|].
      eapply Permutation_Forall; [apply Permutation_sym, insert_perm|].
      constructor; [|exact Hy].
      unfold before. destruct (le_total (key x) (key y)); congruence.
Qed.

Lemma sorted_sorted (l : list A) : StronglySorted before (Docker.sorted key le l).
Proof.
  induction l as [|x l IH]; simpl.
  - constructor.
  - apply insert_sorted, IH.
Qed.

End SortedFacts.

Lemma StronglySorted_nth {A : Type} (R : A -> A -> Prop) (l : list A) :
  StronglySorted R l ->
  forall i j a b, (i < j)%nat ->
    nth_error l i = Some a -> nth_error l j = Some b -> R a b.
Proof.
  induction 1 as [|x l Hs IH Hx]; intros i j a b Hij Hi Hj.
  - destruct i; discriminate.
  - destruct j as [|j]; [lia|]. simpl in Hj.
    destruct i as [|i]; simpl in Hi.
    + injection Hi as <-. rewrite Forall_forall in Hx.
      apply Hx. eapply nth_error_In; eassumption.
    + apply (IH i j); [lia|assumption..].
Qed.

(** ** The container listing *)

Section DockerFacts.

Lemma parse_line_status (line : string) :
  let c := Docker.parse_line line in
  (Docker.status c = "UP" /\ Docker.running c = true) \/
  (Docker.status c = "DOWN" /\ Docker.running c = false).
Proof.
  unfold Docker.parse_line. simpl.
  destruct (startswith _ "up"); auto.
Qed.

Lemma parse_lines_status (lines : list string) :
  Forall (fun c => (Docker.status c = "UP" /\ Docker.running c = true) \/
                   (Docker.status c = "DOWN" /\ Docker.running c = false))
         (Docker.parse_lines lines).
Proof.
  induction lines as [|line rest IH]; simpl.
  - constructor.
  - destruct (is_empty (strip line)); [exact IH|].
    constructor; [apply parse_line_status | exact IH].
Qed.

Lemma get_docker_containers_run (W : world) :
  run tt (Docker.get_docker_containers W) =
  (Ok (match docker_ps W with
       | Ok out => Docker.list_containers out
       | Raise e => [Docker.error_entry e]
       end), [EvDocker]).
Proof.
  unfold run, Docker.get_docker_containers, try_except, bind, emit, lift, ret.
  simpl. destruct (docker_ps W); reflexivity.
Qed.

End DockerFacts.

(** C1 fails as stated: on the three lines of the example the running
    containers [b] and [c] come before the stopped container [a]. *)
Lemma containers_stopped_first_fails :
  docker_ps Sample.host
  = Ok ("b|Up 2 days" ^^ Sample.nl ^^ "a|Exited (1)" ^^ Sample.nl
        ^^ "c|Up 5 hours" ^^ Sample.nl) /\
  fst (run tt (Docker.get_docker_containers Sample.host))
  = Ok [ {| Docker.name := "b"; Docker.status := "UP"; Docker.running := true |};
         {| Docker.name := "c"; Docker.status := "UP"; Docker.running := true |};
         {| Docker.name := "a"; Docker.status := "DOWN"; Docker.running := false |} ] /\
  fst (run tt (Docker.get_docker_containers Sample.host))
  <> Ok [ {| Docker.name := "a"; Docker.status := "DOWN"; Docker.running := false |};
          {| Docker.name := "b"; Docker.status := "UP"; Docker.running := true |};
          {| Docker.name := "c"; Docker.status := "UP"; Docker.running := true |} ].
Proof.
  split; [reflexivity|]. split; [vm_compute; reflexivity|].
  vm_compute. intro H. discriminate H.
Qed.

(** C1 (amended).  When the listing arrives, the adapter returns a
    rearrangement of the parsed entries in which no stopped container comes
    before a running one and, among containers in the same state, names
    ascend; the three lines of the example give b(UP), c(UP), a(DOWN). *)
Theorem containers_running_first (W : world) (out : string)
    (Hout : docker_ps W = Ok out) :
  let result := Docker.list_containers out in
  fst (run tt (Docker.get_docker_containers W)) = Ok result /\
  Permutation result (Docker.parse_lines (splitlines (strip out))) /\
  (forall i j c1 c2, (i < j)%nat ->
     nth_error result i = Some c1 -> nth_error result j = Some c2 ->
     (Docker.running c2 = true -> Docker.running c1 = true) /\
     (Docker.running c1 = Docker.running c2 ->
      str_le (Docker.name c1) (Docker.name c2) = true)) /\
  Docker.list_containers Sample.listing
  = [ {| Docker.name := "b"; Docker.status := "UP"; Docker.running := true |};
      {| Docker.name := "c"; Docker.status := "UP"; Docker.running := true |};
      {| Docker.name := "a"; Docker.status := "DOWN"; Docker.running := false |} ].
Proof.
  intro result. split.
  { rewrite get_docker_containers_run, Hout. reflexivity. }
  split.
  { apply sorted_perm. }
  split; [|vm_compute; reflexivity].
  intros i j c1 c2 Hij Hi Hj.
  pose proof (StronglySorted_nth
                (sorted_sorted Docker.sort_key Docker.key_le key_le_total key_le_trans
                   (Docker.parse_lines (splitlines (strip out))))
                Hij Hi Hj) as Hle.
  unfold Docker.key_le, Docker.sort_key in Hle. simpl in Hle.
  destruct (Docker.running c1), (Docker.running c2); simpl in Hle;
    split; intros; congruence.
Qed.

Lemma containers_running_first_witness :
  docker_ps Sample.host = Ok Sample.listing /\
  fst (run tt (Docker.get_docker_containers Sample.host))
  = Ok (Docker.list_containers Sample.listing).
Proof.
  split; [reflexivity|].
  exact (proj1 (@containers_running_first Sample.host Sample.listing eq_refl)).
Defined.
(** C9 fails as stated: without the container runtime the one entry
    returned carries the message of the exception as its status. *)
Lemma container_status_enum_fails :
  exists c,
    fst (run tt (Docker.get_docker_containers Sample.no_docker)) = Ok [c] /\
    Docker.status c = "[Errno 2] No such file or directory: 'docker'" /\
    Docker.status c <> "UP" /\ Docker.status c <> "DOWN".
Proof.
  eexists. split; [vm_compute; reflexivity|].
  split; [reflexivity|]. split; discriminate.
Qed.

(** C9 (amended).  When the listing arrives, every entry has the status
    [UP] with [running] true or the status [DOWN] with [running] false; when
    the invocation fails, the adapter returns the single entry named
    [docker error], not running, whose status is the text of the
    exception. *)
Theorem container_status_values (W : world) :
  match docker_ps W with
  | Ok out =>
      fst (run tt (Docker.get_docker_containers W))
      = Ok (Docker.list_containers out) /\
      Forall (fun c =>
                (Docker.status c = "UP" /\ Docker.running c = true) \/
                (Docker.status c = "DOWN" /\ Docker.running c = false))
             (Docker.list_containers out)
  | Raise e =>
      fst (run tt (Docker.get_docker_containers W))
      = Ok [ {| Docker.name := "docker error";
                Docker.status := str_exn e;
                Docker.running := false |} ]
  end.
Proof.
  rewrite get_docker_containers_run.
  destruct (docker_ps W) as [out|e]; [|reflexivity].
  split; [reflexivity|].
  eapply Permutation_Forall; [|apply parse_lines_status].
  apply Permutation_sym, sorted_perm.
Qed.
(** ** The session with the filtering service *)

Section PiholeFacts.
Variable W : world.

Let auth_url : string := Pihole.base W ^^ "/auth".
Let summary_url : string := Pihole.base W ^^ "/stats/summary".

(** The outcome of step 1 does not depend on the frame; the step records
    one POST and assigns [sid] exactly when it succeeds. *)
Lemma authenticate_frame (fr : frame json) :
  Pihole.authenticate W fr =
  (fst (run JNull (Pihole.authenticate W)),
   {| locals := match fst (run JNull (Pihole.authenticate W)) with
                | Ok sid => sid
                | Raise _ => locals fr
                end;
      trace := trace fr ++ [EvPost auth_url (PIHOLE_PASSWORD W)] |}).
Proof.
  unfold Pihole.authenticate, Pihole.post, Pihole.check_status. unfold_eff.
  cbn [fst snd locals trace]. fold auth_url.
  destruct (requests_post W auth_url (PIHOLE_PASSWORD W)) as [r|e]; cbn [fst snd locals trace];
    [|reflexivity].
  destruct (raise_for_status r); cbn [fst snd locals trace]; [reflexivity|].
  destruct (response_json r) as [body|e]; cbn [fst snd locals trace]; [|reflexivity].
  destruct (getitem body "session") as [s|e]; cbn [fst snd locals trace]; [|reflexivity].
  destruct (getitem s "sid") as [sid|e]; cbn [fst snd locals trace]; reflexivity.
Qed.

(** Step 2 records one GET and leaves the locals alone. *)
Lemma fetch_summary_frame (sid : json) (fr : frame json) :
  Pihole.fetch_summary W sid fr =
  (fst (run JNull (Pihole.fetch_summary W sid)),
   {| locals := locals fr;
      trace := trace fr ++ [EvGet summary_url sid] |}).
Proof.
  unfold Pihole.fetch_summary, Pihole.http_get. unfold_eff.
  cbn [fst snd locals trace]. fold summary_url.
  repeat match goal with
         | |- context [match ?r with Ok _ => _ | Raise _ => _ end] =>
             destruct r; cbn [fst snd locals trace]; try reflexivity
         end.
Qed.

Lemma logout_frame (fr : frame json) :
  Pihole.logout W fr =
  (Ok tt,
   {| locals := locals fr;
      trace := if truthy (locals fr) && HAS_REQUESTS W
               then trace fr ++ [EvDelete auth_url (locals fr)]
               else trace fr |}).
Proof.
  unfold Pihole.logout, Pihole.http_delete. unfold_eff. cbn [fst snd locals trace].
  fold auth_url. destruct fr as [sid tr]; cbn [fst snd locals trace].
  destruct (truthy sid && HAS_REQUESTS W); cbn [fst snd locals trace]; [|reflexivity].
  destruct (requests_delete W auth_url sid) as [[]|e]; reflexivity.
Qed.

(** The whole adapter, by the outcome of the login. *)
Lemma get_pihole_stats_run :
  run JNull (Pihole.get_pihole_stats W) =
  if negb (HAS_REQUESTS W) then (Ok (JObj []), [])
  else
    match fst (run JNull (Pihole.authenticate W)) with
    | Raise e =>
        (Ok (JObj [("error", JStr (str_exn e))]),
         [EvPost auth_url (PIHOLE_PASSWORD W)])
    | Ok sid =>
        (Ok (match fst (run JNull (Pihole.fetch_summary W sid)) with
             | Ok counters => counters
             | Raise e => JObj [("error", JStr (str_exn e))]
             end),
         [EvPost auth_url (PIHOLE_PASSWORD W); EvGet summary_url sid]
         ++ (if truthy sid then [EvDelete auth_url sid] else []))
    end.
Proof.
  unfold Pihole.get_pihole_stats.
  destruct (HAS_REQUESTS W) eqn:Hreq; cbn [negb]; [|reflexivity].
  remember (fst (run JNull (Pihole.authenticate W))) as login eqn:Hlogin.
  unfold Pihole.session, run at 1, finally, try_except, bind.
  rewrite authenticate_frame, <- Hlogin.
  destruct login as [sid|e]; cbn [fst snd locals trace].
  - remember (fst (run JNull (Pihole.fetch_summary W sid))) as fetch eqn:Hfetch.
    rewrite fetch_summary_frame, <- Hfetch.
    destruct fetch as [c|e]; unfold ret; rewrite logout_frame;
      cbn [fst snd locals trace app]; rewrite Hreq, andb_true_r;
      destruct (truthy sid); reflexivity.
  - unfold ret. rewrite logout_frame. reflexivity.
Qed.

End PiholeFacts.

(** C4.  With [requests] available, when the login step ends with an
    exception [e] the adapter returns exactly [{"error": str(e)}], and the
    only request made is the POST of the login: no DELETE is attempted. *)
Theorem login_failure_skips_logout (W : world) (e : exn)
    (Hreq : HAS_REQUESTS W = true)
    (Hlogin : fst (run JNull (Pihole.authenticate W)) = Raise e) :
  fst (run JNull (Pihole.get_pihole_stats W))
  = Ok (JObj [("error", JStr (str_exn e))]) /\
  snd (run JNull (Pihole.get_pihole_stats W))
  = [EvPost (Pihole.base W ^^ "/auth") (PIHOLE_PASSWORD W)] /\
  (forall url sid,
     ~ In (EvDelete url sid) (snd (run JNull (Pihole.get_pihole_stats W)))).
Proof.
  rewrite get_pihole_stats_run, Hreq, Hlogin. cbn [negb fst snd].
  repeat split. intros url sid [H|[]]. discriminate H.
Qed.

(** The service answers the login with status 401. *)
Lemma login_failure_skips_logout_witness :
  fst (run JNull (Pihole.get_pihole_stats Sample.bad_password))
  = Ok (JObj [("error", JStr "401 Client Error: Unauthorized for url")]).
Proof.
  exact (proj1 (@login_failure_skips_logout Sample.bad_password
                  (External "401 Client Error: Unauthorized for url")
                  eq_refl eq_refl)).
Defined.

(** The outcome of step 1, case by case: a transport error, a status that
    [raise_for_status] rejects, a body that is not JSON, and a body without
    [session] or without [sid] inside it all end the step with an
    exception. *)
Lemma authenticate_outcome (W : world) :
  fst (run JNull (Pihole.authenticate W)) =
  match requests_post W (Pihole.base W ^^ "/auth") (PIHOLE_PASSWORD W) with
  | Raise e => Raise e
  | Ok r =>
      match raise_for_status r with
      | Some e => Raise e
      | None =>
          match response_json r with
          | Raise e => Raise e
          | Ok body =>
              match getitem body "session" with
              | Raise e => Raise e
              | Ok s => getitem s "sid"
              end
          end
      end
  end.
Proof.
  unfold Pihole.authenticate, Pihole.post, Pihole.check_status. unfold_eff.
  cbn [fst snd locals trace].
  destruct (requests_post W _ _) as [r|e]; cbn [fst]; [|reflexivity].
  destruct (raise_for_status r); cbn [fst]; [reflexivity|].
  destruct (response_json r) as [body|e]; cbn [fst]; [|reflexivity].
  destruct (getitem body "session") as [s|e]; cbn [fst]; [|reflexivity].
  destruct (getitem s "sid") as [sid|e]; reflexivity.
Qed.

(** C5.  With [requests] available, when the login step yields a session
    token [sid] (a value that counts as true), the requests made are the
    login, the summary fetch and then one DELETE carrying [sid], whatever the
    outcome of the fetch; and the value returned is the same for every
    behaviour of the DELETE request. *)
Theorem logout_exactly_once (W : world) (sid : json)
    (Hreq : HAS_REQUESTS W = true)
    (Hlogin : fst (run JNull (Pihole.authenticate W)) = Ok sid)
    (Htoken : truthy sid = true) :
  snd (run JNull (Pihole.get_pihole_stats W))
  = [EvPost (Pihole.base W ^^ "/auth") (PIHOLE_PASSWORD W);
     EvGet (Pihole.base W ^^ "/stats/summary") sid;
     EvDelete (Pihole.base W ^^ "/auth") sid] /\
  length (filter is_delete (snd (run JNull (Pihole.get_pihole_stats W)))) = 1%nat /\
  (forall logout : string -> json -> result unit,
     fst (run JNull (Pihole.get_pihole_stats
                       (Vary.with_requests_delete logout W)))
     = fst (run JNull (Pihole.get_pihole_stats W))).
Proof.
  split; [|split].
  - rewrite get_pihole_stats_run, Hreq, Hlogin, Htoken. reflexivity.
  - rewrite get_pihole_stats_run, Hreq, Hlogin, Htoken. reflexivity.
  - intro logout.
    rewrite !get_pihole_stats_run.
    change (HAS_REQUESTS (Vary.with_requests_delete logout W))
      with (HAS_REQUESTS W).
    change (Pihole.authenticate (Vary.with_requests_delete logout W))
      with (Pihole.authenticate W).
    rewrite Hreq, Hlogin. cbn [negb fst].
    reflexivity.
Qed.

(** The summary fetch times out, and the logout fails as well. *)
Lemma logout_exactly_once_witness :
  length (filter is_delete
            (snd (run JNull (Pihole.get_pihole_stats Sample.summary_timeout))))
  = 1%nat /\
  fst (run JNull (Pihole.get_pihole_stats
                    (Vary.with_requests_delete
                       (fun _ _ => Raise (External "Connection reset by peer"))
                       Sample.summary_timeout)))
  = fst (run JNull (Pihole.get_pihole_stats Sample.summary_timeout)).
Proof.
  pose proof (@logout_exactly_once Sample.summary_timeout
                (JStr "vFA+EP4MQ5JJvJg+3Q2Jnw=") eq_refl eq_refl eq_refl)
    as [_ [Hcount Hsame]].
  split; [exact Hcount | apply Hsame].
Defined.

(** A login that yields a value that counts as false ([None], an empty
    string) is no failure of step 1: the summary is fetched with it, and
    the guard of the [finally] clause skips the logout. *)
Lemma session_without_token (W : world) (sid : json) :
  HAS_REQUESTS W = true ->
  fst (run JNull (Pihole.authenticate W)) = Ok sid ->
  truthy sid = false ->
  snd (run JNull (Pihole.get_pihole_stats W))
  = [EvPost (Pihole.base W ^^ "/auth") (PIHOLE_PASSWORD W);
     EvGet (Pihole.base W ^^ "/stats/summary") sid].
Proof.
  intros Hreq Hlogin Hfalse.
  rewrite get_pihole_stats_run, Hreq, Hlogin, Hfalse. reflexivity.
Qed.

(** Reading a counter through the two [get] calls of the script. *)
Lemma get_counter (s : dict json) (group field : string) (default : json) :
  object_or_missing s group ->
  exists g, Py.get (JObj s) group (JObj []) = Ok g /\
            Py.get g field default = Ok (counter s group field default).
Proof.
  unfold object_or_missing, counter, Py.get.
  destruct (dict_get group s) as [[| | | | | |d]|]; try contradiction; intros _.
  - exists (JObj d). split; [reflexivity|].
    destruct (dict_get field d); reflexivity.
  - exists (JObj []). split; reflexivity.
Qed.

(** C10.  When the login and the summary request succeed and the body is
    an object in which [queries], [gravity] and [clients] are objects or are
    missing (and [percent_blocked], if present, is a number), the adapter
    returns the mapping with the seven counters, each one the member of the
    body or, when missing, [0] ([0.0] for the percentage); it is not an error
    mapping.  An empty body gives zeros throughout. *)
Theorem missing_counters_read_as_zero
    (W : world) (sid : json) (resp : response) (s : dict json)
    (Hreq : HAS_REQUESTS W = true)
    (Hlogin : fst (run JNull (Pihole.authenticate W)) = Ok sid)
    (Hget : requests_get W (Pihole.base W ^^ "/stats/summary") sid = Ok resp)
    (Hbody : response_json resp = Ok (JObj s))
    (Hq : object_or_missing s "queries")
    (Hg : object_or_missing s "gravity")
    (Hc : object_or_missing s "clients")
    (Hpct : is_number (counter s "queries" "percent_blocked" (JFloat 0)) = true) :
  exists pct,
    round_value (counter s "queries" "percent_blocked" (JFloat 0)) 2 = Ok pct /\
    fst (run JNull (Pihole.get_pihole_stats W))
    = Ok (JObj
            [("queries_today", counter s "queries" "total" (JInt 0));
             ("ads_blocked_today", counter s "queries" "blocked" (JInt 0));
             ("ads_percentage_today", pct);
             ("domains_being_blocked",
              counter s "gravity" "domains_being_blocked" (JInt 0));
             ("queries_forwarded", counter s "queries" "forwarded" (JInt 0));
             ("queries_cached", counter s "queries" "cached" (JInt 0));
             ("unique_clients", counter s "clients" "active" (JInt 0))]) /\
    (s = [] ->
     fst (run JNull (Pihole.get_pihole_stats W))
     = Ok (JObj
             [("queries_today", JInt 0);
              ("ads_blocked_today", JInt 0);
              ("ads_percentage_today", JFloat 0);
              ("domains_being_blocked", JInt 0);
              ("queries_forwarded", JInt 0);
              ("queries_cached", JInt 0);
              ("unique_clients", JInt 0)])).
Proof.
  assert (Hround : exists pct,
             round_value (counter s "queries" "percent_blocked" (JFloat 0)) 2
             = Ok pct).
  { destruct (counter s "queries" "percent_blocked" (JFloat 0));
      try discriminate Hpct; eexists; reflexivity. }
  destruct Hround as [pct Hround]. exists pct.
  assert (Hrun : fst (run JNull (Pihole.get_pihole_stats W))
    = Ok (JObj
            [("queries_today", counter s "queries" "total" (JInt 0));
             ("ads_blocked_today", counter s "queries" "blocked" (JInt 0));
             ("ads_percentage_today", pct);
             ("domains_being_blocked",
              counter s "gravity" "domains_being_blocked" (JInt 0));
             ("queries_forwarded", counter s "queries" "forwarded" (JInt 0));
             ("queries_cached", counter s "queries" "cached" (JInt 0));
             ("unique_clients", counter s "clients" "active" (JInt 0))])).
  { rewrite get_pihole_stats_run, Hreq, Hlogin. cbn [negb fst].
    unfold Pihole.fetch_summary, Pihole.http_get. unfold_eff.
    cbn [fst snd locals trace]. rewrite Hget. cbn [fst snd]. rewrite Hbody.
    destruct (get_counter s "queries" "total" (JInt 0) Hq) as [q [Eq Etotal]].
    destruct (get_counter s "gravity" "domains_being_blocked" (JInt 0) Hg)
      as [g [Eg Edomains]].
    destruct (get_counter s "clients" "active" (JInt 0) Hc) as [c [Ec Eactive]].
    destruct (get_counter s "queries" "blocked" (JInt 0) Hq) as [q1 [Eq1 Eblocked]].
    destruct (get_counter s "queries" "percent_blocked" (JFloat 0) Hq)
      as [q2 [Eq2 Epct]].
    destruct (get_counter s "queries" "forwarded" (JInt 0) Hq) as [q3 [Eq3 Efwd]].
    destruct (get_counter s "queries" "cached" (JInt 0) Hq) as [q4 [Eq4 Ecached]].
    assert (q1 = q) by congruence. assert (q2 = q) by congruence.
    assert (q3 = q) by congruence. assert (q4 = q) by congruence. subst.
    rewrite Eq, Eg, Ec, Etotal, Eblocked, Epct, Hround, Edomains, Efwd,
      Ecached, Eactive.
    reflexivity. }
  split; [exact Hround|]. split; [exact Hrun|].
  intros ->. rewrite Hrun.
  cbn in Hround. injection Hround as <-. reflexivity.
Qed.

(** The summary endpoint answers with the empty object. *)
Lemma missing_counters_read_as_zero_witness :
  fst (run JNull (Pihole.get_pihole_stats Sample.empty_summary))
  = Ok (JObj
          [("queries_today", JInt 0);
           ("ads_blocked_today", JInt 0);
           ("ads_percentage_today", JFloat 0);
           ("domains_being_blocked", JInt 0);
           ("queries_forwarded", JInt 0);
           ("queries_cached", JInt 0);
           ("unique_clients", JInt 0)]).
Proof.
  destruct (@missing_counters_read_as_zero Sample.empty_summary
              (JStr "vFA+EP4MQ5JJvJg+3Q2Jnw=")
              {| raise_for_status := None; response_json := Ok (JObj []) |}
              [] eq_refl eq_refl eq_refl eq_refl I I I eq_refl)
    as [pct [_ [_ Hzero]]].
  exact (Hzero eq_refl).
Defined.

(** ** The thermal zones *)

Section ThermalFacts.
Variable W : world.

Lemma zone_reading_absent (zone : nat) :
  zone_reading W zone = None -> path_exists W (Server.zone_path zone) = false.
Proof.
  unfold zone_reading. destruct (path_exists W _); [discriminate|reflexivity].
Qed.

Lemma zone_reading_value (zone : nat) (n : Z) :
  zone_reading W zone = Some (Ok n) ->
  path_exists W (Server.zone_path zone) = true /\
  exists text, open_read W (Server.zone_path zone) = Ok text /\
               int_of_str (strip text) = Ok n.
Proof.
  unfold zone_reading. destruct (path_exists W _); [|discriminate].
  destruct (open_read W _) as [text|e]; [|discriminate].
  intros [= H]. split; [reflexivity|]. exists text. split; [reflexivity|exact H].
Qed.

Lemma first_valid_from (readings : list (option Z)) :
  forall k zone n, first_valid k readings = Some (zone, n) -> (k <= zone)%nat.
Proof.
  induction readings as [|[m|] rest IH]; cbn; intros k zone n Hfv.
  - discriminate.
  - destruct (qualifies m).
    + injection Hfv as <- _. lia.
    + apply IH in Hfv. lia.
  - apply IH in Hfv. lia.
Qed.

(** The loop over the zones [k], [k+1], ... for readings that can all be
    taken. *)
Lemma probe_zones_run (readings : list (option Z)) :
  forall (k : nat) (fr : frame (dict json)),
    map (zone_reading W) (seq k (length readings))
    = map (option_map (@Ok Z)) readings ->
    Forall has_float readings ->
    Server.probe_zones W (seq k (length readings)) fr =
    (Ok tt,
     {| locals :=
          match first_valid k readings with
          | Some (_, n) =>
              dict_set "temp_c" (JFloat (round_float (celsius n) 1))
                       (locals fr)
          | None => locals fr
          end;
        trace :=
          trace fr ++
          flat_map (zone_events W)
            (seq k (match first_valid k readings with
                    | Some (zone, _) => S zone - k
                    | None => length readings
                    end)) |}).
Proof.
  induction readings as [|r rest IH]; intros k fr Hmap Hrange.
  - cbn. rewrite app_nil_r. destruct fr; reflexivity.
  - cbn [length seq map] in Hmap. injection Hmap as Hzone Hrest.
    inversion Hrange as [|? ? Hr Hrange']; subst.
    cbn [length seq Server.probe_zones first_valid].
    unfold Server.exists_, Server.read_file.
    unfold bind at 1. unfold bind at 1. unfold emit at 1. unfold ret at 1.
    cbn [locals trace].
    destruct r as [n|]; cbn [option_map] in Hzone.
    + destruct (@zone_reading_value k n Hzone) as [Hex [text [Hopen Hint]]].
      rewrite Hex.
      unfold bind, emit, lift. cbn [locals trace]. rewrite Hopen, Hint.
      destruct (@truediv_in_range n Hr) as [t Ht]. rewrite Ht.
      destruct (@truediv_reading n t Ht) as [Htest Hval]. rewrite Htest.
      destruct (qualifies n) eqn:Hq.
      * rewrite (Hval eq_refl).
        unfold Server.set_stat, bind, get_locals, set_locals.
        cbn [locals trace].
        replace (S k - k)%nat with 1%nat by lia.
        cbn [seq flat_map]. unfold zone_events. rewrite Hex.
        rewrite app_nil_r, <- app_assoc. reflexivity.
      * fold (bind (A := unit) (B := unit) (L := dict json)).
        rewrite (IH (S k) _ Hrest Hrange'). cbn [locals trace].
        f_equal. f_equal.
        rewrite <- !app_assoc. f_equal.
        assert (Hpre : forall m, flat_map (zone_events W) (seq k (S m))
                     = [EvExists (Server.zone_path k);
                        EvOpenRead (Server.zone_path k)]
                       ++ flat_map (zone_events W) (seq (S k) m)).
        { intro m. cbn [seq flat_map]. unfold zone_events at 1.
          rewrite Hex. reflexivity. }
        destruct (first_valid (S k) rest) as [[zone v]|] eqn:Hfv.
        -- pose proof (first_valid_from _ _ Hfv).
           replace (S zone - k)%nat with (S (S zone - S k)) by lia.
           symmetry; apply Hpre.
        -- symmetry; apply Hpre.
    + rewrite (@zone_reading_absent k Hzone).
      rewrite (IH (S k) _ Hrest Hrange'). cbn [locals trace].
      f_equal. f_equal.
      rewrite <- !app_assoc. f_equal.
      assert (Hpre : forall m, flat_map (zone_events W) (seq k (S m))
                     = [EvExists (Server.zone_path k)]
                       ++ flat_map (zone_events W) (seq (S k) m)).
      { intro m. cbn [seq flat_map]. unfold zone_events at 1.
        rewrite (@zone_reading_absent k Hzone). reflexivity. }
      destruct (first_valid (S k) rest) as [[zone v]|] eqn:Hfv.
      * pose proof (first_valid_from _ _ Hfv).
        replace (S zone - k)%nat with (S (S zone - S k)) by lia.
        symmetry; apply Hpre.
      * symmetry; apply Hpre.
Qed.

End ThermalFacts.

(** ** The mapping [stats] before the probe has no temperature *)

Section NoTemperature.
Variable W : world.

Lemma cold_set_stat (k : string) (v : json) :
  "temp_c" <> k -> preserves cold (Server.set_stat k v).
Proof.
  intros Hne fr H. unfold Server.set_stat, bind, get_locals, set_locals, cold.
  cbn [snd locals]. rewrite dict_get_set_other by exact Hne. exact H.
Qed.

Lemma cold_emit (ev : event) : preserves cold (emit ev).
Proof. intros fr H. exact H. Qed.

Ltac keep_cold :=
  repeat first
    [ progress cbv zeta
    | apply cold_set_stat; discriminate
    | apply cold_emit
    | preserve_step ].

Lemma cold_collect_psutil : preserves cold (Server.collect_psutil W).
Proof. unfold Server.collect_psutil, Server.psutil. keep_cold. Qed.

Lemma cold_collect_proc : preserves cold (Server.collect_proc W).
Proof. unfold Server.collect_proc, Server.read_file. keep_cold. Qed.

End NoTemperature.

(** ** The thermal probe in every world *)

Section ProbeAnyWorld.
Variable W : world.

Lemma probe_zones_effect (zones : list nat) :
  forall fr : frame (dict json),
    probe_effect (locals fr) (locals (snd (Server.probe_zones W zones fr))).
Proof.
  induction zones as [|zone rest IH]; intro fr.
  - left. reflexivity.
  - cbn [Server.probe_zones].
    unfold Server.exists_, Server.read_file, bind, emit, lift, ret.
    cbn [locals trace fst snd].
    destruct (path_exists W (Server.zone_path zone)).
    + destruct (open_read W (Server.zone_path zone)) as [text|e];
        [|left; reflexivity].
      destruct (int_of_str (strip text)) as [n|e]; [|left; reflexivity].
      destruct (truediv_int n 1000) as [t|e] eqn:Ht; [|left; reflexivity].
      destruct (@truediv_reading n t Ht) as [Htest Hval]. rewrite Htest.
      destruct (qualifies n) eqn:Hq.
      * right. exists n. split; [exact Hq|].
        rewrite (Hval eq_refl). reflexivity.
      * apply (IH {| locals := locals fr; trace := _ |}).
    + apply (IH {| locals := locals fr; trace := _ |}).
Qed.

Lemma probe_temperature_effect (fr : frame (dict json)) :
  fst (Server.probe_temperature W fr) = Ok tt /\
  probe_effect (locals fr) (locals (snd (Server.probe_temperature W fr))).
Proof.
  unfold Server.probe_temperature. split; [apply try_except_returns|].
  pose proof (probe_zones_effect (seq 0 10) fr) as H.
  unfold try_except, ret.
  destruct (Server.probe_zones W (seq 0 10) fr) as [[[]|e] fr']; exact H.
Qed.

(** A float strictly between the bounds rounds to a float between them. *)
Lemma rounded_temperature_in_range (n : Z) :
  qualifies n = true ->
  (10 <= round_float (celsius n) 1 <= 120)%Q.
Proof.
  intro Hq. destruct (@celsius_bounds n Hq) as [Hlo Hhi].
  destruct (round_float_spec (celsius n) 1) as [k [Hk [Hk1 Hk2]]].
  change (inject_Z (10 ^ Z.of_nat 1)) with 10%Q in *.
  assert (Hz1 : (199 # 2 < inject_Z k)%Q) by lra.
  assert (Hz2 : (inject_Z k < 2401 # 2)%Q) by lra.
  unfold Qlt, inject_Z in Hz1, Hz2. cbn [Qnum Qden] in Hz1, Hz2.
  assert (Hk100 : (100 <= inject_Z k)%Q)
    by (change 100%Q with (inject_Z 100); rewrite <- Zle_Qle; lia).
  assert (Hk1200 : (inject_Z k <= 1200)%Q)
    by (change 1200%Q with (inject_Z 1200); rewrite <- Zle_Qle; lia).
  rewrite Hk. unfold Qdiv. change (/ 10)%Q with (1 # 10)%Q. split; lra.
Qed.

End ProbeAnyWorld.

Section ProbeAbort.
Variable W : world.

(** Zones that can be read and do not qualify are passed over. *)
Lemma probe_zones_skip (readings : list (option Z)) :
  forall (k : nat) (more : list nat) (fr : frame (dict json)),
    map (zone_reading W) (seq k (length readings))
    = map (option_map (@Ok Z)) readings ->
    Forall has_float readings ->
    first_valid k readings = None ->
    Server.probe_zones W (seq k (length readings) ++ more) fr =
    Server.probe_zones W more
      {| locals := locals fr;
         trace := trace fr
                  ++ flat_map (zone_events W) (seq k (length readings)) |}.
Proof.
  induction readings as [|r rest IH]; intros k more fr Hmap Hrange Hnone.
  - cbn. rewrite app_nil_r. destruct fr; reflexivity.
  - cbn [length seq map] in Hmap. injection Hmap as Hzone Hrest.
    inversion Hrange as [|? ? Hr Hrange']; subst.
    cbn [length seq app Server.probe_zones flat_map].
    unfold Server.exists_, Server.read_file.
    unfold bind at 1. unfold bind at 1. unfold emit at 1. unfold ret at 1.
    cbn [locals trace].
    unfold zone_events at 1.
    destruct r as [n|]; cbn [option_map first_valid] in Hzone, Hnone.
    + destruct (@zone_reading_value W k n Hzone) as [Hex [text [Hopen Hint]]].
      rewrite Hex.
      unfold bind, emit, lift. cbn [locals trace]. rewrite Hopen, Hint.
      destruct (@truediv_in_range n Hr) as [t Ht]. rewrite Ht.
      destruct (@truediv_reading n t Ht) as [Htest _]. rewrite Htest.
      destruct (qualifies n) eqn:Hq; [discriminate Hnone|].
      fold (bind (A := unit) (B := unit) (L := dict json)).
      rewrite (IH (S k) more _ Hrest Hrange' Hnone). cbn [locals trace].
      rewrite <- !app_assoc. reflexivity.
    + rewrite (@zone_reading_absent W k Hzone).
      rewrite (IH (S k) more _ Hrest Hrange' Hnone). cbn [locals trace].
      rewrite <- !app_assoc. reflexivity.
Qed.

(** A zone that cannot be read as an integer, after zones that are missing
    or do not qualify, ends the probe and leaves the mapping as it was. *)
Lemma probe_stops_at_unreadable_zone
    (k : nat) (readings : list (option Z)) (e : exn)
    (fr : frame (dict json))
    (Hk : length readings = k) (Hlt : (k < 10)%nat)
    (Hzones : map (zone_reading W) (seq 0 k)
              = map (option_map (@Ok Z)) readings)
    (Hrange : Forall has_float readings)
    (Hnone : first_valid 0 readings = None)
    (Hbad : zone_reading W k = Some (Raise e)) :
  Server.probe_temperature W fr =
  (Ok tt,
   {| locals := locals fr;
      trace := trace fr ++ flat_map (zone_events W) (seq 0 (S k)) |}).
Proof.
  unfold Server.probe_temperature, try_except.
  rewrite (seq_S k 0), flat_map_app. cbn [flat_map Nat.add]. unfold zone_events at 2.
  replace 10%nat with (k + S (9 - k))%nat by lia.
  rewrite seq_app. cbn [seq Nat.add]. subst k.
  rewrite (@probe_zones_skip readings 0 _ fr Hzones Hrange Hnone).
  cbn [Server.probe_zones].
  unfold Server.exists_, Server.read_file, bind, emit, lift, ret.
  cbn [locals trace].
  unfold zone_reading in Hbad.
  destruct (path_exists W (Server.zone_path (length readings)));
    [|discriminate Hbad].
  rewrite app_nil_r, <- !app_assoc. cbn [app].
  destruct (open_read W (Server.zone_path (length readings))) as [text|e'].
  - injection Hbad as Hbad. rewrite Hbad. cbn [locals trace].
    rewrite <- !app_assoc. reflexivity.
  - cbn [locals trace]. rewrite <- !app_assoc. reflexivity.
Qed.

End ProbeAbort.

(** C8.  When each of the zones 0 to 9 is missing or holds an integer
    reading, the probe reports the first reading strictly between 10 and 120
    degrees, probes no zone after it, and leaves the mapping without [temp_c]
    when no reading qualifies; so does the mapping that [get_server_stats]
    returns.  The value reported for the reading [n] is [round(n / 1000.0, 1)]
    with the float quotient of the source: a multiple of one tenth within
    [0.05 + 2^-47] of [n / 1000].  For the readings 5000, 45000 and 999999
    the report is 45.0 and zone 2 is not probed; a single zone reading 45450
    reports 45.5, since the float of 45.45 lies above the midpoint. *)
Theorem temperature_first_valid_zone (W : world) (readings : list (option Z))
    (Hzones : map (zone_reading W) (seq 0 10)
              = map (option_map (@Ok Z)) readings)
    (Hrange : Forall has_float readings) :
  let reported :=
    match first_valid 0 readings with
    | Some (_, n) => Some (JFloat (round_float (celsius n) 1))
    | None => None
    end in
  let probed :=
    match first_valid 0 readings with
    | Some (zone, _) => seq 0 (S zone)
    | None => seq 0 10
    end in
  (forall fr : frame (dict json),
     Server.probe_temperature W fr =
     (Ok tt,
      {| locals := match reported with
                   | Some t => dict_set "temp_c" t (locals fr)
                   | None => locals fr
                   end;
         trace := trace fr ++ flat_map (zone_events W) probed |})) /\
  (forall stats, fst (run [] (Server.get_server_stats W)) = Ok stats ->
                 dict_get "temp_c" stats = reported) /\
  (forall zone n,
     first_valid 0 readings = Some (zone, n) ->
     truediv_int n 1000 = Ok (celsius n) /\
     exists tenths : Z,
       (round_float (celsius n) 1 == inject_Z tenths / 10)%Q /\
       (Qabs (round_float (celsius n) 1 - inject_Z n / 1000)
        <= (1 # 20) + (1 # 140737488355328))%Q) /\
  map (zone_reading Sample.host) (seq 0 10)
  = map (option_map (@Ok Z))
        [Some 5000; Some 45000; Some 999999;
         None; None; None; None; None; None; None] /\
  dict_get "temp_c" (locals (snd (Server.probe_temperature Sample.host
                                    {| locals := []; trace := [] |})))
  = Some (JFloat 45) /\
  trace (snd (Server.probe_temperature Sample.host
                {| locals := []; trace := [] |}))
  = [EvExists "/sys/class/thermal/thermal_zone0/temp";
     EvOpenRead "/sys/class/thermal/thermal_zone0/temp";
     EvExists "/sys/class/thermal/thermal_zone1/temp";
     EvOpenRead "/sys/class/thermal/thermal_zone1/temp"] /\
  zone_reading (Sample.one_zone "45450" Sample.host) 0 = Some (Ok 45450) /\
  dict_get "temp_c"
    (locals (snd (Server.probe_temperature
                    (Sample.one_zone "45450" Sample.host)
                    {| locals := []; trace := [] |})))
  = Some (JFloat (91 # 2)).
Proof.
  intros reported probed.
  assert (Hlen : length readings = 10%nat).
  { apply (f_equal (@length _)) in Hzones.
    rewrite !length_map, length_seq in Hzones. congruence. }
  assert (Hprobe : forall fr : frame (dict json),
     Server.probe_temperature W fr =
     (Ok tt,
      {| locals := match reported with
                   | Some t => dict_set "temp_c" t (locals fr)
                   | None => locals fr
                   end;
         trace := trace fr ++ flat_map (zone_events W) probed |})).
  { intro fr. unfold Server.probe_temperature, try_except.
    rewrite <- Hlen in Hzones |- *.
    rewrite (@probe_zones_run W readings 0 fr Hzones Hrange).
    unfold reported, probed.
    destruct (first_valid 0 readings) as [[zone n]|]; rewrite ?Nat.sub_0_r;
      rewrite ?Hlen; reflexivity. }
  split; [exact Hprobe|]. split.
  - assert (Hany : forall collect : Server.St unit,
               preserves cold collect ->
               forall stats,
                 fst (run [] (collect ;;; Server.probe_temperature W ;;;
                              get_locals)) = Ok stats ->
                 dict_get "temp_c" stats = reported).
    { intros collect Hcold stats Hrun.
      specialize (Hcold {| locals := []; trace := [] |} eq_refl).
      unfold run, bind in Hrun.
      destruct (collect {| locals := []; trace := [] |}) as [[[]|e] fr1];
        cbn [snd] in Hcold.
      - rewrite Hprobe in Hrun.
        unfold get_locals in Hrun. cbn [fst locals] in Hrun.
        injection Hrun as <-.
        destruct reported as [t|].
        + apply dict_get_set_same.
        + exact Hcold.
      - discriminate Hrun. }
    intros stats. unfold Server.get_server_stats.
    destruct (HAS_PSUTIL W);
      [apply (Hany _ (cold_collect_psutil W))
      |apply (Hany _ (cold_collect_proc W))].
  - split.
    { intros zone n Hfv.
      assert (Hq : qualifies n = true).
      { clear - Hfv. revert Hfv. generalize 0%nat.
        induction readings as [|[m|] rest IH]; cbn; intros k Hfv.
        - discriminate.
        - destruct (qualifies m) eqn:Hm; [|exact (IH _ Hfv)].
          injection Hfv as _ <-. exact Hm.
        - exact (IH _ Hfv). }
      split.
      - assert (Hin : Z.abs n < float_overflow).
        { unfold qualifies in Hq. apply andb_true_iff in Hq.
          destruct Hq as [Hlo Hhi]. apply Z.ltb_lt in Hlo, Hhi.
          apply Z.lt_trans with (2 ^ 53); [lia|reflexivity]. }
        destruct (@truediv_in_range n Hin) as [t Ht].
        rewrite Ht. f_equal. exact (proj2 (@truediv_reading n t Ht) Hq).
      - destruct (round_float_spec (celsius n) 1) as [k [Hk [Hk1 Hk2]]].
        change (inject_Z (10 ^ Z.of_nat 1)) with 10%Q in *.
        exists k. split; [exact Hk|].
        pose proof (@celsius_near n Hq) as Hnear.
        apply Qabs_Qle_condition in Hnear. destruct Hnear as [Hn1 Hn2].
        apply Qabs_Qle_condition. rewrite Hk.
        unfold Qdiv in *. change (/ 10)%Q with (1 # 10)%Q.
        change (/ 1000)%Q with (1 # 1000)%Q in *.
        split; lra. }
    split; [vm_compute; reflexivity|].
    split; [vm_compute; reflexivity|].
    split; [vm_compute; reflexivity|].
    split; vm_compute; reflexivity.
Qed.

(** The sample host: zone 0 is too cold, zone 1 qualifies. *)
Lemma temperature_first_valid_zone_witness :
  Server.probe_temperature Sample.host {| locals := []; trace := [] |}
  = (Ok tt,
     {| locals := [("temp_c", JFloat 45)];
        trace := [EvExists "/sys/class/thermal/thermal_zone0/temp";
                  EvOpenRead "/sys/class/thermal/thermal_zone0/temp";
                  EvExists "/sys/class/thermal/thermal_zone1/temp";
                  EvOpenRead "/sys/class/thermal/thermal_zone1/temp"] |}).
Proof.
  assert (Hzones : map (zone_reading Sample.host) (seq 0 10)
                   = map (option_map (@Ok Z))
                       [Some 5000; Some 45000; Some 999999;
                        None; None; None; None; None; None; None])
    by (vm_compute; reflexivity).
  assert (Hrange : Forall has_float
                     [Some 5000; Some 45000; Some 999999;
                      None; None; None; None; None; None; None]).
  { repeat constructor; vm_compute; reflexivity. }
  exact (proj1 (temperature_first_valid_zone Hzones Hrange)
           {| locals := []; trace := [] |}).
Defined.

(** ** The two branches of [get_server_stats] *)

Section ServerBranches.
Variable W : world.

(** The function is one of the two branches, which leaves the mapping
    without a temperature, followed by the probe. *)
Lemma get_server_stats_split (server : dict json) :
  fst (run [] (Server.get_server_stats W)) = Ok server ->
  exists fr1,
    (if HAS_PSUTIL W then Server.collect_psutil W else Server.collect_proc W)
      {| locals := []; trace := [] |} = (Ok tt, fr1) /\
    cold fr1 /\
    locals (snd (Server.probe_temperature W fr1)) = server.
Proof.
  assert (Hany : forall collect : Server.St unit,
             preserves cold collect ->
             fst (run [] (collect ;;; Server.probe_temperature W ;;;
                          get_locals)) = Ok server ->
             exists fr1,
               collect {| locals := []; trace := [] |} = (Ok tt, fr1) /\
               cold fr1 /\
               locals (snd (Server.probe_temperature W fr1)) = server).
  { intros collect Hcold Hrun.
    specialize (Hcold {| locals := []; trace := [] |} eq_refl).
    unfold run, bind in Hrun.
    destruct (collect {| locals := []; trace := [] |}) as [[[]|e] fr1];
      cbn [snd] in Hcold; [|discriminate Hrun].
    exists fr1. split; [reflexivity|]. split; [exact Hcold|].
    destruct (Server.probe_temperature W fr1) as [[[]|e] fr2];
      [|discriminate Hrun].
    unfold get_locals in Hrun. cbn [fst snd] in *. congruence. }
  unfold Server.get_server_stats.
  destruct (HAS_PSUTIL W);
    [apply (Hany _ (cold_collect_psutil W))
    |apply (Hany _ (cold_collect_proc W))].
Qed.

(** The probe touches no key other than [temp_c]. *)
Lemma probe_keeps (k : string) (fr : frame (dict json)) :
  "temp_c" <> k ->
  dict_get k (locals (snd (Server.probe_temperature W fr)))
  = dict_get k (locals fr).
Proof.
  intro Hne. destruct (probe_temperature_effect W fr) as [_ [-> | (n & _ & ->)]].
  - reflexivity.
  - apply dict_get_set_other. intro H. apply Hne. symmetry. exact H.
Qed.

(** Lines 121-135 on an empty mapping: each key is there exactly when its
    field could be read as a float. *)
Lemma collect_proc_stats (t : list event) :
  let r := Server.collect_proc W {| locals := []; trace := t |} in
  fst r = Ok tt /\
  dict_get "load_1" (locals (snd r))
  = match proc_field W "/proc/loadavg" 0 with
    | Ok x => Some (JFloat x)
    | Raise _ => None
    end /\
  dict_get "load_5" (locals (snd r))
  = match proc_field W "/proc/loadavg" 0, proc_field W "/proc/loadavg" 1 with
    | Ok _, Ok y => Some (JFloat y)
    | _, _ => None
    end /\
  dict_get "uptime_str" (locals (snd r))
  = match proc_field W "/proc/uptime" 0 with
    | Ok up_secs => Some (JStr (Server.uptime_str_proc up_secs))
    | Raise _ => None
    end.
Proof.
  unfold Server.collect_proc, Server.read_file, Server.set_stat, proc_field.
  unfold_eff. cbn [locals trace fst snd].
  repeat (match goal with
          | |- context [match open_read W ?p with _ => _ end] =>
              destruct (open_read W p)
          | |- context [match index ?l ?i with _ => _ end] =>
              destruct (index l i)
          | |- context [match float_of_str W ?p with _ => _ end] =>
              destruct (float_of_str W p)
          end; cbn [locals trace fst snd]);
    repeat split; reflexivity.
Qed.

(** The mapping returned on the [/proc] branch. *)
Lemma fallback_stats (server : dict json) :
  HAS_PSUTIL W = false ->
  fst (run [] (Server.get_server_stats W)) = Ok server ->
  dict_get "load_1" server
  = match proc_field W "/proc/loadavg" 0 with
    | Ok x => Some (JFloat x)
    | Raise _ => None
    end /\
  dict_get "load_5" server
  = match proc_field W "/proc/loadavg" 0, proc_field W "/proc/loadavg" 1 with
    | Ok _, Ok y => Some (JFloat y)
    | _, _ => None
    end /\
  dict_get "uptime_str" server
  = match proc_field W "/proc/uptime" 0 with
    | Ok up_secs => Some (JStr (Server.uptime_str_proc up_secs))
    | Raise _ => None
    end.
Proof.
  intros Hno Hrun.
  destruct (get_server_stats_split Hrun) as (fr1 & Hcollect & _ & <-).
  rewrite Hno in Hcollect.
  pose proof (collect_proc_stats []) as Hstats. cbv zeta in Hstats.
  rewrite Hcollect in Hstats. cbn [fst snd] in Hstats.
  destruct Hstats as (_ & H1 & H5 & Hu).
  rewrite !probe_keeps by discriminate.
  split; [exact H1|]. split; [exact H5|exact Hu].
Qed.

(** The uptime text returned on the [psutil] branch. *)
Lemma psutil_uptime (server : dict json) (bt : Q) :
  HAS_PSUTIL W = true ->
  fst (run [] (Server.get_server_stats W)) = Ok server ->
  psutil_boot_time W = Ok bt ->
  dict_get "uptime_str" server
  = Some (JStr (Server.uptime_str_psutil (now_timestamp W - bt))).
Proof.
  intros Hyes Hrun Hbt.
  destruct (get_server_stats_split Hrun) as (fr1 & Hcollect & _ & <-).
  rewrite Hyes in Hcollect.
  rewrite probe_keeps by discriminate.
  revert Hcollect.
  unfold Server.collect_psutil, Server.psutil, Server.set_stat.
  unfold_eff. cbn [locals trace fst snd]. rewrite Hbt.
  destruct (psutil_cpu_percent W); [|discriminate].
  destruct (psutil_virtual_memory W); [|discriminate].
  destruct (psutil_disk_usage W "/"); [|discriminate].
  destruct (psutil_getloadavg W); [|discriminate].
  intros [= <-]. reflexivity.
Qed.


End ServerBranches.

(** ** The uptime text *)

Section UptimeFacts.

Lemma int_of_float_inject (z : Z) : int_of_float (inject_Z z) = z.
Proof. unfold int_of_float. simpl. apply Z.quot_1_r. Qed.

Lemma Qfloor_div_pos (x : Q) (n : positive) :
  Qfloor (x / (Zpos n # 1)) = Qfloor x / Zpos n.
Proof.
  destruct x as [a b]. unfold Qdiv, Qinv, Qmult, Qfloor, inject_Z.
  cbn [Qnum Qden].
  rewrite Z.mul_1_r, Pos2Z.inj_mul.
  symmetry. apply Z.div_div; lia.
Qed.

Lemma Qfloor_fmod (x : Q) (n : positive) :
  Qfloor (fmod x ((Zpos n # 1))) = Qfloor x mod Zpos n.
Proof.
  unfold fmod. rewrite Qfloor_div_pos.
  destruct x as [a b]. unfold Qminus, Qplus, Qopp, Qmult, Qfloor, inject_Z.
  cbn [Qnum Qden].
  rewrite !Pos.mul_1_r, !Z.mul_1_r.
  rewrite Z.mod_eq by lia.
  set (k := a / Zpos b / Zpos n).
  replace (a + - (Zpos n * k) * Zpos b) with (a + (- (Zpos n * k)) * Zpos b) by lia.
  rewrite Z.div_add by lia. fold k. lia.
Qed.

Lemma uptime_days_eq (up : Q) :
  int_of_float (floordiv up 86400) = Qfloor up / 86400.
Proof.
  unfold floordiv. rewrite int_of_float_inject.
  apply (Qfloor_div_pos up 86400).
Qed.

Lemma uptime_part_eq (up : Q) (m d : positive) :
  int_of_float (floordiv (fmod up ((Zpos m # 1))) ((Zpos d # 1)))
  = (Qfloor up mod Zpos m) / Zpos d.
Proof.
  unfold floordiv. rewrite int_of_float_inject, Qfloor_div_pos, Qfloor_fmod.
  reflexivity.
Qed.

End UptimeFacts.

(** C7.  For a non-negative uptime, with [days], [hours] and [minutes] the
    usual split of its whole seconds: when [psutil] is installed and the
    clock is [up_secs] after the boot time, the mapping that
    [get_server_stats] returns holds ["{days}d {hours}h"] under [uptime_str]
    when [days >= 1] and ["{hours}h {minutes}m"] otherwise; without [psutil],
    when the first field of [/proc/uptime] reads as [up_secs], it holds
    ["{days}d {hours}h"] in every case.  90000 seconds give ["1d 1h"] on both
    branches, 3000 seconds give ["0h 50m"] on the first and ["0d 0h"] on the
    second. *)
Theorem uptime_formats (W : world) (server : dict json) (up_secs : Q)
    (Hserver : fst (run [] (Server.get_server_stats W)) = Ok server)
    (Hpos : (0 <= up_secs)%Q) :
  let whole := Qfloor up_secs in
  let days := whole / 86400 in
  let hours := (whole mod 86400) / 3600 in
  let minutes := (whole mod 3600) / 60 in
  (0 <= days /\ 0 <= hours < 24 /\ 0 <= minutes < 60) /\
  (HAS_PSUTIL W = true ->
   forall bt, psutil_boot_time W = Ok bt ->
              (now_timestamp W - bt == up_secs)%Q ->
              dict_get "uptime_str" server =
              Some (JStr (if 1 <=? days
                          then str_of_int days ^^ "d " ^^ str_of_int hours ^^ "h"
                          else str_of_int hours ^^ "h "
                               ^^ str_of_int minutes ^^ "m"))) /\
  (HAS_PSUTIL W = false ->
   proc_field W "/proc/uptime" 0 = Ok up_secs ->
   dict_get "uptime_str" server =
   Some (JStr (str_of_int days ^^ "d " ^^ str_of_int hours ^^ "h"))) /\
  uptime_of (Sample.up_since_boot 90000 Sample.host) = Some (JStr "1d 1h") /\
  uptime_of (Sample.proc_uptime "90000.00 170000.00" Sample.bare)
  = Some (JStr "1d 1h") /\
  uptime_of (Sample.up_since_boot 3000 Sample.host) = Some (JStr "0h 50m") /\
  uptime_of (Sample.proc_uptime "3000.00 5600.00" Sample.bare)
  = Some (JStr "0d 0h").
Proof.
  intros whole days hours minutes.
  assert (Hw : 0 <= whole).
  { unfold whole. change 0 with (Qfloor 0). apply Qfloor_resp_le. exact Hpos. }
  split.
  { unfold days, hours, minutes. repeat split.
    - apply Z.div_pos; lia.
    - apply Z.div_pos; [apply Z.mod_pos_bound|]; lia.
    - apply Z.div_lt_upper_bound; [lia|].
      pose proof (Z.mod_pos_bound whole 86400). lia.
    - apply Z.div_pos; [apply Z.mod_pos_bound|]; lia.
    - apply Z.div_lt_upper_bound; [lia|].
      pose proof (Z.mod_pos_bound whole 3600). lia. }
  split.
  { intros Hyes bt Hbt Hup.
    rewrite (@psutil_uptime W server bt Hyes Hserver Hbt).
    unfold Server.uptime_str_psutil.
    rewrite uptime_days_eq.
    rewrite (uptime_part_eq (now_timestamp W - bt) 86400 3600),
            (uptime_part_eq (now_timestamp W - bt) 3600 60).
    rewrite (Qfloor_comp _ _ Hup).
    fold whole. fold days. fold hours. fold minutes.
    destruct (Z.ltb_spec 0 days), (Z.leb_spec 1 days); try lia; reflexivity. }
  split.
  { intros Hno Hfield.
    destruct (@fallback_stats W server Hno Hserver) as (_ & _ & Hu).
    rewrite Hfield in Hu. rewrite Hu.
    unfold Server.uptime_str_proc.
    rewrite uptime_days_eq, (uptime_part_eq up_secs 86400 3600). reflexivity. }
  repeat split; vm_compute; reflexivity.
Qed.

(** The sample host has been up for one day, one hour and half a second; the
    same host without [psutil] reads 3000.55 seconds from [/proc/uptime]. *)
Lemma uptime_formats_witness :
  uptime_of Sample.host = Some (JStr "1d 1h") /\
  uptime_of Sample.bare = Some (JStr "0d 0h").
Proof.
  assert (Hhost : exists server,
             fst (run [] (Server.get_server_stats Sample.host)) = Ok server)
    by (eexists; vm_compute; reflexivity).
  assert (Hbare : exists server,
             fst (run [] (Server.get_server_stats Sample.bare)) = Ok server)
    by (eexists; vm_compute; reflexivity).
  destruct Hhost as [s1 H1]. destruct Hbare as [s2 H2].
  assert (P1 : (0 <= 180001 # 2)%Q) by (unfold Qle; cbn; lia).
  assert (P2 : (0 <= 60011 # 20)%Q) by (unfold Qle; cbn; lia).
  split.
  - unfold uptime_of. rewrite H1.
    exact (proj1 (proj2 (@uptime_formats Sample.host s1 (180001 # 2) H1 P1))
             eq_refl (1700000000 # 1) eq_refl ltac:(vm_compute; reflexivity)).
  - unfold uptime_of. rewrite H2.
    exact (proj1 (proj2 (proj2
                    (@uptime_formats Sample.bare s2 (60011 # 20) H2 P2)))
             eq_refl ltac:(vm_compute; reflexivity)).
Defined.

(** ** The adapters inside [main] *)

Ltac extend_all :=
  repeat first
    [ progress cbv zeta
    | extend_step
    | match goal with
      | |- extends_trace (if ?b then _ else _) => destruct b
      | |- extends_trace (match ?x with _ => _ end) => destruct x
      end ].

Section Adapters.
Variable W : world.

Lemma extends_get_pihole_stats : extends_trace (Pihole.get_pihole_stats W).
Proof.
  unfold Pihole.get_pihole_stats, Pihole.session, Pihole.logout,
    Pihole.authenticate, Pihole.fetch_summary, Pihole.post, Pihole.http_get,
    Pihole.http_delete, Pihole.check_status.
  extend_all.
Qed.

Lemma extends_probe_zones (zones : list nat) :
  extends_trace (Server.probe_zones W zones).
Proof.
  induction zones as [|zone rest IH]; cbn [Server.probe_zones].
  - apply extends_ret.
  - unfold Server.exists_, Server.read_file, Server.set_stat.
    repeat first
      [ progress cbv zeta
      | exact IH
      | extend_step
      | match goal with
        | |- extends_trace (if ?b then _ else _) => destruct b
        end ].
Qed.

Lemma extends_get_server_stats : extends_trace (Server.get_server_stats W).
Proof.
  unfold Server.get_server_stats, Server.probe_temperature,
    Server.collect_psutil, Server.collect_proc, Server.psutil,
    Server.read_file, Server.set_stat.
  repeat first
    [ progress cbv zeta
    | apply extends_probe_zones
    | extend_step
    | match goal with
      | |- extends_trace (if ?b then _ else _) => destruct b
      end ].
Qed.

Lemma extends_get_docker_containers :
  extends_trace (Docker.get_docker_containers W).
Proof. unfold Docker.get_docker_containers. extend_all. Qed.

(** The two adapters that catch every exception return. *)
Lemma get_pihole_stats_returns :
  exists v, fst (run JNull (Pihole.get_pihole_stats W)) = Ok v.
Proof.
  rewrite get_pihole_stats_run.
  destruct (negb (HAS_REQUESTS W)); [eexists; reflexivity|].
  destruct (fst (run JNull (Pihole.authenticate W))); eexists; reflexivity.
Qed.


(** Without [psutil] every read of [get_server_stats] is guarded. *)
Lemma get_server_stats_returns_without_psutil :
  HAS_PSUTIL W = false ->
  exists stats, fst (run [] (Server.get_server_stats W)) = Ok stats.
Proof.
  intro Hno. unfold run, Server.get_server_stats. rewrite Hno.
  unfold Server.collect_proc, Server.probe_temperature.
  unfold bind at 1. unfold bind at 1. unfold bind at 1.
  match goal with
  | |- context [try_except ?m ?h ?fr] =>
      pose proof (try_except_returns m fr) as H1;
      destruct (try_except m h fr) as [r1 fr1]
  end.
  cbn [fst] in H1. subst r1.
  match goal with
  | |- context [try_except ?m ?h ?fr] =>
      pose proof (try_except_returns m fr) as H2;
      destruct (try_except m h fr) as [r2 fr2]
  end.
  cbn [fst] in H2. subst r2.
  unfold bind.
  match goal with
  | |- context [try_except ?m ?h ?fr] =>
      pose proof (try_except_returns m fr) as H3;
      destruct (try_except m h fr) as [r3 fr3]
  end.
  cbn [fst] in H3. subst r3.
  eexists. reflexivity.
Qed.

Lemma call_extends {L L' A : Type} (init : L') (m : M L' A) (fr : frame L) :
  extends_trace m ->
  call init m fr =
  (fst (run init m),
   {| locals := locals fr; trace := trace fr ++ snd (run init m) |}).
Proof.
  intro Hm. unfold call, run. rewrite (Hm init (trace fr)).
  destruct (m {| locals := init; trace := [] |}) as [r [l t]]. reflexivity.
Qed.

(** The dictionary [data], from the three adapters run on their own. *)
Lemma collect_run (updated : string) :
  run tt (Publisher.collect W updated) =
  match run JNull (Pihole.get_pihole_stats W),
        run [] (Server.get_server_stats W),
        run tt (Docker.get_docker_containers W) with
  | (Raise e, tp), _, _ => (Raise e, tp)
  | (Ok _, tp), (Raise e, ts), _ => (Raise e, tp ++ ts)
  | (Ok _, tp), (Ok _, ts), (Raise e, tc) => (Raise e, tp ++ ts ++ tc)
  | (Ok pihole, tp), (Ok server, ts), (Ok containers, tc) =>
      (Ok (JObj [("updated", JStr updated);
                 ("pihole", pihole);
                 ("server", JObj server);
                 ("containers",
                  JList (map Docker.container_json containers))]),
       tp ++ ts ++ tc)
  end.
Proof.
  unfold Publisher.collect. unfold run at 1. unfold bind, ret.
  rewrite call_extends by apply extends_get_pihole_stats.
  cbn [locals trace app].
  destruct (run JNull (Pihole.get_pihole_stats W)) as [[p|e] tp];
    cbn [fst snd locals trace]; [|reflexivity].
  rewrite call_extends by apply extends_get_server_stats.
  destruct (run [] (Server.get_server_stats W)) as [[s|e] ts];
    cbn [fst snd locals trace].
  - rewrite call_extends by apply extends_get_docker_containers.
    destruct (run tt (Docker.get_docker_containers W)) as [[c|e] tc];
      cbn [fst snd locals trace]; rewrite <- app_assoc; reflexivity.
  - destruct (run tt (Docker.get_docker_containers W)) as [[c|e'] tc];
      reflexivity.
Qed.

Lemma write_chunks_frame (chunks : list string) (fr : frame unit) :
  Publisher.write_chunks chunks fr =
  (Ok tt, {| locals := locals fr;
             trace := trace fr ++ map EvWrite chunks |}).
Proof.
  revert fr. induction chunks as [|c rest IH]; intro fr;
    cbn [Publisher.write_chunks map].
  - unfold ret. rewrite app_nil_r. destruct fr; reflexivity.
  - unfold bind, emit. rewrite IH. cbn [locals trace].
    rewrite <- app_assoc. reflexivity.
Qed.

(** The whole script, from the dictionary [data]. *)
Lemma main_run :
  let updated := Publisher.updated_str (utc_now W) (UTC_OFFSET_HOURS W) in
  run tt (Publisher.main W) =
  match run tt (Publisher.collect W updated) with
  | (Raise e, t) => (Raise e, t)
  | (Ok data, t) =>
      match open_write W (OUTPUT_FILE W) with
      | Some e => (Raise e, t)
      | None =>
          (Ok tt,
           t ++ EvOpenWrite (OUTPUT_FILE W)
             :: map EvWrite (json_iterencode W data)
             ++ [EvClose (OUTPUT_FILE W);
                 EvPrint ("[sysmon] Updated at " ^^ updated)])
      end
  end.
Proof.
  intro updated. unfold Publisher.main. fold updated.
  unfold run, bind at 1.
  destruct (Publisher.collect W updated {| locals := tt; trace := [] |})
    as [[data|e] [l t]]; cbn [trace]; [|reflexivity].
  unfold Publisher.dump.
  destruct (open_write W (OUTPUT_FILE W)) as [e|].
  - reflexivity.
  - unfold bind, emit. rewrite write_chunks_frame. cbn [locals trace].
    rewrite <- !app_assoc. reflexivity.
Qed.

End Adapters.

(** ** Nothing is written before [main] opens the output file *)

Section Quiet.
Variable W : world.

Lemma quiet_emit {L : Type} (ev : event) :
  Fs.is_write ev = false -> preserves (L := L) quiet (emit ev).
Proof.
  intros Hev fr H. unfold quiet, emit in *. cbn [snd trace].
  apply Forall_app. split; [exact H|]. constructor; [exact Hev|constructor].
Qed.

Lemma quiet_set_locals {L : Type} (l : L) : preserves quiet (set_locals l).
Proof. intros fr H. exact H. Qed.

Ltac keep_quiet :=
  repeat first
    [ progress cbv zeta
    | apply quiet_emit; reflexivity
    | apply quiet_set_locals
    | preserve_step
    | match goal with
      | |- preserves _ (if ?b then _ else _) => destruct b
      | |- preserves _ (match ?x with _ => _ end) => destruct x
      end ].

Lemma quiet_get_pihole_stats : preserves quiet (Pihole.get_pihole_stats W).
Proof.
  unfold Pihole.get_pihole_stats, Pihole.session, Pihole.logout,
    Pihole.authenticate, Pihole.fetch_summary, Pihole.post, Pihole.http_get,
    Pihole.http_delete, Pihole.check_status.
  keep_quiet.
Qed.

Lemma quiet_probe_zones (zones : list nat) :
  preserves quiet (Server.probe_zones W zones).
Proof.
  induction zones as [|zone rest IH]; cbn [Server.probe_zones].
  - apply preserves_ret.
  - unfold Server.exists_, Server.read_file, Server.set_stat.
    repeat first
      [ progress cbv zeta
      | exact IH
      | apply quiet_emit; reflexivity
      | apply quiet_set_locals
      | preserve_step
      | match goal with
        | |- preserves _ (if ?b then _ else _) => destruct b
        end ].
Qed.

Lemma quiet_get_server_stats : preserves quiet (Server.get_server_stats W).
Proof.
  unfold Server.get_server_stats, Server.probe_temperature,
    Server.collect_psutil, Server.collect_proc, Server.psutil,
    Server.read_file, Server.set_stat.
  repeat first
    [ progress cbv zeta
    | apply quiet_probe_zones
    | apply quiet_emit; reflexivity
    | apply quiet_set_locals
    | preserve_step
    | match goal with
      | |- preserves _ (if ?b then _ else _) => destruct b
      end ].
Qed.

Lemma quiet_get_docker_containers :
  preserves quiet (Docker.get_docker_containers W).
Proof. unfold Docker.get_docker_containers. keep_quiet. Qed.

Lemma quiet_run {L A : Type} (init : L) (m : M L A) :
  preserves quiet m ->
  Forall (fun ev => Fs.is_write ev = false) (snd (run init m)).
Proof.
  intro Hm. unfold run.
  specialize (Hm {| locals := init; trace := [] |} (Forall_nil _)).
  destruct (m {| locals := init; trace := [] |}) as [r fr]. exact Hm.
Qed.

Lemma quiet_collect (updated : string) :
  Forall (fun ev => Fs.is_write ev = false)
         (snd (run tt (Publisher.collect W updated))).
Proof.
  rewrite collect_run.
  pose proof (quiet_run JNull quiet_get_pihole_stats) as Hp.
  pose proof (quiet_run [] quiet_get_server_stats) as Hs.
  pose proof (quiet_run tt quiet_get_docker_containers) as Hc.
  destruct (run JNull (Pihole.get_pihole_stats W)) as [[p|e] tp];
    destruct (run [] (Server.get_server_stats W)) as [[s|e'] ts];
    destruct (run tt (Docker.get_docker_containers W)) as [[c|e''] tc];
    cbn [fst snd] in *; repeat (apply Forall_app; split); assumption.
Qed.

End Quiet.

Lemma filter_quiet (t : list event) :
  Forall (fun ev => Fs.is_write ev = false) t -> filter Fs.is_write t = [].
Proof.
  induction 1 as [|ev t Hev _ IH]; cbn; [reflexivity|].
  rewrite Hev. exact IH.
Qed.


(** ** The output file during the publication *)

Section Strings.




End Strings.

Section OutputFile.
Variables (out line : string) (chunks : list string) (st0 : Fs.state).
Hypothesis st0_closed : Fs.opened st0 = None.

Let phase : Fs.state -> list event -> Prop := Fs.phase out line chunks st0.









End OutputFile.

(** ** The script as a whole *)


(** When [get_server_stats] raises, [main] raises with it and writes
    nothing. *)
Lemma server_failure_stops_main (W : world) (e : exn) :
  fst (run [] (Server.get_server_stats W)) = Raise e ->
  fst (run tt (Publisher.main W)) = Raise e /\
  filter Fs.is_write (snd (run tt (Publisher.main W))) = [].
Proof.
  intro Hserver.
  pose proof (main_run W) as Hmain. cbv zeta in Hmain.
  pose proof (quiet_collect W (Publisher.updated_str (utc_now W)
                                 (UTC_OFFSET_HOURS W))) as Hquiet.
  rewrite collect_run in Hmain, Hquiet.
  destruct (get_pihole_stats_returns W) as [pihole Hp].
  destruct (run JNull (Pihole.get_pihole_stats W)) as [rp tp].
  destruct (run tt (Docker.get_docker_containers W)) as [rc tc].
  destruct (run [] (Server.get_server_stats W)) as [rs ts].
  cbn [fst] in Hp, Hserver. subst rp rs.
  rewrite Hmain. cbn [fst snd] in *. split; [reflexivity|].
  apply filter_quiet, Hquiet.
Qed.



(** An exception of the first [psutil] call leaves [get_server_stats]. *)
Lemma cpu_percent_error_escapes (W : world) (e : exn) :
  HAS_PSUTIL W = true ->
  psutil_cpu_percent W = Raise e ->
  fst (run [] (Server.get_server_stats W)) = Raise e.
Proof.
  intros Hpsutil Hcpu.
  unfold Server.get_server_stats, Server.collect_psutil, Server.psutil.
  rewrite Hpsutil. unfold_eff. cbn [locals trace]. rewrite Hcpu. reflexivity.
Qed.

(** C3, at the failing input: [psutil] is installed and
    [psutil.disk_usage("/")] raises.  The exception leaves
    [get_server_stats] and [main], and no file is written. *)
Theorem psutil_error_escapes :
  HAS_PSUTIL Sample.disk_error = true /\
  psutil_disk_usage Sample.disk_error "/"
  = Raise (External "[Errno 13] Permission denied: '/'") /\
  fst (run [] (Server.get_server_stats Sample.disk_error))
  = Raise (External "[Errno 13] Permission denied: '/'") /\
  fst (run tt (Publisher.main Sample.disk_error))
  = Raise (External "[Errno 13] Permission denied: '/'") /\
  filter Fs.is_write (snd (run tt (Publisher.main Sample.disk_error))) = [].
Proof. repeat split; vm_compute; reflexivity. Qed.





(** * Further properties *)

(** ** The filtering-service adapter in every world *)

Section PiholeShape.
Variable W : world.

(** A summary that is fetched and read is the mapping of the seven
    counters. *)
Lemma fetch_summary_keys (sid v : json) :
  fst (run JNull (Pihole.fetch_summary W sid)) = Ok v ->
  exists d, v = JObj d /\ keys d = counter_keys.
Proof.
  unfold Pihole.fetch_summary, Pihole.http_get. unfold_eff.
  cbn [fst snd locals trace].
  repeat match goal with
         | |- context [match ?r with Ok _ => _ | Raise _ => _ end] =>
             destruct r; cbn [fst snd]; try discriminate
         end.
  intros [= <-]. eexists. split; reflexivity.
Qed.

End PiholeShape.

(** X1.  In every world [get_pihole_stats] returns, and what it returns is
    a mapping of one of three shapes: empty (exactly when [requests] is not
    installed), the single member [error] holding a text, or the seven
    counters. *)
Theorem pihole_result_shape (W : world) :
  exists d,
    fst (run JNull (Pihole.get_pihole_stats W)) = Ok (JObj d) /\
    ((HAS_REQUESTS W = false /\ d = []) \/
     (HAS_REQUESTS W = true /\
      ((exists msg, d = [("error", JStr msg)]) \/ keys d = counter_keys))).
Proof.
  rewrite get_pihole_stats_run.
  destruct (HAS_REQUESTS W); cbn [negb].
  - destruct (fst (run JNull (Pihole.authenticate W))) as [sid|e]; cbn [fst].
    + destruct (fst (run JNull (Pihole.fetch_summary W sid))) as [v|e] eqn:Hf.
      * destruct (@fetch_summary_keys W sid v Hf) as [d [-> Hk]].
        exists d. split; [reflexivity|]. right. split; [reflexivity|].
        right. exact Hk.
      * eexists. split; [reflexivity|]. right. split; [reflexivity|].
        left. eexists. reflexivity.
    + eexists. split; [reflexivity|]. right. split; [reflexivity|].
      left. eexists. reflexivity.
  - exists []. split; [reflexivity|]. left. split; reflexivity.
Qed.

(** X2.  In every world the requests of [get_pihole_stats] are an initial
    part of the sequence login, summary, logout: nothing without
    [requests]; the login alone when it fails; the summary is asked with the
    [sid] of the login; and a logout, if any, comes last and carries the same
    [sid].  No endpoint is asked twice. *)
Theorem pihole_request_sequence (W : world) :
  let auth := Pihole.base W ^^ "/auth" in
  let summary := Pihole.base W ^^ "/stats/summary" in
  let tr := snd (run JNull (Pihole.get_pihole_stats W)) in
  (HAS_REQUESTS W = false /\ tr = []) \/
  (HAS_REQUESTS W = true /\
   ((exists e, fst (run JNull (Pihole.authenticate W)) = Raise e /\
               tr = [EvPost auth (PIHOLE_PASSWORD W)]) \/
    (exists sid, fst (run JNull (Pihole.authenticate W)) = Ok sid /\
                 truthy sid = false /\
                 tr = [EvPost auth (PIHOLE_PASSWORD W); EvGet summary sid]) \/
    (exists sid, fst (run JNull (Pihole.authenticate W)) = Ok sid /\
                 truthy sid = true /\
                 tr = [EvPost auth (PIHOLE_PASSWORD W); EvGet summary sid;
                       EvDelete auth sid]))).
Proof.
  intros auth summary tr. subst auth summary tr.
  rewrite get_pihole_stats_run.
  destruct (HAS_REQUESTS W); cbn [negb]; [right|left; split; reflexivity].
  split; [reflexivity|].
  destruct (fst (run JNull (Pihole.authenticate W))) as [sid|e]; cbn [snd].
  - right. destruct (truthy sid) eqn:Ht; [right|left]; exists sid;
      (split; [reflexivity|]); (split; [exact Ht|reflexivity]).
  - left. exists e. split; reflexivity.
Qed.

(** X3.  When the login and the summary request succeed but the body is
    not an object, or its member [queries] is present and is not an object
    (the value [v] in both cases), the adapter returns the error mapping with
    the text of the [AttributeError] for the type of [v]. *)
Theorem malformed_summary_is_error
    (W : world) (sid : json) (resp : response) (body v : json)
    (Hreq : HAS_REQUESTS W = true)
    (Hlogin : fst (run JNull (Pihole.authenticate W)) = Ok sid)
    (Hget : requests_get W (Pihole.base W ^^ "/stats/summary") sid = Ok resp)
    (Hbody : response_json resp = Ok body)
    (Hbad : ((forall d, body <> JObj d) /\ v = body) \/
            (exists d, body = JObj d /\ dict_get "queries" d = Some v /\
                       forall q, v <> JObj q)) :
  fst (run JNull (Pihole.get_pihole_stats W))
  = Ok (JObj [("error",
               JStr ("'" ^^ type_name v ^^ "' object has no attribute 'get'"))]).
Proof.
  rewrite get_pihole_stats_run, Hreq, Hlogin. cbn [negb fst].
  assert (Hfetch : fst (run JNull (Pihole.fetch_summary W sid))
                   = Raise (AttributeError
                              ("'" ^^ type_name v
                                   ^^ "' object has no attribute 'get'"))).
  { unfold Pihole.fetch_summary, Pihole.http_get. unfold_eff.
    cbn [fst snd locals trace]. rewrite Hget. cbn [fst snd]. rewrite Hbody.
    destruct Hbad as [[Hno ->] | (d & -> & Hq & Hno)].
    - destruct body; try reflexivity. exfalso. eapply Hno. reflexivity.
    - unfold Py.get at 1. rewrite Hq.
      destruct (Py.get (JObj d) "gravity" (JObj [])) as [g|e] eqn:Hg;
        [|unfold Py.get in Hg; destruct (dict_get "gravity" d); discriminate].
      destruct (Py.get (JObj d) "clients" (JObj [])) as [c|e] eqn:Hc;
        [|unfold Py.get in Hc; destruct (dict_get "clients" d); discriminate].
      destruct v; try reflexivity. exfalso. eapply Hno. reflexivity. }
  rewrite Hfetch. reflexivity.
Qed.

(** The summary endpoint answers [null]. *)
Lemma malformed_summary_is_error_witness :
  fst (run JNull (Pihole.get_pihole_stats
                    (Vary.with_requests_get
                       (fun _ _ => Ok {| raise_for_status := None;
                                         response_json := Ok JNull |})
                       Sample.host)))
  = Ok (JObj [("error",
               JStr "'NoneType' object has no attribute 'get'")]).
Proof.
  refine (@malformed_summary_is_error
            (Vary.with_requests_get
               (fun _ _ => Ok {| raise_for_status := None;
                                 response_json := Ok JNull |})
               Sample.host)
            (JStr "vFA+EP4MQ5JJvJg+3Q2Jnw=")
            {| raise_for_status := None; response_json := Ok JNull |}
            JNull JNull eq_refl eq_refl eq_refl eq_refl _).
  left. split; [intros d H; discriminate H | reflexivity].
Defined.

(** ** The thermal probe in every world, continued *)

(** X4.  Whatever the thermal zones do, a temperature in the mapping that
    [get_server_stats] returns is a float between 10 and 120. *)
Theorem reported_temperature_in_range
    (W : world) (stats : dict json) (v : json)
    (Hrun : fst (run [] (Server.get_server_stats W)) = Ok stats)
    (Htemp : dict_get "temp_c" stats = Some v) :
  exists t, v = JFloat t /\ (10 <= t <= 120)%Q.
Proof.
  assert (Hany : forall collect : Server.St unit,
             preserves cold collect ->
             fst (run [] (collect ;;; Server.probe_temperature W ;;;
                          get_locals)) = Ok stats ->
             exists t, v = JFloat t /\ (10 <= t <= 120)%Q).
  { intros collect Hcold Hr.
    specialize (Hcold {| locals := []; trace := [] |} eq_refl).
    unfold run, bind in Hr.
    destruct (collect {| locals := []; trace := [] |}) as [[[]|e] fr1];
      cbn [snd] in Hcold; [|discriminate Hr].
    destruct (probe_temperature_effect W fr1) as [Hok Heff].
    destruct (Server.probe_temperature W fr1) as [r fr2].
    cbn [fst snd] in Hok, Heff. subst r.
    unfold get_locals in Hr. cbn [fst] in Hr. injection Hr as Hr.
    rewrite Hr in Heff.
    destruct Heff as [-> | (n & Hq & ->)].
    - unfold cold in Hcold. congruence.
    - rewrite dict_get_set_same in Htemp. injection Htemp as <-.
      eexists. split; [reflexivity|].
      apply rounded_temperature_in_range, Hq. }
  revert Hrun. unfold Server.get_server_stats.
  destruct (HAS_PSUTIL W);
    [apply (Hany _ (cold_collect_psutil W))
    |apply (Hany _ (cold_collect_proc W))].
Qed.

(** The sample host reports 45.0. *)
Lemma reported_temperature_in_range_witness :
  exists t, JFloat 45 = JFloat t /\ (10 <= t <= 120)%Q.
Proof.
  assert (Hrun : exists stats,
             fst (run [] (Server.get_server_stats Sample.host)) = Ok stats /\
             dict_get "temp_c" stats = Some (JFloat 45)).
  { eexists. split; vm_compute; reflexivity. }
  destruct Hrun as (stats & Hrun & Htemp).
  exact (@reported_temperature_in_range Sample.host stats (JFloat 45)
           Hrun Htemp).
Defined.

(** X5.  A zone whose file exists but cannot be read as an integer ends the
    probe: when the zones before zone [k] are missing or hold readings that
    do not qualify, and reading zone [k] raises, the mapping is left without
    a temperature and no zone after [k] is probed, whatever those zones
    hold. *)
Theorem unreadable_zone_ends_probe
    (W : world) (k : nat) (readings : list (option Z)) (e : exn)
    (fr : frame (dict json))
    (Hk : length readings = k) (Hlt : (k < 10)%nat)
    (Hzones : map (zone_reading W) (seq 0 k)
              = map (option_map (@Ok Z)) readings)
    (Hrange : Forall has_float readings)
    (Hnone : first_valid 0 readings = None)
    (Hbad : zone_reading W k = Some (Raise e)) :
  Server.probe_temperature W fr =
  (Ok tt,
   {| locals := locals fr;
      trace := trace fr ++ flat_map (zone_events W) (seq 0 (S k)) |}).
Proof.
  exact (@probe_stops_at_unreadable_zone W k readings e fr
           Hk Hlt Hzones Hrange Hnone Hbad).
Qed.

(** Zone 0 of the sample host holds no number; zone 1 would qualify. *)
Lemma unreadable_zone_ends_probe_witness :
  let W := Vary.with_open_read
             (fun path =>
                if String.eqb path "/sys/class/thermal/thermal_zone0/temp"
                then Ok "N/A" else open_read Sample.host path)
             Sample.host in
  zone_reading W 1 = Some (Ok 45000) /\
  Server.probe_temperature W {| locals := []; trace := [] |} =
  (Ok tt,
   {| locals := [];
      trace := [EvExists "/sys/class/thermal/thermal_zone0/temp";
                EvOpenRead "/sys/class/thermal/thermal_zone0/temp"] |}).
Proof.
  intro W. split; [vm_compute; reflexivity|].
  assert (Hbad : exists e, zone_reading W 0 = Some (Raise e))
    by (eexists; vm_compute; reflexivity).
  destruct Hbad as [e Hbad].
  exact (@unreadable_zone_ends_probe W 0 [] e {| locals := []; trace := [] |}
           eq_refl ltac:(lia) eq_refl (Forall_nil _) eq_refl Hbad).
Defined.

(** ** The two branches of [get_server_stats] *)

(** X6.  When [psutil] is installed and its five calls return, the adapter
    returns the ten metrics of the [psutil] branch in the order of the
    source, with the values read and rounded there, followed by [temp_c]
    when the probe found a temperature, and by nothing else. *)
Theorem psutil_metrics
    (W : world) (cpu : Q) (vm du : usage) (la : Q * Q * Q) (bt : Q)
    (Hpsutil : HAS_PSUTIL W = true)
    (Hcpu : psutil_cpu_percent W = Ok cpu)
    (Hvm : psutil_virtual_memory W = Ok vm)
    (Hdu : psutil_disk_usage W "/" = Ok du)
    (Hla : psutil_getloadavg W = Ok la)
    (Hbt : psutil_boot_time W = Ok bt) :
  let metrics :=
    [("cpu_pct", JFloat (round_float cpu 1));
     ("mem_pct", JFloat (round_float (percent vm) 1));
     ("mem_used", JInt (used vm));
     ("mem_total", JInt (total vm));
     ("disk_pct", JFloat (round_float (percent du) 1));
     ("disk_used", JInt (used du));
     ("disk_total", JInt (total du));
     ("load_1", JFloat (round_float (fst (fst la)) 2));
     ("load_5", JFloat (round_float (snd (fst la)) 2));
     ("uptime_str",
      JStr (Server.uptime_str_psutil (now_timestamp W - bt)))] in
  exists stats,
    fst (run [] (Server.get_server_stats W)) = Ok stats /\
    (stats = metrics \/ exists t, stats = metrics ++ [("temp_c", JFloat t)]) /\
    (keys stats = psutil_keys \/ keys stats = psutil_keys ++ ["temp_c"]).
Proof.
  intro metrics.
  unfold run, Server.get_server_stats. rewrite Hpsutil.
  unfold bind at 1. unfold bind at 1.
  assert (Hcollect : Server.collect_psutil W {| locals := []; trace := [] |}
                     = (Ok tt,
                        {| locals := metrics;
                           trace := [EvPsutil "cpu_percent";
                                     EvPsutil "virtual_memory";
                                     EvPsutil "disk_usage";
                                     EvPsutil "getloadavg";
                                     EvPsutil "boot_time"] |})).
  { unfold Server.collect_psutil, Server.psutil, Server.set_stat.
    unfold_eff. cbn [locals trace app].
    rewrite Hcpu, Hvm, Hdu, Hla, Hbt. reflexivity. }
  rewrite Hcollect. unfold bind.
  match goal with
  | |- context [Server.probe_temperature W ?fr] =>
      destruct (probe_temperature_effect W fr) as [Hok Heff];
      destruct (Server.probe_temperature W fr) as [r fr2]
  end.
  cbn [fst snd locals] in Hok, Heff. subst r.
  unfold get_locals. cbn [fst].
  exists (locals fr2). split; [reflexivity|].
  destruct Heff as [-> | (n & _ & ->)].
  - split; left; reflexivity.
  - split; right; [eexists|]; reflexivity.
Qed.

(** The sample host. *)
Lemma psutil_metrics_witness :
  exists stats,
    fst (run [] (Server.get_server_stats Sample.host)) = Ok stats /\
    (keys stats = psutil_keys \/ keys stats = psutil_keys ++ ["temp_c"]).
Proof.
  destruct (@psutil_metrics Sample.host _ _ _ _ _
              eq_refl eq_refl eq_refl eq_refl eq_refl eq_refl)
    as (stats & Hrun & _ & Hkeys).
  exists stats. split; [exact Hrun | exact Hkeys].
Defined.

Section Fallback.
Variable W : world.

(** What lines 121-127 may do to the mapping. *)
Lemma loadavg_block_effect (m : Server.St unit) (fr : frame (dict json)) :
  m = try_except
        (text <- Server.read_file W "/proc/loadavg" ;;
         let parts := Py.split text in
         p0 <- lift (index parts 0) ;;
         load_1 <- lift (float_of_str W p0) ;;
         Server.set_stat "load_1" (JFloat load_1) ;;;
         p1 <- lift (index parts 1) ;;
         load_5 <- lift (float_of_str W p1) ;;
         Server.set_stat "load_5" (JFloat load_5))
        (fun _ => ret tt) ->
  let l := locals fr in
  let l' := locals (snd (m fr)) in
  l' = l \/
  (exists x, l' = dict_set "load_1" (JFloat x) l) \/
  (exists x y, l' = dict_set "load_5" (JFloat y)
                      (dict_set "load_1" (JFloat x) l)).
Proof.
  intros -> l l'. subst l l'.
  unfold Server.read_file, Server.set_stat. unfold_eff.
  cbn [locals trace fst snd].
  destruct (open_read W "/proc/loadavg") as [text|e]; cbn [snd locals];
    [|left; reflexivity].
  destruct (index (Py.split text) 0) as [p0|e]; cbn [snd locals];
    [|left; reflexivity].
  destruct (float_of_str W p0) as [x|e]; cbn [snd locals];
    [|left; reflexivity].
  destruct (index (Py.split text) 1) as [p1|e]; cbn [snd locals];
    [|right; left; eexists; reflexivity].
  destruct (float_of_str W p1) as [y|e]; cbn [snd locals];
    [|right; left; eexists; reflexivity].
  right. right. eexists. eexists. reflexivity.
Qed.

(** What lines 128-135 may do to the mapping. *)
Lemma uptime_block_effect (m : Server.St unit) (fr : frame (dict json)) :
  m = try_except
        (text <- Server.read_file W "/proc/uptime" ;;
         p0 <- lift (index (Py.split text) 0) ;;
         up_secs <- lift (float_of_str W p0) ;;
         Server.set_stat "uptime_str" (JStr (Server.uptime_str_proc up_secs)))
        (fun _ => ret tt) ->
  let l := locals fr in
  let l' := locals (snd (m fr)) in
  l' = l \/ exists s, l' = dict_set "uptime_str" (JStr s) l.
Proof.
  intros -> l l'. subst l l'.
  unfold Server.read_file, Server.set_stat. unfold_eff.
  cbn [locals trace fst snd].
  destruct (open_read W "/proc/uptime") as [text|e]; cbn [snd locals];
    [|left; reflexivity].
  destruct (index (Py.split text) 0) as [p0|e]; cbn [snd locals];
    [|left; reflexivity].
  destruct (float_of_str W p0) as [x|e]; cbn [snd locals];
    [|left; reflexivity].
  right. eexists. reflexivity.
Qed.

End Fallback.

(** X7.  Without [psutil] the adapter returns in every world, whatever the
    pseudo-files and the thermal zones do; the keys of the mapping are those
    of [load_1], [load_5], [uptime_str], [temp_c] that could be set, in this
    order, and [load_5] is present only together with [load_1]. *)
Theorem fallback_metrics (W : world) (Hno : HAS_PSUTIL W = false) :
  exists stats,
    fst (run [] (Server.get_server_stats W)) = Ok stats /\
    keys stats = filter (has_key stats) fallback_keys /\
    (has_key stats "load_5" = true -> has_key stats "load_1" = true).
Proof.
  unfold run, Server.get_server_stats. rewrite Hno.
  unfold Server.collect_proc.
  unfold bind at 1. unfold bind at 1. unfold bind at 1.
  match goal with
  | |- context [try_except ?m ?h ?fr] =>
      pose proof (try_except_returns m fr) as H1;
      pose proof (@loadavg_block_effect W (try_except m h) fr eq_refl) as E1;
      destruct (try_except m h fr) as [r1 fr1]
  end.
  cbn [fst snd locals] in H1, E1. subst r1.
  match goal with
  | |- context [try_except ?m ?h ?fr] =>
      pose proof (try_except_returns m fr) as H2;
      pose proof (@uptime_block_effect W (try_except m h) fr eq_refl) as E2;
      destruct (try_except m h fr) as [r2 fr2]
  end.
  cbn [fst snd locals] in H2, E2. subst r2.
  unfold bind.
  destruct (probe_temperature_effect W fr2) as [H3 E3].
  destruct (Server.probe_temperature W fr2) as [r3 fr3].
  cbn [fst snd] in H3, E3. subst r3.
  unfold get_locals. cbn [fst].
  exists (locals fr3). split; [reflexivity|].
  destruct E1 as [E1 | [(x & E1) | (x & y & E1)]];
    destruct E2 as [E2 | (s & E2)];
    destruct E3 as [E3 | (n & _ & E3)];
    rewrite E3, E2, E1; split; first [reflexivity | intro H; exact H
                                     | intro H; discriminate H].
Qed.

(** The sample host without the optional libraries. *)
Lemma fallback_metrics_witness :
  exists stats,
    fst (run [] (Server.get_server_stats Sample.bare)) = Ok stats /\
    keys stats = ["load_1"; "load_5"; "uptime_str"; "temp_c"].
Proof.
  destruct (@fallback_metrics Sample.bare eq_refl) as (stats & Hrun & _).
  exists stats. split; [exact Hrun|].
  revert Hrun. vm_compute. intros [= <-]. reflexivity.
Defined.

(** ** Parsing and ordering the container listing *)

Section UpPrefix.

Lemma lower_char_u (c : ascii) :
  Ascii.eqb (lower_char c) "u" = Ascii.eqb c "u" || Ascii.eqb c "U".
Proof. destruct c as [[] [] [] [] [] [] [] []]; reflexivity. Qed.

Lemma lower_char_p (c : ascii) :
  Ascii.eqb (lower_char c) "p" = Ascii.eqb c "p" || Ascii.eqb c "P".
Proof. destruct c as [[] [] [] [] [] [] [] []]; reflexivity. Qed.

Lemma startswith_up (s : string) :
  startswith (lower s) "up" = begins_with_up s.
Proof.
  unfold startswith, begins_with_up.
  destruct s as [|c1 [|c2 rest]]; cbn [lower String.prefix].
  - reflexivity.
  - destruct (ascii_dec "u" (lower_char c1)); reflexivity.
  - rewrite <- lower_char_u, <- lower_char_p.
    destruct (ascii_dec "u" (lower_char c1)) as [<-|Hu].
    + destruct (ascii_dec "p" (lower_char c2)) as [<-|Hp];
        [destruct rest; reflexivity|].
      cbn. symmetry. apply Ascii.eqb_neq. congruence.
    + symmetry. apply andb_false_iff. left. apply Ascii.eqb_neq. congruence.
Qed.

End UpPrefix.

(** X8.  A line without the separator is listed under its stripped text as
    [DOWN]; a line with a separator is listed under the stripped text before
    the first separator, and it counts as running exactly when the stripped
    text after it begins with [up] in any letter case. *)
Theorem running_iff_up_prefix (line : string) :
  match split_once "|" line with
  | None =>
      Docker.parse_line line
      = {| Docker.name := strip line; Docker.status := "DOWN";
           Docker.running := false |}
  | Some (before, after) =>
      Docker.parse_line line
      = {| Docker.name := strip before;
           Docker.status := if begins_with_up (strip after)
                            then "UP" else "DOWN";
           Docker.running := begins_with_up (strip after) |}
  end.
Proof.
  unfold Docker.parse_line, split1.
  destruct (split_once "|" line) as [[before after]|]; cbn [nth].
  - rewrite startswith_up. reflexivity.
  - reflexivity.
Qed.

Section UniqueOrder.

Lemma parse_lines_parsed (lines : list string) :
  Forall parsed_entry (Docker.parse_lines lines).
Proof.
  induction lines as [|line rest IH]; cbn; [constructor|].
  destruct (is_empty (strip line)); [exact IH|].
  constructor; [|exact IH].
  unfold parsed_entry, Docker.parse_line. cbn. reflexivity.
Qed.

(** Two parsed entries with the same key are the same entry. *)
Lemma key_le_antisym (c1 c2 : Docker.container) :
  parsed_entry c1 -> parsed_entry c2 ->
  Docker.key_le (Docker.sort_key c1) (Docker.sort_key c2) = true ->
  Docker.key_le (Docker.sort_key c2) (Docker.sort_key c1) = true ->
  c1 = c2.
Proof.
  destruct c1 as [n1 s1 r1], c2 as [n2 s2 r2].
  unfold parsed_entry, Docker.key_le, Docker.sort_key. cbn.
  intros -> -> H12 H21.
  destruct r1, r2; cbn in H12, H21; try discriminate;
    rewrite (String.leb_antisym _ _ H12 H21); reflexivity.
Qed.

(** Two sorted lists with the same elements are equal when the order is
    antisymmetric on these elements. *)
Lemma sorted_unique {A : Type} (R : A -> A -> Prop) (P : A -> Prop)
    (antisym : forall x y, P x -> P y -> R x y -> R y x -> x = y)
    (l1 : list A) :
  forall l2, StronglySorted R l1 -> StronglySorted R l2 ->
             Forall P l1 -> Permutation l1 l2 -> l1 = l2.
Proof.
  induction l1 as [|x l1 IH]; intros l2 Hs1 Hs2 HP Hperm.
  - apply Permutation_nil in Hperm. congruence.
  - destruct l2 as [|y l2];
      [apply Permutation_sym, Permutation_nil in Hperm; discriminate|].
    inversion Hs1 as [|? ? Hs1' Hx]; subst.
    inversion Hs2 as [|? ? Hs2' Hy]; subst.
    inversion HP as [|? ? HPx HP']; subst.
    assert (HP2 : Forall P (y :: l2))
      by (eapply Permutation_Forall; eassumption).
    inversion HP2 as [|? ? HPy _]; subst.
    assert (Hxy : x = y).
    { assert (Hin1 : In x (y :: l2))
        by (eapply Permutation_in; [exact Hperm | left; reflexivity]).
      assert (Hin2 : In y (x :: l1))
        by (eapply Permutation_in;
            [apply Permutation_sym; exact Hperm | left; reflexivity]).
      destruct Hin1 as [Heq | Hin1]; [congruence|].
      destruct Hin2 as [Heq | Hin2]; [congruence|].
      rewrite Forall_forall in Hx, Hy.
      apply antisym; auto. }
    subst y. f_equal.
    apply IH; try assumption.
    eapply Permutation_cons_inv. exact Hperm.
Qed.

End UniqueOrder.

(** X9.  The returned sequence depends only on which entries the listing
    holds, not on the order of its lines: two listings whose parsed entries
    are rearrangements of each other give the same sequence. *)
Theorem listing_order_irrelevant (out1 out2 : string)
    (Hperm : Permutation (Docker.parse_lines (splitlines (strip out1)))
                         (Docker.parse_lines (splitlines (strip out2)))) :
  Docker.list_containers out1 = Docker.list_containers out2.
Proof.
  unfold Docker.list_containers.
  set (l1 := Docker.parse_lines (splitlines (strip out1))) in *.
  set (l2 := Docker.parse_lines (splitlines (strip out2))) in *.
  apply (@sorted_unique _
           (fun a b => Docker.key_le (Docker.sort_key a) (Docker.sort_key b)
                       = true)
           parsed_entry key_le_antisym).
  - apply sorted_sorted; [apply key_le_total | apply key_le_trans].
  - apply sorted_sorted; [apply key_le_total | apply key_le_trans].
  - eapply Permutation_Forall;
      [apply Permutation_sym, sorted_perm | apply parse_lines_parsed].
  - eapply perm_trans; [apply sorted_perm|].
    eapply perm_trans; [exact Hperm|]. apply Permutation_sym, sorted_perm.
Qed.

(** The two orders of a listing of two containers. *)
Lemma listing_order_irrelevant_witness :
  Docker.list_containers ("web|Up 2 days" ^^ Sample.nl ^^ "db|Exited (1)")
  = Docker.list_containers ("db|Exited (1)" ^^ Sample.nl ^^ "web|Up 2 days").
Proof.
  apply listing_order_irrelevant.
  vm_compute. apply perm_swap.
Defined.

(** X10.  When the listing arrives, the adapter returns the empty list
    exactly when the listing has no line other than blank ones; it does not
    return the error entry then. *)
Theorem empty_listing (W : world) (out : string)
    (Hout : docker_ps W = Ok out) :
  fst (run tt (Docker.get_docker_containers W)) = Ok []
  <-> Forall (fun line => strip line = EmptyString) (splitlines (strip out)).
Proof.
  rewrite get_docker_containers_run, Hout. cbn [fst].
  unfold Docker.list_containers.
  set (lines := splitlines (strip out)).
  assert (Hparse : Docker.parse_lines lines = []
                   <-> Forall (fun line => strip line = EmptyString) lines).
  { induction lines as [|line rest IH]; cbn.
    - split; [constructor | reflexivity].
    - destruct (strip line) eqn:Hs; cbn.
      + rewrite IH. split; intro H.
        * constructor; [exact Hs | exact H].
        * inversion H; assumption.
      + split; [discriminate|]. intro H. inversion H. congruence. }
  rewrite <- Hparse. split.
  - intros [= H].
    apply Permutation_nil. rewrite <- H. apply sorted_perm.
  - intros ->. reflexivity.
Qed.

(** A listing of two blank lines. *)
Lemma empty_listing_witness :
  fst (run tt (Docker.get_docker_containers
                 (Vary.with_docker_ps (Ok (Sample.nl ^^ "  " ^^ Sample.nl))
                    Sample.host))) = Ok [].
Proof.
  apply (@empty_listing
           (Vary.with_docker_ps (Ok (Sample.nl ^^ "  " ^^ Sample.nl))
              Sample.host)
           (Sample.nl ^^ "  " ^^ Sample.nl) eq_refl).
  vm_compute. constructor.
Defined.

(** ** The run of [main] *)



(** X12.  When the output file cannot be opened, the exception of [open]
    leaves [main]: the three adapters have run (the session with the
    filtering service is closed), nothing is written and the closing line is
    not printed. *)
Theorem unwritable_output_raises (W : world) (server : dict json) (e : exn)
    (Hserver : fst (run [] (Server.get_server_stats W)) = Ok server)
    (Hopen : open_write W (OUTPUT_FILE W) = Some e) :
  run tt (Publisher.main W) =
  (Raise e,
   snd (run JNull (Pihole.get_pihole_stats W))
   ++ snd (run [] (Server.get_server_stats W))
   ++ [EvDocker]).
Proof.
  pose proof (main_run W) as Hmain. cbv zeta in Hmain.
  rewrite collect_run in Hmain.
  destruct (get_pihole_stats_returns W) as [pihole Hp].
  pose proof (get_docker_containers_run W) as Hd.
  destruct (run JNull (Pihole.get_pihole_stats W)) as [rp tp].
  destruct (run [] (Server.get_server_stats W)) as [rs ts].
  destruct (run tt (Docker.get_docker_containers W)) as [rc tc].
  cbn [fst snd] in *. subst rp rs. injection Hd as -> ->.
  rewrite Hmain, Hopen. reflexivity.
Qed.

(** The output directory of the sample host is read-only. *)
Lemma unwritable_output_raises_witness :
  fst (run tt (Publisher.main
                 (Vary.with_open_write
                    (fun _ => Some (External "[Errno 30] Read-only file system"))
                    Sample.host)))
  = Raise (External "[Errno 30] Read-only file system").
Proof.
  assert (Hserver : exists server,
             fst (run [] (Server.get_server_stats
                            (Vary.with_open_write
                               (fun _ => Some (External
                                    "[Errno 30] Read-only file system"))
                               Sample.host))) = Ok server)
    by (eexists; vm_compute; reflexivity).
  destruct Hserver as [server Hserver].
  rewrite (@unwritable_output_raises _ server _ Hserver eq_refl).
  reflexivity.
Defined.

(** ** The time of the snapshot *)

Section Clock.

Lemma lower_append (a b : string) : lower (a ^^ b) = lower a ^^ lower b.
Proof. induction a as [|c a IH]; cbn; [|rewrite IH]; reflexivity. Qed.

Lemma below_60 (P : Z -> Prop) :
  (forall n : nat, (n < 60)%nat -> P (Z.of_nat n)) ->
  forall z, 0 <= z < 60 -> P z.
Proof.
  intros H z Hz. rewrite <- (Z2Nat.id z) by lia. apply H. lia.
Qed.

Lemma lower_two_digits (z : Z) :
  0 <= z < 60 ->
  lower (Publisher.two_digits z) = Publisher.two_digits z.
Proof.
  revert z. apply below_60. intros n Hn.
  do 60 (destruct n as [|n]; [vm_compute; reflexivity|]). lia.
Qed.

Lemma lower_hour (z : Z) :
  0 <= z < 60 -> lower (str_of_int z) = str_of_int z.
Proof.
  revert z. apply below_60. intros n Hn.
  do 60 (destruct n as [|n]; [vm_compute; reflexivity|]). lia.
Qed.

End Clock.

(** X13.  The text under [updated] is the time of day of the UTC clock
    shifted by the configured number of hours, on a twelve-hour dial: an hour
    from 1 to 12 without a leading zero (12 for midnight and for noon), a
    colon, the minute in two digits, a space and [am] before noon or [pm]
    from noon on, in lower case.  It depends on the clock only through the
    time of day. *)
Theorem updated_str_format (now offset_hours : Z) :
  let local_now := now + 3600 * offset_hours in
  let hour := (local_now / 3600) mod 24 in
  let minute := (local_now / 60) mod 60 in
  (exists h12,
     1 <= h12 <= 12 /\ h12 mod 12 = hour mod 12 /\
     Publisher.updated_str now offset_hours
     = str_of_int h12 ^^ ":" ^^ Publisher.two_digits minute
         ^^ (if hour <? 12 then " am" else " pm")) /\
  0 <= hour < 24 /\ 0 <= minute < 60 /\
  Publisher.updated_str (now + 86400) offset_hours
  = Publisher.updated_str now offset_hours.
Proof.
  intros local_now hour minute.
  assert (Hh : 0 <= hour < 24) by (apply Z.mod_pos_bound; lia).
  assert (Hm : 0 <= minute < 60) by (apply Z.mod_pos_bound; lia).
  split; [|split; [exact Hh|split; [exact Hm|]]].
  - exists (if hour mod 12 =? 0 then 12 else hour mod 12).
    pose proof (Z.mod_pos_bound hour 12 ltac:(lia)) as H12.
    split; [|split].
    + destruct (Z.eqb_spec (hour mod 12) 0); lia.
    + destruct (Z.eqb_spec (hour mod 12) 0) as [E|E].
      * rewrite E. reflexivity.
      * apply Z.mod_mod. lia.
    + unfold Publisher.updated_str. fold local_now. fold hour. fold minute.
      rewrite !lower_append, lower_two_digits by exact Hm.
      rewrite lower_hour
        by (destruct (Z.eqb_spec (hour mod 12) 0); lia).
      destruct (hour <? 12); reflexivity.
  - unfold Publisher.updated_str.
    replace (now + 86400 + 3600 * offset_hours)
      with (local_now + 86400) by (unfold local_now; lia).
    fold local_now.
    replace ((local_now + 86400) / 3600 mod 24) with hour.
    + replace ((local_now + 86400) / 60 mod 60) with minute; [reflexivity|].
      unfold minute.
      replace (local_now + 86400) with (local_now + 1440 * 60) by lia.
      rewrite Z.div_add by lia.
      replace (local_now / 60 + 1440) with (local_now / 60 + 24 * 60) by lia.
      rewrite Z.mod_add by lia. reflexivity.
    + unfold hour.
      replace (local_now + 86400) with (local_now + 24 * 3600) by lia.
      rewrite Z.div_add by lia.
      replace (local_now / 3600 + 24) with (local_now / 3600 + 1 * 24) by lia.
      rewrite Z.mod_add by lia. reflexivity.
Qed.

(** ** The blocked percentage *)

(** X14.  When the summary holds a float under [queries.percent_blocked],
    the adapter reports it under [ads_percentage_today] as a multiple of one
    hundredth that differs from it by at most half a hundredth. *)
Theorem percentage_rounded_to_hundredths
    (W : world) (sid : json) (resp : response) (s q : dict json) (x : Q)
    (Hreq : HAS_REQUESTS W = true)
    (Hlogin : fst (run JNull (Pihole.authenticate W)) = Ok sid)
    (Hget : requests_get W (Pihole.base W ^^ "/stats/summary") sid = Ok resp)
    (Hbody : response_json resp = Ok (JObj s))
    (Hq : dict_get "queries" s = Some (JObj q))
    (Hg : object_or_missing s "gravity")
    (Hc : object_or_missing s "clients")
    (Hpct : dict_get "percent_blocked" q = Some (JFloat x)) :
  exists (d : dict json) (y : Q) (k : Z),
    fst (run JNull (Pihole.get_pihole_stats W)) = Ok (JObj d) /\
    dict_get "ads_percentage_today" d = Some (JFloat y) /\
    (y == inject_Z k / 100)%Q /\
    (Qabs (y - x) <= 1 # 200)%Q.
Proof.
  destruct (round_float_spec x 2) as [k [Hk [Hk1 Hk2]]].
  change (inject_Z (10 ^ Z.of_nat 2)) with 100%Q in *.
  assert (Hobj : object_or_missing s "queries")
    by (unfold object_or_missing; rewrite Hq; exact I).
  destruct (get_counter s "queries" "total" (JInt 0) Hobj) as [q0 [Eq Et]].
  assert (q0 = JObj q) by (unfold Py.get in Eq; rewrite Hq in Eq; congruence).
  subst q0.
  destruct (get_counter s "gravity" "domains_being_blocked" (JInt 0) Hg)
    as [g [Eg Ed]].
  destruct (get_counter s "clients" "active" (JInt 0) Hc) as [c [Ec Ea]].
  assert (Hrun : exists total blocked forwarded cached,
             fst (run JNull (Pihole.get_pihole_stats W))
             = Ok (JObj [("queries_today", total);
                         ("ads_blocked_today", blocked);
                         ("ads_percentage_today", JFloat (round_float x 2));
                         ("domains_being_blocked",
                          counter s "gravity" "domains_being_blocked" (JInt 0));
                         ("queries_forwarded", forwarded);
                         ("queries_cached", cached);
                         ("unique_clients",
                          counter s "clients" "active" (JInt 0))])).
  { rewrite get_pihole_stats_run, Hreq, Hlogin. cbn [negb fst].
    unfold Pihole.fetch_summary, Pihole.http_get. unfold_eff.
    cbn [fst snd locals trace]. rewrite Hget. cbn [fst snd]. rewrite Hbody.
    rewrite Eq, Eg, Ec, Ed, Ea.
    unfold Py.get. rewrite Hpct.
    destruct (dict_get "total" q), (dict_get "blocked" q),
      (dict_get "forwarded" q), (dict_get "cached" q);
      cbn [round_value]; do 4 eexists; reflexivity. }
  destruct Hrun as (total & blocked & forwarded & cached & Hrun).
  eexists. exists (round_float x 2), k.
  split; [exact Hrun|]. split; [reflexivity|]. split; [exact Hk|].
  apply Qabs_Qle_condition. rewrite Hk.
  unfold Qdiv. change (/ 100)%Q with (1 # 100)%Q. split; lra.
Qed.

(** The sample host: 46.21849 is reported as 46.22. *)
Lemma percentage_rounded_to_hundredths_witness :
  exists (d : dict json) (y : Q),
    fst (run JNull (Pihole.get_pihole_stats Sample.host)) = Ok (JObj d) /\
    dict_get "ads_percentage_today" d = Some (JFloat y) /\
    (Qabs (y - (4621849 # 100000)) <= 1 # 200)%Q.
Proof.
  destruct (@percentage_rounded_to_hundredths Sample.host
              (JStr "vFA+EP4MQ5JJvJg+3Q2Jnw=")
              {| raise_for_status := None;
                 response_json := Ok Sample.summary_body |}
              _ _ (4621849 # 100000)
              eq_refl eq_refl eq_refl eq_refl eq_refl I I eq_refl)
    as (d & y & k & Hrun & Hpct & _ & Hnear).
  exists d, y. split; [exact Hrun|]. split; [exact Hpct | exact Hnear].
Defined.

(** ** A failing [psutil] call *)

(** X15.  With [psutil] installed, the first of its five calls that raises
    ends [get_server_stats] with that exception: no later metric is
    collected and the thermal zones are not probed (the only calls made are
    calls of [psutil]). *)
Theorem psutil_failure_escapes (W : world) (e : exn)
    (Hpsutil : HAS_PSUTIL W = true)
    (Herr : first_psutil_error W = Some e) :
  fst (run [] (Server.get_server_stats W)) = Raise e /\
  forallb is_psutil (snd (run [] (Server.get_server_stats W))) = true.
Proof.
  unfold first_psutil_error in Herr.
  unfold run, Server.get_server_stats. rewrite Hpsutil.
  unfold Server.collect_psutil, Server.psutil, Server.set_stat.
  unfold_eff. cbn [locals trace app fst snd].
  destruct (psutil_cpu_percent W) as [cpu|e1];
    [|injection Herr as ->; split; reflexivity].
  destruct (psutil_virtual_memory W) as [vm|e2];
    [|injection Herr as ->; split; reflexivity].
  destruct (psutil_disk_usage W "/") as [du|e3];
    [|injection Herr as ->; split; reflexivity].
  destruct (psutil_getloadavg W) as [la|e4];
    [|injection Herr as ->; split; reflexivity].
  destruct (psutil_boot_time W) as [bt|e5];
    [discriminate Herr|injection Herr as ->; split; reflexivity].
Qed.

(** The root file system of the host cannot be read. *)
Lemma psutil_failure_escapes_witness :
  fst (run [] (Server.get_server_stats
                 (Vary.with_psutil_disk_usage
                    (fun _ => Raise (External "[Errno 5] Input/output error"))
                    Sample.host)))
  = Raise (External "[Errno 5] Input/output error").
Proof.
  exact (proj1 (@psutil_failure_escapes
                  (Vary.with_psutil_disk_usage
                     (fun _ => Raise (External "[Errno 5] Input/output error"))
                     Sample.host)
                  (External "[Errno 5] Input/output error")
                  eq_refl eq_refl)).
Defined.

(** ** [register-device.py] *)

Section RegisterFacts.
Variable H : Vss.host.

Lemma bind_print {B : Type} (line : string) (k : unit -> Vss.M B)
    (tr : list Vss.event) :
  Vss.bind (Vss.print line) k tr = k tt (tr ++ [Vss.Printed line]).
Proof. reflexivity. Qed.

Lemma bind_lift {A B : Type} (r : result A) (k : A -> Vss.M B)
    (tr : list Vss.event) :
  Vss.bind (Vss.lift r) k tr =
  match r with
  | Ok a => k a tr
  | Raise e => (Raise e, tr)
  end.
Proof. unfold Vss.bind, Vss.lift. destruct r; reflexivity. Qed.

(** One call: one request, and the reply read by [outcome_of]. *)
Lemma api_call_run (method path : string) (payload : json)
    (tr : list Vss.event) :
  let body := if truthy payload then Vss.json_dumps H payload
              else EmptyString in
  let req := RegisterDevice.signed H method path body
               (Vss.clock H (length tr)) in
  RegisterDevice.api_call H method path payload tr =
  (outcome_of H (Vss.urlopen H req), tr ++ [Vss.Sent req]).
Proof.
  intros body req.
  unfold RegisterDevice.api_call, RegisterDevice.sign, RegisterDevice.send.
  fold body. unfold Vss.bind. fold req.
  unfold outcome_of.
  destruct (Vss.urlopen H req) as [status raw|code msg|e]; try reflexivity.
  destruct (is_empty raw); [reflexivity|].
  unfold Vss.lift, Vss.ret.
  destruct (Vss.json_loads H raw); reflexivity.
Qed.

Lemma bind_api_call {B : Type} (method path : string) (payload : json)
    (k : Z * json -> Vss.M B) (tr : list Vss.event) :
  exists req,
    Vss.method req = Some method /\
    Vss.url req = RegisterDevice.BASE H ^^ path /\
    Vss.bind (RegisterDevice.api_call H method path payload) k tr =
    match outcome_of H (Vss.urlopen H req) with
    | Ok a => k a (tr ++ [Vss.Sent req])
    | Raise e => (Raise e, tr ++ [Vss.Sent req])
    end.
Proof.
  exists (RegisterDevice.signed H method path
            (if truthy payload then Vss.json_dumps H payload else EmptyString)
            (Vss.clock H (length tr))).
  split; [reflexivity|]. split; [reflexivity|].
  unfold Vss.bind. rewrite api_call_run. reflexivity.
Qed.

Lemma sent_app (tr1 tr2 : list Vss.event) :
  sent (tr1 ++ tr2) = sent tr1 ++ sent tr2.
Proof. apply flat_map_app. Qed.

Lemma verify_sent (session : json) (tr : list Vss.event) :
  sent (snd (RegisterDevice.verify H session tr)) = sent tr.
Proof.
  unfold RegisterDevice.verify.
  destruct (truthy session); [|reflexivity].
  rewrite bind_lift.
  destruct (Py.get session "Backend" (JObj [])) as [backend|e];
    [|reflexivity].
  rewrite bind_lift.
  destruct (Py.get backend "Fields" (JObj [])) as [fields|e]; [|reflexivity].
  rewrite bind_lift.
  destruct (Py.get fields "url" (JStr EmptyString)) as [saved|e];
    [|reflexivity].
  destruct (truthy saved); unfold Vss.bind, Vss.print; cbn [snd];
    rewrite ?sent_app; cbn [sent flat_map app]; rewrite ?app_nil_r;
    reflexivity.
Qed.

End RegisterFacts.

(** X16.  [api_call] sends exactly one request, for the given method and
    path, signed over the method, the path and the time but not over the
    body, with a body and a content type only for a payload that counts as
    true.  A response gives its status with the decoded body ([None] for an
    empty one), an [HTTPError] gives its code with [None], and any other
    failure of the request or of the decoding is raised. *)
Theorem api_call_answers (H : Vss.host) (method path : string)
    (payload : json) (tr : list Vss.event) :
  let ts := str_of_int (Vss.clock H (length tr)) in
  exists req,
    RegisterDevice.api_call H method path payload tr
    = (outcome_of H (Vss.urlopen H req), tr ++ [Vss.Sent req]) /\
    Vss.method req = Some method /\
    Vss.url req = RegisterDevice.BASE H ^^ path /\
    dict_get "Authorization" (Vss.headers req)
    = Some (Vss.API_KEY H ^^ ":" ^^ ts ^^ ":"
            ^^ Vss.hmac_sha256 H (Vss.API_SECRET H)
                 (method ^^ " /api" ^^ path ^^ " " ^^ ts)) /\
    (truthy payload = false ->
     Vss.data req = None /\ keys (Vss.headers req) = ["Authorization"]) /\
    (truthy payload = true -> Vss.json_dumps H payload <> EmptyString ->
     Vss.data req = Some (Vss.json_dumps H payload) /\
     keys (Vss.headers req) = ["Authorization"; "Content-Type"]).
Proof.
  intro ts.
  exists (RegisterDevice.signed H method path
            (if truthy payload then Vss.json_dumps H payload else EmptyString)
            (Vss.clock H (length tr))).
  split; [apply api_call_run|].
  split; [reflexivity|]. split; [reflexivity|].
  split.
  { unfold RegisterDevice.signed. cbn [Vss.headers].
    destruct (is_empty _); reflexivity. }
  split.
  - intros ->. split; reflexivity.
  - intros -> Hbody. unfold RegisterDevice.signed. cbn [Vss.data Vss.headers].
    destruct (Vss.json_dumps H payload); [contradiction|].
    split; reflexivity.
Qed.

(** X17.  When the device check does not give status 200 (an [HTTPError]
    code or another status), [register-device.py] changes nothing: the check
    is its only request, it prints the status and then the hint line with
    the placeholders [{VSS_HOST}] and [{VSS_PORT}] left as they are written,
    and it ends normally. *)
Theorem missing_device_stops_registration
    (H : Vss.host) (status : Z) (device : json)
    (Hcheck : outcome_of H
                (Vss.urlopen H
                   (RegisterDevice.signed H "GET"
                      ("/device/" ^^ lower (Vss.DEVICE_UUID H)) EmptyString
                      (Vss.clock H 1)))
              = Ok (status, device))
    (Hstatus : status <> 200) :
  let uuid := lower (Vss.DEVICE_UUID H) in
  Vss.run (RegisterDevice.main H) =
  (Ok tt,
   [Vss.Printed ("Checking device " ^^ uuid ^^ "...");
    Vss.Sent (RegisterDevice.signed H "GET" ("/device/" ^^ uuid) EmptyString
                (Vss.clock H 1));
    Vss.Printed ("  Device not found (HTTP " ^^ str_of_int status
                 ^^ "). Is it connected to VSS?");
    Vss.Printed "  Check VSS admin: http://{VSS_HOST}:{VSS_PORT}"]).
Proof.
  intro uuid. unfold Vss.run, RegisterDevice.main. fold uuid.
  rewrite bind_print. unfold Vss.bind at 1. rewrite api_call_run.
  cbn [truthy app length]. fold uuid in Hcheck. rewrite Hcheck.
  destruct (Z.eqb_spec status 200) as [E|_]; [contradiction|].
  cbn [negb]. reflexivity.
Qed.

(** The server does not know the device. *)
Lemma missing_device_stops_registration_witness :
  sent (snd (Vss.run (RegisterDevice.main
                        (SampleVss.always
                           (Vss.HTTPError 404 "HTTP Error 404: Not Found")))))
  = [(Some "GET",
      "http://10.0.0.5:8081/api/device/2a003500-0f47-3130-3830-333200000000")].
Proof.
  rewrite (@missing_device_stops_registration
             (SampleVss.always (Vss.HTTPError 404 "HTTP Error 404: Not Found"))
             404 JNull eq_refl ltac:(discriminate)).
  reflexivity.
Defined.

(** X18.  A device check that gives status 200 without a body ends
    [register-device.py] with an [AttributeError], right after the check:
    nothing more is sent or printed. *)
Theorem empty_device_answer_raises (H : Vss.host)
    (Hcheck : Vss.urlopen H
                (RegisterDevice.signed H "GET"
                   ("/device/" ^^ lower (Vss.DEVICE_UUID H)) EmptyString
                   (Vss.clock H 1))
              = Vss.Response 200 EmptyString) :
  let uuid := lower (Vss.DEVICE_UUID H) in
  Vss.run (RegisterDevice.main H) =
  (Raise (AttributeError "'NoneType' object has no attribute 'get'"),
   [Vss.Printed ("Checking device " ^^ uuid ^^ "...");
    Vss.Sent (RegisterDevice.signed H "GET" ("/device/" ^^ uuid) EmptyString
                (Vss.clock H 1))]).
Proof.
  intro uuid. unfold Vss.run, RegisterDevice.main. fold uuid.
  rewrite bind_print. unfold Vss.bind at 1. rewrite api_call_run.
  cbn [truthy app length]. fold uuid in Hcheck. rewrite Hcheck.
  reflexivity.
Qed.

(** The server answers 200 with an empty body. *)
Lemma empty_device_answer_raises_witness :
  fst (Vss.run (RegisterDevice.main
                  (SampleVss.always (Vss.Response 200 EmptyString))))
  = Raise (AttributeError "'NoneType' object has no attribute 'get'").
Proof.
  rewrite (@empty_device_answer_raises
             (SampleVss.always (Vss.Response 200 EmptyString)) eq_refl).
  reflexivity.
Defined.

Section RegisterOrder.
Variable H : Vss.host.

Lemma sent_print (tr : list Vss.event) (line : string) :
  sent (tr ++ [Vss.Printed line]) = sent tr.
Proof. rewrite sent_app. cbn. apply app_nil_r. Qed.

Lemma sent_request (tr : list Vss.event) (req : Vss.request) :
  sent (tr ++ [Vss.Sent req]) = sent tr ++ [(Vss.method req, Vss.url req)].
Proof. rewrite sent_app. reflexivity. Qed.

End RegisterOrder.

Ltac step_api H :=
  match goal with
  | Hrun : context [Vss.bind (RegisterDevice.api_call H ?m ?p ?pl) ?k ?tr]
    |- _ =>
      let req := fresh "req" in
      let Hm := fresh "Hm" in
      let Hu := fresh "Hu" in
      let E := fresh "E" in
      let st := fresh "st" in
      let v := fresh "v" in
      let e := fresh "e" in
      destruct (bind_api_call H m p pl k tr) as (req & Hm & Hu & E);
      rewrite E in Hrun; clear E;
      destruct (outcome_of H (Vss.urlopen H req)) as [[st v]|e]
  end.

(** The requests of a record of events that is known up to the lines
    printed by [verify]. *)
Ltac read_sent :=
  repeat first [ rewrite sent_print | rewrite sent_request
               | match goal with
                 | Hv : sent ?t = _ |- context [sent ?t] => rewrite Hv
                 end ];
  cbn [sent flat_map app];
  repeat match goal with
         | Hm : Vss.method ?r = _ |- context [Vss.method ?r] => rewrite Hm
         | Hu : Vss.url ?r = _ |- context [Vss.url ?r] => rewrite Hu
         end.

Ltac stopped_after n :=
  match goal with
  | Hrun : (_, _) = (_, _) |- _ => injection Hrun as <- <-
  end;
  read_sent;
  split; [exists n; split; [lia|reflexivity]
         |let Hok := fresh in intro Hok; discriminate Hok].

(** X19.  In every run of [register-device.py] the requests sent are an
    initial part of the five steps: check the device, name it, save the
    session, read the session back, restart.  A run that ends normally made
    the check alone or all five, whatever status the other four steps got:
    a rejected change does not stop the script. *)
Theorem register_requests_in_order (H : Vss.host) :
  let steps := register_steps H (lower (Vss.DEVICE_UUID H)) in
  let tr := snd (Vss.run (RegisterDevice.main H)) in
  (exists n, (1 <= n <= 5)%nat /\ sent tr = firstn n steps) /\
  (fst (Vss.run (RegisterDevice.main H)) = Ok tt ->
   sent tr = firstn 1 steps \/ sent tr = steps).
Proof.
  intros steps tr. subst tr.
  destruct (Vss.run (RegisterDevice.main H)) as [r tr] eqn:Hrun.
  cbn [fst snd].
  unfold Vss.run, RegisterDevice.main in Hrun.
  set (uuid := lower (Vss.DEVICE_UUID H)) in *.
  rewrite bind_print in Hrun.
  step_api H; [|stopped_after 1%nat].
  destruct (negb (st =? 200)).
  { rewrite bind_print in Hrun. unfold Vss.print in Hrun.
    injection Hrun as <- <-. read_sent.
    split; [exists 1%nat; split; [lia|reflexivity]|].
    intros _. left. reflexivity. }
  rewrite bind_lift in Hrun.
  destruct (Py.get v "State" (JStr "unknown")) as [state|e];
    [|stopped_after 1%nat].
  rewrite !bind_print in Hrun.
  step_api H; [|stopped_after 2%nat].
  rewrite !bind_print in Hrun.
  step_api H; [|stopped_after 3%nat].
  rewrite !bind_print in Hrun.
  step_api H; [|stopped_after 4%nat].
  unfold Vss.bind at 1 in Hrun. cbn [snd] in Hrun.
  match type of Hrun with
  | context [RegisterDevice.verify H ?s ?t] =>
      pose proof (verify_sent H s t) as Hv;
      destruct (RegisterDevice.verify H s t) as [[[]|e] tv]; cbn [snd] in Hv
  end; [|stopped_after 4%nat].
  rewrite bind_print in Hrun.
  step_api H; [|stopped_after 5%nat].
  unfold Vss.bind at 1 in Hrun.
  assert (Hlast : r = Ok tt /\ sent tr = steps).
  { match type of Hrun with
    | context [?x =? 204] => destruct (x =? 204); [|destruct (x =? 500)]
    end;
      unfold Vss.print in Hrun; injection Hrun as <- <-;
      (split; [reflexivity|]); read_sent; reflexivity. }
  destruct Hlast as [_ Hsent]. rewrite Hsent.
  split; [exists 5%nat; split; [lia|reflexivity]|].
  intros _. right. reflexivity.
Qed.

(** ** [list-devices.py] *)

Section ListFacts.
Variable H : Vss.host.

Lemma length_append (a b : string) :
  String.length (a ^^ b) = (String.length a + String.length b)%nat.
Proof. induction a as [|c a IH]; cbn; [|rewrite IH]; reflexivity. Qed.

Lemma length_spaces (n : nat) : String.length (Vss.spaces n) = n.
Proof. induction n as [|n IH]; cbn; [|rewrite IH]; reflexivity. Qed.

Lemma length_pad (s : string) (width : nat) :
  String.length (Vss.pad s width) = Nat.max (String.length s) width.
Proof. unfold Vss.pad. rewrite length_append, length_spaces. lia. Qed.

Lemma length_lower (s : string) : String.length (lower s) = String.length s.
Proof. induction s as [|c s IH]; cbn; [|rewrite IH]; reflexivity. Qed.

(** The listing request: the first thing the script does. *)
Lemma fetch_run :
  let req := ListDevices.signed H "GET" "/device/" (Vss.clock H 0) in
  ListDevices.fetch H [] =
  (match Vss.urlopen H req with
   | Vss.Response _ raw => Vss.json_loads H raw
   | Vss.HTTPError _ msg => Raise (External msg)
   | Vss.Failure e => Raise e
   end, [Vss.Sent req]).
Proof.
  intro req. unfold ListDevices.fetch, ListDevices.sign, ListDevices.send.
  unfold Vss.bind. cbn [length app]. fold req.
  destruct (Vss.urlopen H req); reflexivity.
Qed.

(** The row of a device whose three texts are strings or missing. *)
Lemma row_run (d : json) (t : string * string * string)
    (tr : list Vss.event) :
  device_texts d = Some t ->
  ListDevices.row H d tr = (Ok tt, tr ++ [Vss.Printed (row_text t)]).
Proof.
  unfold device_texts, ListDevices.row, row_text.
  destruct d as [| | | | | |fields]; try discriminate.
  rewrite !bind_lift. unfold Py.get.
  destruct (dict_get "Uuid" fields) as [[| | | |uuid| |]|]; try discriminate;
    cbn [Vss.lower_value]; rewrite bind_lift;
    (destruct (dict_get "State" fields) as [[| | | |state| |]|];
     try discriminate; rewrite bind_lift;
     (destruct (dict_get "Options" fields) as [[| | | | | |options]|];
      try discriminate; rewrite !bind_lift;
      [destruct (dict_get "Name" options) as [[| | | |name| |]|];
       try discriminate|];
      cbn [dict_get Vss.format_left]; rewrite bind_lift;
      intros [= <-]; reflexivity)).
Qed.

Lemma rows_run (items : list json) (texts : list (string * string * string)) :
  map device_texts items = map Some texts ->
  forall tr,
    ListDevices.rows H items tr =
    (Ok tt, tr ++ map (fun t => Vss.Printed (row_text t)) texts).
Proof.
  revert texts. induction items as [|d items IH]; intros [|t texts] Hmap tr;
    try discriminate.
  - cbn. rewrite app_nil_r. reflexivity.
  - cbn [map] in Hmap. injection Hmap as Hd Hrest.
    cbn [ListDevices.rows map]. unfold Vss.bind.
    rewrite (@row_run d t tr Hd), (IH texts Hrest).
    rewrite <- app_assoc. reflexivity.
Qed.

End ListFacts.

(** X20.  When the server lists no device (an empty list, or any document
    that counts as false), [list-devices.py] prints the one line that says
    so, after its single request, and ends normally. *)
Theorem no_devices_message (H : Vss.host) (status : Z) (raw : string)
    (devices : json)
    (Hreply : Vss.urlopen H
                (ListDevices.signed H "GET" "/device/" (Vss.clock H 0))
              = Vss.Response status raw)
    (Hload : Vss.json_loads H raw = Ok devices)
    (Hnone : truthy devices = false) :
  Vss.run (ListDevices.main H) =
  (Ok tt,
   [Vss.Sent (ListDevices.signed H "GET" "/device/" (Vss.clock H 0));
    Vss.Printed
      "No devices found. Make sure devices are powered on and connected to VSS."]).
Proof.
  unfold Vss.run, ListDevices.main. unfold Vss.bind at 1.
  rewrite fetch_run. cbv zeta. rewrite Hreply, Hload, Hnone. reflexivity.
Qed.

(** The server lists no device. *)
Lemma no_devices_message_witness :
  printed (snd (Vss.run (ListDevices.main
                           (SampleVss.always (Vss.Response 200 "[]")))))
  = ["No devices found. Make sure devices are powered on and connected to VSS."].
Proof.
  rewrite (@no_devices_message (SampleVss.always (Vss.Response 200 "[]"))
             200 "[]" (JList []) eq_refl eq_refl eq_refl).
  reflexivity.
Defined.

(** X21.  For a non-empty list of devices whose [Uuid], [State] and
    [Options.Name] are strings or are missing, [list-devices.py] prints the
    heading, a rule of 80 dashes and then one row per device in the order of
    the list: the UUID in lower case (empty when missing) padded to 44
    columns, the state ([unknown] when missing) padded to 10 columns, and
    the name ([(unnamed)] when missing).  A row is as long as the two padded
    columns, two spaces and the name, so names line up under the heading
    whenever the UUID and the state fit their columns. *)
Theorem device_table (H : Vss.host) (status : Z) (raw : string)
    (items : list json) (texts : list (string * string * string))
    (Hreply : Vss.urlopen H
                (ListDevices.signed H "GET" "/device/" (Vss.clock H 0))
              = Vss.Response status raw)
    (Hload : Vss.json_loads H raw = Ok (JList items))
    (Hsome : items <> [])
    (Htexts : map device_texts items = map Some texts) :
  Vss.run (ListDevices.main H) =
  (Ok tt,
   [Vss.Sent (ListDevices.signed H "GET" "/device/" (Vss.clock H 0));
    Vss.Printed (Vss.pad "UUID" 44 ^^ " " ^^ Vss.pad "State" 10 ^^ " Name");
    Vss.Printed (ListDevices.dashes 80)]
   ++ map (fun t => Vss.Printed (row_text t)) texts) /\
  Forall (fun t : string * string * string =>
            String.length (row_text t)
            = (Nat.max (String.length (fst (fst t))) 44
               + Nat.max (String.length (snd (fst t))) 10
               + 2 + String.length (snd t))%nat)
         texts.
Proof.
  split.
  - unfold Vss.run, ListDevices.main. unfold Vss.bind at 1.
    rewrite fetch_run. cbv zeta. rewrite Hreply, Hload.
    destruct items as [|d items]; [contradiction|].
    cbn [truthy negb]. rewrite !bind_print, bind_lift. cbn [Vss.iterate].
    rewrite (@rows_run H (d :: items) texts Htexts). reflexivity.
  - apply Forall_forall. intros [[uuid state] name] _.
    unfold row_text. cbn [fst snd].
    rewrite !length_append, !length_pad, length_lower. cbn [String.length].
    lia.
Qed.

(** The server lists two devices, the second one without a name. *)
Lemma device_table_witness :
  printed (snd (Vss.run (ListDevices.main SampleVss.server)))
  = ["UUID                                         State      Name";
     "--------------------------------------------------------------------------------";
     "2a003500-0f47-3130-3830-333200000000         online     Kitchen";
     "4b001200-0f47-3130-3830-333200000000         offline    (unnamed)"].
Proof.
  rewrite (proj1 (@device_table SampleVss.server 200 "devices"
                    [SampleVss.device_a; SampleVss.device_b]
                    [("2A003500-0F47-3130-3830-333200000000", "online",
                      "Kitchen");
                     ("4B001200-0F47-3130-3830-333200000000", "offline",
                      "(unnamed)")]
                    eq_refl eq_refl ltac:(discriminate) eq_refl)).
  vm_compute. reflexivity.
Defined.

(** X22.  [list-devices.py] catches nothing: an [HTTPError], any other
    failure of the request and a body that is not JSON all end the script
    with the exception, after the single request and before any line is
    printed. *)
Theorem listing_failure_escapes (H : Vss.host) (e : exn)
    (Hfail : let req := ListDevices.signed H "GET" "/device/" (Vss.clock H 0) in
             match Vss.urlopen H req with
             | Vss.Response _ raw => Vss.json_loads H raw = Raise e
             | Vss.HTTPError _ msg => e = External msg
             | Vss.Failure e' => e = e'
             end) :
  Vss.run (ListDevices.main H) =
  (Raise e, [Vss.Sent (ListDevices.signed H "GET" "/device/" (Vss.clock H 0))]).
Proof.
  unfold Vss.run, ListDevices.main. unfold Vss.bind at 1.
  rewrite fetch_run. cbv zeta in *.
  destruct (Vss.urlopen H _) as [status raw|code msg|e'].
  - rewrite Hfail. reflexivity.
  - subst e. reflexivity.
  - subst e. reflexivity.
Qed.

(** The server rejects the signature. *)
Lemma listing_failure_escapes_witness :
  Vss.run (ListDevices.main
             (SampleVss.always (Vss.HTTPError 401 "HTTP Error 401: Unauthorized")))
  = (Raise (External "HTTP Error 401: Unauthorized"),
     [Vss.Sent (ListDevices.signed
                  (SampleVss.always
                     (Vss.HTTPError 401 "HTTP Error 401: Unauthorized"))
                  "GET" "/device/" 1700000000)]).
Proof.
  exact (@listing_failure_escapes
           (SampleVss.always (Vss.HTTPError 401 "HTTP Error 401: Unauthorized"))
           (External "HTTP Error 401: Unauthorized") eq_refl).
Defined.

